(** * A shallow embedding of the test-prep coach backend

    The development follows the layout of [src/backend]:

    - [Py]: the fragment of Python's data model the code relies on
      (JSON-like values, truthiness, string methods, exceptions, binary64
      arithmetic through the Standard Library's IEEE-754 specification);
    - [Config]: [config.py];
    - [MemoryStore]: [storage/memory_store.py];
    - [UserProfile], [QuizManagement], [PerformanceAnalysis],
      [ProgressTracking], [Explanations], [LearningHistory]: the tool
      modules under [tools/];
    - [LlmClient], [TestPrepAgent]: [agents/llm_client.py], the
      tool-calling loop and the constructor of the agent;
    - [Orchestrator], [Presentation], [QuickReplies]:
      [agents/orchestrator.py] with the button lists of
      [agents/scenarios.py] it uses;
    - [Api]: the endpoints of [main.py].

    Definitions come first; the theorems about them follow. *)

From Stdlib Require Import ZArith Lia Ascii String List SpecFloat PrimFloat FloatOps.
From stdpp Require Import gmap strings list sorting.

Set Warnings "-register-all,-inexact-float".

(* ===================================================================== *)
(** * Python's data model                                                 *)
(* ===================================================================== *)

Module Py.

(** JSON-like values: what [json.loads] produces and what the tools return.
    A [dict] keeps its items in insertion order, as Python's does, so it
    is a list of key/value pairs; floats are binary64 numbers in the
    Standard Library's [spec_float]. *)
Inductive pyval : Type :=
| VNone
| VBool (b : bool)
| VInt (z : Z)
| VFloat (f : spec_float)
| VStr (s : string)
| VList (l : list pyval)
| VDict (d : list (string * pyval)).

#[global] Instance pyval_inhabited : Inhabited pyval := populate VNone.

(** A Python [dict] with string keys, in insertion order. *)
Abbreviation pydict := (list (string * pyval)).

(** [d[k]] when present. *)
Fixpoint dict_lookup (d : pydict) (k : string) : option pyval :=
  match d with
  | [] => None
  | (k', v) :: d' => if String.eqb k' k then Some v else dict_lookup d' k
  end.

(** [d.get(k)]: the value under [k], [None] when the key is absent. *)
Definition dict_get (d : pydict) (k : string) : pyval := default VNone (dict_lookup d k).

(** [d.get(k, dflt)]. *)
Definition dict_get_default (d : pydict) (k : string) (dflt : pyval) : pyval :=
  default dflt (dict_lookup d k).

(** [k in d]. *)
Definition dict_has (d : pydict) (k : string) : bool :=
  match dict_lookup d k with Some _ => true | None => false end.

(** [d[k] = v]: an existing key keeps its place, a new one goes last. *)
Fixpoint dict_set (d : pydict) (k : string) (v : pyval) : pydict :=
  match d with
  | [] => [(k, v)]
  | (k', v') :: d' =>
      if String.eqb k' k then (k', v) :: d' else (k', v') :: dict_set d' k v
  end.

(** [d.update(u)]: the items of [u] are written in their order. *)
Definition dict_update (d u : pydict) : pydict :=
  fold_left (fun acc kv => dict_set acc kv.1 kv.2) u d.

(** [list(d.keys())]. *)
Definition dict_keys (d : pydict) : list string := map fst d.

(** Truthiness of a float: everything but the two zeros. *)
Definition float_truthy (f : spec_float) : bool :=
  match f with S754_zero _ => false | _ => true end.

(** [bool(v)]: [None], [False], zero, the empty string, list and dict are
    falsy. *)
Definition truthy (v : pyval) : bool :=
  match v with
  | VNone => false
  | VBool b => b
  | VInt z => negb (z =? 0)%Z
  | VFloat f => float_truthy f
  | VStr s => negb (String.eqb s "")
  | VList l => match l with [] => false | _ => true end
  | VDict d => match d with [] => false | _ => true end
  end.

(** [v == s] for a string [s]: only an equal string compares equal. *)
Definition eq_str (v : pyval) (s : string) : bool :=
  match v with VStr t => String.eqb t s | _ => false end.

(** [o == v] where [o] is a string or [None] (a field read with [.get]). *)
Definition eq_opt_str (o : option string) (v : pyval) : bool :=
  match o, v with
  | None, VNone => true
  | Some s, VStr t => String.eqb s t
  | _, _ => false
  end.

(** [v == [s]]: the one-element list holding the string [s]. *)
Definition eq_str_singleton (v : pyval) (s : string) : bool :=
  match v with VList [x] => eq_str x s | _ => false end.

(** ** Strings

    A string is a sequence of code points below 256 (Latin-1); [length]
    is Python's [len]. *)

(** [c.isspace()] on code points below 256. *)
Definition is_space (c : ascii) : bool :=
  let n := nat_of_ascii c in
  ((9 <=? n) && (n <=? 13)) || ((28 <=? n) && (n <=? 32))
  || (n =? 133) || (n =? 160).

Fixpoint lstrip (s : string) : string :=
  match s with
  | String c s' => if is_space c then lstrip s' else s
  | EmptyString => EmptyString
  end.

(** Drops trailing white space: a character is kept when it is not white
    space or when something is kept after it. *)
Fixpoint rstrip (s : string) : string :=
  match s with
  | EmptyString => EmptyString
  | String c s' =>
      match rstrip s' with
      | EmptyString => if is_space c then EmptyString else String c EmptyString
      | r => String c r
      end
  end.

(** [s.strip()]. *)
Definition strip (s : string) : string := rstrip (lstrip s).

(** [s.startswith(p)]. *)
Fixpoint startswith (p s : string) : bool :=
  match p, s with
  | EmptyString, _ => true
  | String a p', String b s' => Ascii.eqb a b && startswith p' s'
  | String _ _, EmptyString => false
  end.

(** [needle in hay] on strings: substring test. *)
Fixpoint contains (needle hay : string) : bool :=
  startswith needle hay
  || match hay with
     | EmptyString => false
     | String _ hay' => contains needle hay'
     end.

(** [c.lower()] on code points below 256: A-Z, and the Latin-1 capitals
    À-Þ but for the multiplication sign. *)
Definition lower_char (c : ascii) : ascii :=
  let n := nat_of_ascii c in
  if ((65 <=? n) && (n <=? 90))
     || ((192 <=? n) && (n <=? 222) && negb (n =? 215))
  then ascii_of_nat (n + 32) else c.

Fixpoint lower (s : string) : string :=
  match s with
  | EmptyString => EmptyString
  | String c s' => String (lower_char c) (lower s')
  end.

(** [sep.join(parts)]. *)
Fixpoint join (sep : string) (parts : list string) : string :=
  match parts with
  | [] => ""
  | [p] => p
  | p :: rest => p ++ sep ++ join sep rest
  end.

(** Decimal digits of a natural number, for [str(n)] in f-strings. *)
Definition digit_char (n : nat) : ascii := ascii_of_nat (48 + n).

Fixpoint digits_fuel (fuel n : nat) (acc : string) : string :=
  match fuel with
  | O => acc
  | S f =>
      let acc' := String (digit_char (n mod 10)) acc in
      if (n / 10 =? 0)%nat then acc' else digits_fuel f (n / 10) acc'
  end.

Definition str_of_nat (n : nat) : string := digits_fuel (S n) n "".

Definition str_of_Z (z : Z) : string :=
  match z with
  | Z0 => "0"
  | Zpos p => str_of_nat (Pos.to_nat p)
  | Zneg p => "-" ++ str_of_nat (Pos.to_nat p)
  end.

(** [l[-n:]]: the last [n] items. *)
Definition last_n {A} (n : nat) (l : list A) : list A := drop (length l - n) l.

(** ** Exceptions

    The classes the code tells apart, in the order of the [except] clauses
    of [process_message]: [AuthenticationError] is an [APIError], which is
    an [OpenAIError], which is an [Exception].  [status] is the
    [status_code] attribute when the exception has one. *)
Inductive exn : Type :=
| AuthenticationError (msg : string) (status : option Z)
| APIError (msg : string) (status : option Z)
| OpenAIError (msg : string)
| OtherException (cls : string) (msg : string).

(** [str(e)]. *)
Definition exn_str (e : exn) : string :=
  match e with
  | AuthenticationError m _ | APIError m _ | OpenAIError m | OtherException _ m => m
  end.

Definition TypeError (m : string) : exn := OtherException "TypeError" m.
Definition ValueError (m : string) : exn := OtherException "ValueError" m.
Definition AttributeError (m : string) : exn := OtherException "AttributeError" m.
Definition OverflowError (m : string) : exn := OtherException "OverflowError" m.

(** The outcome of a call: a value, or a raised exception. *)
Inductive result (A : Type) : Type :=
| Ok (a : A)
| Raise (e : exn).
Arguments Ok {A} a.
Arguments Raise {A} e.

Definition is_ok {A} (r : result A) : bool :=
  match r with Ok _ => true | Raise _ => false end.

Definition rbind {A B} (r : result A) (k : A -> result B) : result B :=
  match r with Ok a => k a | Raise e => Raise e end.

End Py.
Export Py.

(* ===================================================================== *)
(** * Binary64 arithmetic                                                 *)
(* ===================================================================== *)

(** Python's [float] is IEEE-754 binary64.  Its operations are taken from
    the Standard Library's specification [SpecFloat], at precision 53 and
    maximal exponent 1024. *)
Module Float64.

Definition prec : Z := 53.
Definition emax : Z := 1024.

Definition fmul : spec_float -> spec_float -> spec_float := SFmul prec emax.
Definition fltb : spec_float -> spec_float -> bool := SFltb.
Definition fleb : spec_float -> spec_float -> bool := SFleb.

(** The binary64 number nearest to the integer [z] (ties to even);
    infinite when [z] is out of range. *)
Definition Z2SF (z : Z) : spec_float := binary_normalize prec emax z 0 false.

(** [float(z)] as done for a mixed [int]/[float] operation: raises
    [OverflowError] when [z] is out of range. *)
Definition float_of_int (z : Z) : result spec_float :=
  match Z2SF z with
  | S754_infinity _ => Raise (OverflowError "int too large to convert to float")
  | f => Ok f
  end.

(** The binary64 number nearest to the quotient [a / b] of two integers,
    [b] positive (ties to even). *)
Definition float_of_ratio (a : Z) (b : positive) : spec_float :=
  match a with
  | Z0 => S754_zero false
  | Zpos p =>
      let '(q, e, l) := SFdiv_core_binary prec emax (Zpos p) 0 (Zpos b) 0 in
      binary_round_aux prec emax false q e l
  | Zneg p =>
      let '(q, e, l) := SFdiv_core_binary prec emax (Zpos p) 0 (Zpos b) 0 in
      binary_round_aux prec emax true q e l
  end.

(** [a / b] on [int]s (true division): the correctly rounded quotient. *)
Definition int_truediv (a b : Z) : result spec_float :=
  match b with
  | Z0 => Raise (OtherException "ZeroDivisionError" "division by zero")
  | Zpos p =>
      match float_of_ratio a p with
      | S754_infinity _ =>
          Raise (OverflowError "integer division result too large for a float")
      | f => Ok f
      end
  | Zneg p =>
      match a with
      | Z0 => Ok (S754_zero true)
      | _ =>
          match float_of_ratio (- a) p with
          | S754_infinity _ =>
              Raise (OverflowError "integer division result too large for a float")
          | f => Ok f
          end
      end
  end.

(** [int(f)]: truncation towards zero. *)
Definition int_of_float (f : spec_float) : result Z :=
  match f with
  | S754_zero _ => Ok 0%Z
  | S754_finite s m e =>
      let a := if (0 <=? e)%Z then Z.shiftl (Zpos m) e else Z.shiftr (Zpos m) (- e) in
      Ok (if s then (- a)%Z else a)
  | S754_infinity _ => Raise (OverflowError "cannot convert float infinity to integer")
  | S754_nan => Raise (ValueError "cannot convert float NaN to integer")
  end.

(** [n * c] for an [int] [n] and a [float] [c]. *)
Definition int_times_float (n : Z) (c : spec_float) : result spec_float :=
  rbind (float_of_int n) (fun f => Ok (fmul f c)).

(** The literals of the source. *)
Definition f0_3 : spec_float := S754_finite false 5404319552844595 (-54).
Definition f0_5 : spec_float := S754_finite false 4503599627370496 (-53).
Definition f0_7 : spec_float := S754_finite false 6305039478318694 (-53).

(** Integer division rounding to nearest, ties to even. *)
Definition div_half_even (a d : Z) : Z :=
  let q := (a / d)%Z in
  let r := (a mod d)%Z in
  match (2 * r ?= d)%Z with
  | Lt => q
  | Gt => (q + 1)%Z
  | Eq => if Z.even q then q else (q + 1)%Z
  end.

(** [round(f, 2)]: the exact value of [f] is rounded to two decimals (ties
    to even, as the shortest-digits conversion does), and the decimal
    [M / 100] obtained is converted back to the nearest binary64 number. *)
Definition round2 (f : spec_float) : spec_float :=
  match f with
  | S754_finite s m e =>
      let M := if (0 <=? e)%Z then Z.shiftl (100 * Zpos m) e
               else div_half_even (100 * Zpos m) (2 ^ (- e)) in
      match M with
      | Z0 => S754_zero s
      | _ => float_of_ratio (if s then - M else M)%Z 100
      end
  | _ => f
  end.

End Float64.
Export Float64.


(* ===================================================================== *)
(** * config.py                                                           *)
(* ===================================================================== *)

Module Config.

(** A line written by [print]: the warning about the key's prefix, with
    the first three characters it shows. *)
Inductive printed : Type :=
| WarnNoSkPrefix (first3 : string).

(** [Settings.validate_and_strip_api_key]: what it prints and what it
    returns or raises. *)
Definition validate_and_strip_api_key (v : string) : list printed * result string :=
  if String.eqb v "" then
    ([], Raise (ValueError "OPENAI_API_KEY cannot be empty"))
  else
    let api_key := strip v in
    let out :=
      if startswith "sk-" api_key then []
      else [WarnNoSkPrefix (String.substring 0 3 api_key)] in
    if (String.length api_key <? 20)%nat then
      (out, Raise (ValueError ("OPENAI_API_KEY seems too short (length: "
                               ++ str_of_nat (String.length api_key)
                               ++ "). Please check your .env file.")))
    else (out, Ok api_key).

Record Settings : Type := {
  OPENAI_API_KEY : string;
  ENVIRONMENT : string;
  DEBUG : bool
}.

(** [Settings()]: the key is read from the environment ([None] when the
    variable is not set) and passed through the validator; a [ValueError]
    of the validator surfaces as the settings' validation error. *)
Definition Settings_new (env_key : option string) (environment : string) (debug : bool)
  : result Settings :=
  match env_key with
  | None => Raise (OtherException "ValidationError" "OPENAI_API_KEY: Field required")
  | Some v =>
      match (validate_and_strip_api_key v).2 with
      | Ok k => Ok {| OPENAI_API_KEY := k; ENVIRONMENT := environment; DEBUG := debug |}
      | Raise e => Raise (OtherException "ValidationError" (exn_str e))
      end
  end.

(** [get_settings()]. *)
Definition get_settings (env_key : option string) (environment : string) (debug : bool)
  : result Settings :=
  rbind (Settings_new env_key environment debug) (fun settings =>
    if String.eqb (OPENAI_API_KEY settings) "" then
      Raise (ValueError "OPENAI_API_KEY is missing. Please check your .env file.")
    else Ok settings).

End Config.

(* ===================================================================== *)
(** * storage/memory_store.py                                             *)
(* ===================================================================== *)

Module MemoryStore.

(** An entry of the question catalog.  A field is [None] when the key is
    absent, which is what [q.get(key)] returns. *)
Record question : Type := {
  q_question_id : option string;
  q_test_type : option string;
  q_section : option string;
  q_topic : option string;
  q_subtopic : option string;
  q_difficulty : option string;
  q_correct_answer : option string;
  q_explanation : option string;
  q_content : option string;
  q_options : option (list string);
  q_average_time : option Z
}.

#[global] Instance question_eq_dec : EqDecision question.
Proof. solve_decision. Defined.

(** A recorded answer to a quiz question. *)
Record quiz_response : Type := {
  qr_response_id : string;
  qr_quiz_id : string;
  qr_question_id : option string;
  qr_user_answer : option string;
  qr_is_correct : bool;
  qr_time_spent : Z;
  qr_timestamp : string;
  qr_topic : option string;
  qr_difficulty : option string
}.

(** A generated quiz, as [save_quiz] keeps it. *)
Record quiz : Type := {
  quiz_quiz_id : string;
  quiz_user_id : string;
  quiz_created_at : string;
  quiz_questions : list question
}.

(** A message of a session's conversation history. *)
Record conversation_message : Type := {
  cm_message_type : string;
  cm_content : string;
  cm_tool_calls : option (list string);
  cm_timestamp : string
}.

(** The attributes of the [MemoryStore] singleton. *)
Record store : Type := {
  users : gmap string pydict;
  questions : list question;
  test_results : gmap string (list pydict);
  quiz_responses : gmap string (list quiz_response);
  conversation_history : gmap string (list conversation_message);
  study_sessions : gmap string (list pydict);
  quizzes : gmap string quiz
}.

Definition set_users (st : store) (u : gmap string pydict) : store :=
  {| users := u; questions := questions st; test_results := test_results st;
     quiz_responses := quiz_responses st;
     conversation_history := conversation_history st;
     study_sessions := study_sessions st; quizzes := quizzes st |}.

Definition set_quiz_responses (st : store) (r : gmap string (list quiz_response)) : store :=
  {| users := users st; questions := questions st; test_results := test_results st;
     quiz_responses := r;
     conversation_history := conversation_history st;
     study_sessions := study_sessions st; quizzes := quizzes st |}.

Definition set_conversation_history (st : store)
    (h : gmap string (list conversation_message)) : store :=
  {| users := users st; questions := questions st; test_results := test_results st;
     quiz_responses := quiz_responses st;
     conversation_history := h;
     study_sessions := study_sessions st; quizzes := quizzes st |}.

Definition set_quizzes (st : store) (q : gmap string quiz) : store :=
  {| users := users st; questions := questions st; test_results := test_results st;
     quiz_responses := quiz_responses st;
     conversation_history := conversation_history st;
     study_sessions := study_sessions st; quizzes := q |}.

(** [get_user]. *)
Definition get_user (st : store) (user_id : string) : option pydict :=
  users st !! user_id.

(** [update_user]: the user's dict is updated in place. *)
Definition update_user (st : store) (user_id : string) (updates : pydict) : bool * store :=
  match users st !! user_id with
  | Some u => (true, set_users st (<[user_id := dict_update u updates]> (users st)))
  | None => (false, st)
  end.

(** [add_test_result]. *)
Definition add_test_result (st : store) (user_id : string) (r : pydict) : store :=
  {| users := users st; questions := questions st;
     test_results :=
       <[user_id := default [] (test_results st !! user_id) ++ [r]]> (test_results st);
     quiz_responses := quiz_responses st;
     conversation_history := conversation_history st;
     study_sessions := study_sessions st; quizzes := quizzes st |}.

(** [get_test_results]. *)
Definition get_test_results (st : store) (user_id : string) : list pydict :=
  default [] (test_results st !! user_id).

(** [add_quiz_response]. *)
Definition add_quiz_response (st : store) (user_id : string) (r : quiz_response) : store :=
  set_quiz_responses st
    (<[user_id := default [] (quiz_responses st !! user_id) ++ [r]]> (quiz_responses st)).

(** [get_quiz_responses]. *)
Definition get_quiz_responses (st : store) (user_id : string) : list quiz_response :=
  default [] (quiz_responses st !! user_id).

(** [add_conversation_message]. *)
Definition add_conversation_message (st : store) (session_id : string)
    (m : conversation_message) : store :=
  set_conversation_history st
    (<[session_id := default [] (conversation_history st !! session_id) ++ [m]]>
       (conversation_history st)).

(** [get_conversation_history]: the last [limit] messages. *)
Definition get_conversation_history (st : store) (session_id : string) (limit : nat)
  : list conversation_message :=
  last_n limit (default [] (conversation_history st !! session_id)).

(** [save_quiz]. *)
Definition save_quiz (st : store) (quiz_id : string) (quiz_data : quiz) : store :=
  set_quizzes st (<[quiz_id := quiz_data]> (quizzes st)).

(** [get_quiz]. *)
Definition get_quiz (st : store) (quiz_id : string) : option quiz :=
  quizzes st !! quiz_id.

(** The [filters] dict of [get_questions], read at the four keys the
    function looks at: a field is [None] when the key is not in the dict. *)
Record question_filters : Type := {
  f_test_type : option pyval;
  f_section : option pyval;
  f_topic : option pyval;
  f_difficulty : option pyval
}.

Definition no_filters : question_filters :=
  {| f_test_type := None; f_section := None; f_topic := None; f_difficulty := None |}.

(** One [if key in filters: questions = [...]] step. *)
Definition filter_by (flt : option pyval) (keep : pyval -> question -> bool)
    (qs : list question) : list question :=
  match flt with
  | Some a => List.filter (keep a) qs
  | None => qs
  end.

(** [get_questions(filters, limit)]. *)
Definition get_questions (st : store) (filters : question_filters) (limit : nat)
  : list question :=
  let qs := questions st in
  let qs := filter_by (f_test_type filters) (fun v q => eq_opt_str (q_test_type q) v) qs in
  let qs := filter_by (f_section filters) (fun v q => eq_opt_str (q_section q) v) qs in
  let qs := filter_by (f_topic filters) (fun v q => eq_opt_str (q_topic q) v) qs in
  let qs := filter_by (f_difficulty filters)
              (fun v q =>
                 match v with
                 | VList l => existsb (eq_opt_str (q_difficulty q)) l
                 | _ => eq_opt_str (q_difficulty q) v
                 end) qs in
  take limit qs.

End MemoryStore.
Export MemoryStore.

(* ===================================================================== *)
(** * tools/user_profile.py                                               *)
(* ===================================================================== *)

Module UserProfile.

(** [get_user_profile].  [days_until] stands for the clock: the number of
    days from now to an ISO date, [None] when the date does not parse (the
    source swallows that error). *)
Definition get_user_profile (days_until : string -> option Z)
    (st : store) (user_id : string) : pydict :=
  match get_user st user_id with
  | Some ((_ :: _) as user) =>
      let days_until_test :=
        if truthy (dict_get user "test_date") then
          match dict_get user "test_date" with
          | VStr d => match days_until d with Some n => VInt n | None => VNone end
          | _ => VNone
          end
        else VNone in
      [ ("user_id", dict_get user "user_id");
        ("name", dict_get user "name");
        ("email", dict_get user "email");
        ("test_type", dict_get user "test_type");
        ("target_score", dict_get user "target_score");
        ("test_date", dict_get user "test_date");
        ("baseline_score", dict_get user "baseline_score");
        ("current_level", dict_get user "current_level");
        ("study_hours_per_week", dict_get user "study_hours_per_week");
        ("preferences", dict_get_default user "preferences" (VDict []));
        ("days_until_test", days_until_test) ]
  | _ => [ ("error", VStr "User not found"); ("user_id", VStr user_id) ]
  end.

(** The keys [update_user_profile] refuses to write. *)
Definition protected_fields : list string := ["user_id"; "email"].

(** [safe_updates]: the items of [updates] but those of protected keys. *)
Definition safe_updates_of (updates : pydict) : pydict :=
  List.filter (fun kv => negb (bool_decide (kv.1 ∈ protected_fields))) updates.

(** [update_user_profile]. *)
Definition update_user_profile (st : store) (user_id : string) (updates : pydict)
  : pydict * store :=
  let safe_updates := safe_updates_of updates in
  let '(success, st') := update_user st user_id safe_updates in
  if negb success then
    ([ ("error", VStr "User not found"); ("user_id", VStr user_id);
       ("success", VBool false) ], st')
  else
    ([ ("success", VBool true);
       ("message", VStr "Profile updated successfully");
       ("updated_fields", VList (map VStr (dict_keys safe_updates))) ], st').

End UserProfile.

(* ===================================================================== *)
(** * tools/quiz_management.py                                            *)
(* ===================================================================== *)

Module QuizManagement.

(** ** Randomness

    [random.sample] and [random.shuffle] draw positions; the draws are an
    explicit input.  Each draw picks, modulo the number of items left, the
    position of the next item, which is then removed: every selection of
    [k] distinct positions, in every order, comes from some draws. *)
Fixpoint pick {A} (draws : list nat) (pop : list A) (k : nat) : list A :=
  match k with
  | O => []
  | S k' =>
      let i := (hd 0%nat draws mod length pop)%nat in
      match pop !! i with
      | Some x => x :: pick (tl draws) (delete i pop) k'
      | None => []
      end
  end.

(** [random.sample(pop, k)]. *)
Definition random_sample {A} (draws : list nat) (pop : list A) (k : Z)
  : result (list A) :=
  if ((k <? 0) || (Z.of_nat (length pop) <? k))%Z then
    Raise (ValueError "Sample larger than population or is negative")
  else Ok (pick draws pop (Z.to_nat k)).

(** [random.shuffle(l)]. *)
Definition random_shuffle {A} (draws : list nat) (l : list A) : list A :=
  pick draws l (length l).

(** What one call of [generate_adaptive_quiz] takes from its environment:
    the draws of its five uses of [random], the fresh identifier and the
    two readings of the clock. *)
Record quiz_entropy : Type := {
  draws_easy : list nat;
  draws_medium : list nat;
  draws_hard : list nat;
  draws_fill : list nat;
  draws_shuffle : list nat;
  fresh_quiz_id : string;
  now_saved : string;
  now_returned : string
}.

(** The [config] dict, read at the keys the function looks at.  [size] is
    an [int], as the tool schema and the HTTP model declare it; [topics]
    is a list, empty when the key is absent or null. *)
Record quiz_config : Type := {
  cfg_size : option Z;
  cfg_test_type : option pyval;
  cfg_section : pyval;
  cfg_topics : list pyval
}.

(** An item of the ["questions"] list of the returned quiz. *)
Record quiz_question : Type := {
  qq_question_number : nat;
  qq_question_id : option string;
  qq_content : option string;
  qq_options : option (list string);
  qq_difficulty : option string;
  qq_topic : option string;
  qq_estimated_time : Z
}.

(** The dict returned on success. *)
Record quiz_created : Type := {
  qc_message : string;
  qc_quiz_id : string;
  qc_user_id : string;
  qc_created_at : string;
  qc_total_questions : nat;
  qc_section : pyval;
  qc_focus_areas : list pyval;
  qc_questions : list quiz_question
}.

(** What [generate_adaptive_quiz] returns: an error dict with its two
    texts, or the quiz. *)
Inductive quiz_outcome : Type :=
| QuizError (error : string) (text : string)
| QuizCreated (q : quiz_created).

(** [str(v)] as an f-string inserts it; [repr_other] is Python's text for
    floats, lists and dicts. *)
Definition py_str (repr_other : pyval -> string) (v : pyval) : string :=
  match v with
  | VNone => "None"
  | VBool true => "True"
  | VBool false => "False"
  | VInt z => str_of_Z z
  | VStr s => s
  | _ => repr_other v
  end.

(** The first catalog entry with the given id, as
    [next((q for q in store.questions if q.get("question_id") == id), None)]. *)
Definition find_question (st : store) (question_id : option string) : option question :=
  List.find (fun q => bool_decide (q_question_id q = question_id)) (questions st).

(** [topic_performance]: per topic, the pair [(total, correct)], in the
    order the topics were first met. *)
Fixpoint bump_topic (perf : list (option string * (Z * Z))) (topic : option string)
    (is_correct : bool) : list (option string * (Z * Z)) :=
  match perf with
  | [] => [(topic, (1, if is_correct then 1 else 0))%Z]
  | (t, (total, correct)) :: rest =>
      if bool_decide (t = topic)
      then (t, (total + 1, if is_correct then correct + 1 else correct))%Z :: rest
      else (t, (total, correct)) :: bump_topic rest topic is_correct
  end.

Definition topic_performance_of (st : store) (recent_responses : list quiz_response)
  : list (option string * (Z * Z)) :=
  fold_left
    (fun perf response =>
       match find_question st (qr_question_id response) with
       | Some q => bump_topic perf (q_topic q) (qr_is_correct response)
       | None => perf
       end)
    recent_responses [].

(** [perf["total"] >= 3 and (perf["correct"] / perf["total"]) < 0.7]; the
    division is reached with a positive total only. *)
Definition is_weak (perf : Z * Z) : bool :=
  let '(total, correct) := perf in
  (3 <=? total)%Z
  && match int_truediv correct total with
     | Ok ratio => fltb ratio f0_7
     | Raise _ => false
     end.

(** A topic key as a Python value. *)
Definition topic_value (t : option string) : pyval :=
  match t with Some s => VStr s | None => VNone end.

Definition weak_topics_of (perf : list (option string * (Z * Z))) : list pyval :=
  map (fun tp => topic_value tp.1) (List.filter (fun tp => is_weak tp.2) perf).

(** [[q for q in qs if q.get("difficulty") == d]]. *)
Definition of_difficulty (d : string) (qs : list question) : list question :=
  List.filter (fun q => bool_decide (q_difficulty q = Some d)) qs.

(** One [if bucket: selected.extend(random.sample(bucket, min(n, len(bucket))))]. *)
Definition extend_from (draws : list nat) (bucket : list question) (n : Z)
    (selected : list question) : result (list question) :=
  match bucket with
  | [] => Ok selected
  | _ =>
      rbind (random_sample draws bucket (Z.min n (Z.of_nat (length bucket))))
            (fun picked => Ok (selected ++ picked))
  end.

Definition quiz_question_of (idx : nat) (q : question) : quiz_question :=
  {| qq_question_number := idx + 1;
     qq_question_id := q_question_id q;
     qq_content := q_content q;
     qq_options := q_options q;
     qq_difficulty := q_difficulty q;
     qq_topic := q_topic q;
     qq_estimated_time := default 90%Z (q_average_time q) |}.

(** The questions matching the user's test type and the section, or,
    when there is none, the section alone (the fallback). *)
Definition matching_questions (st : store) (test_type section : pyval)
  : list question :=
  let all_questions :=
    get_questions st
      {| f_test_type := Some test_type;
         f_section := if truthy section then Some section else None;
         f_topic := None; f_difficulty := None |} 1000 in
  match all_questions with
  | [] =>
      get_questions st
        {| f_test_type := None;
           f_section := if truthy section then Some section else None;
           f_topic := None; f_difficulty := None |} 1000
  | _ => all_questions
  end.

(** The questions not answered in the last twenty responses, unless that
    leaves fewer than the quiz needs while all of them would do. *)
Definition unseen_questions (recent_responses : list quiz_response)
    (all_questions : list question) (quiz_size : Z) : list question :=
  let recent_question_ids := map qr_question_id (last_n 20 recent_responses) in
  let available_questions :=
    List.filter (fun q => negb (bool_decide (q_question_id q ∈ recent_question_ids)))
                all_questions in
  if ((Z.of_nat (length available_questions) <? quiz_size)
      && (quiz_size <=? Z.of_nat (length all_questions)))%Z
  then all_questions else available_questions.

(** The questions of the target topics, when there are target topics and
    some question has one of them. *)
Definition prioritize (target_topics : list pyval) (available_questions : list question)
  : list question :=
  match target_topics with
  | [] => available_questions
  | _ =>
      match List.filter (fun q => existsb (eq_opt_str (q_topic q)) target_topics)
                        available_questions with
      | [] => available_questions
      | prioritized => prioritized
      end
  end.

(** The selection: 30% easy, 50% medium and the rest hard questions,
    filled up from what is left, then shuffled. *)
Definition select_questions (ent : quiz_entropy) (quiz_size : Z)
    (available_questions : list question) : result (list question) :=
  let easy := of_difficulty "easy" available_questions in
  let medium := of_difficulty "medium" available_questions in
  let hard := of_difficulty "hard" available_questions in
  rbind (rbind (int_times_float quiz_size f0_3) int_of_float) (fun num_easy =>
  rbind (rbind (int_times_float quiz_size f0_5) int_of_float) (fun num_medium =>
  let num_hard := (quiz_size - num_easy - num_medium)%Z in
  rbind (extend_from (draws_easy ent) easy num_easy []) (fun selected =>
  rbind (extend_from (draws_medium ent) medium num_medium selected) (fun selected =>
  rbind (extend_from (draws_hard ent) hard num_hard selected) (fun selected =>
  rbind
    (if (Z.of_nat (length selected) <? quiz_size)%Z then
       let remaining :=
         List.filter (fun q => negb (bool_decide (q ∈ selected)))
                     available_questions in
       let needed := (quiz_size - Z.of_nat (length selected))%Z in
       rbind (random_sample (draws_fill ent) remaining
                (Z.min needed (Z.of_nat (length remaining))))
             (fun picked => Ok (selected ++ picked))
     else Ok selected) (fun selected =>
  Ok (random_shuffle (draws_shuffle ent) selected))))))).

(** [generate_adaptive_quiz].  It returns a dict, or raises; the store is
    written only when a quiz is created. *)
Definition generate_adaptive_quiz (repr_other : pyval -> string) (ent : quiz_entropy)
    (st : store) (user_id : string) (config : quiz_config)
  : result quiz_outcome * store :=
  match get_user st user_id with
  | Some ((_ :: _) as user) =>
      let quiz_size := default 20%Z (cfg_size config) in
      let test_type := default (dict_get user "test_type") (cfg_test_type config) in
      let section := cfg_section config in
      let focus_topics := cfg_topics config in
      let responses := get_quiz_responses st user_id in
      let recent_responses := last_n 50 responses in
      let topic_performance := topic_performance_of st recent_responses in
      let weak_topics := weak_topics_of topic_performance in
      let all_questions := matching_questions st test_type section in
      let target_topics := match focus_topics with [] => weak_topics | _ => focus_topics end in
      let available_questions := unseen_questions recent_responses all_questions quiz_size in
      match available_questions with
      | [] =>
          (Ok (QuizError "No questions available matching criteria"
                 ("Tried test_type='" ++ py_str repr_other test_type
                  ++ "', section='" ++ py_str repr_other section
                  ++ "', found " ++ str_of_nat (length all_questions)
                  ++ " total questions")), st)
      | _ =>
          let available_questions := prioritize target_topics available_questions in
          match select_questions ent quiz_size available_questions with
          | Raise e => (Raise e, st)
          | Ok selected_questions =>
              let quiz_id := fresh_quiz_id ent in
              let st' :=
                save_quiz st quiz_id
                  {| quiz_quiz_id := quiz_id; quiz_user_id := user_id;
                     quiz_created_at := now_saved ent;
                     quiz_questions := selected_questions |} in
              (Ok (QuizCreated
                     {| qc_message :=
                          "Successfully created a personalized quiz with "
                          ++ str_of_nat (length selected_questions) ++ " questions";
                        qc_quiz_id := quiz_id;
                        qc_user_id := user_id;
                        qc_created_at := now_returned ent;
                        qc_total_questions := length selected_questions;
                        qc_section := if truthy section then section else VStr "mixed";
                        qc_focus_areas :=
                          match target_topics with
                          | [] => [VStr "general"]
                          | _ => take 3 target_topics
                          end;
                        qc_questions := imap quiz_question_of selected_questions |}),
               st')
          end
      end
  | _ =>
      (Ok (QuizError ("User not found: " ++ user_id)
             "User profile not found. Please check the user ID."), st)
  end.

(** ** Submitting answers *)

(** An item of the [responses] list, read at the keys the function looks
    at; a field is [None] when its key is absent. *)
Record submitted_response : Type := {
  sr_question_id : option string;
  sr_answer : option string;
  sr_time_spent : option Z
}.

(** An item of the ["results"] list of the feedback. *)
Record answer_result : Type := {
  ar_question_id : string;
  ar_user_answer : option string;
  ar_correct_answer : option string;
  ar_is_correct : bool;
  ar_topic : option string;
  ar_difficulty : option string;
  ar_explanation : option string
}.

(** The dict [submit_quiz_response] returns.  The two rounded figures are
    the [int] 0 for an empty submission and a [float] otherwise. *)
Record quiz_feedback : Type := {
  fb_quiz_id : string;
  fb_total_questions : nat;
  fb_correct_answers : Z;
  fb_accuracy : pyval;
  fb_total_time_seconds : Z;
  fb_average_time_per_question : pyval;
  fb_performance_level : string;
  fb_results : list answer_result
}.

(** The fresh identifier and the clock reading used for the [i]-th saved
    response. *)
Record submit_entropy : Type := {
  fresh_response_id : nat -> string;
  now_at : nat -> string
}.

(** The local variables of the loop over [responses]. *)
Record submit_state : Type := {
  ss_results : list answer_result;
  ss_total_correct : Z;
  ss_total_time : Z;
  ss_saved : nat;
  ss_store : store
}.

(** The body of the loop over [responses]. *)
Definition submit_step (ent : submit_entropy) (user_id quiz_id : string)
    (s : submit_state) (response_data : submitted_response) : submit_state :=
  let question_id := sr_question_id response_data in
  let user_answer := sr_answer response_data in
  let time_spent := default 0%Z (sr_time_spent response_data) in
  match find_question (ss_store s) question_id with
  | None => s
  | Some question =>
      let is_correct := bool_decide (user_answer = q_correct_answer question) in
      {| ss_results :=
           ss_results s ++
           [ {| ar_question_id := default "None" question_id;
                ar_user_answer := user_answer;
                ar_correct_answer := q_correct_answer question;
                ar_is_correct := is_correct;
                ar_topic := q_topic question;
                ar_difficulty := q_difficulty question;
                ar_explanation :=
                  if is_correct then None else q_explanation question |} ];
         ss_total_correct :=
           if is_correct then (ss_total_correct s + 1)%Z else ss_total_correct s;
         ss_total_time := (ss_total_time s + time_spent)%Z;
         ss_saved := S (ss_saved s);
         ss_store :=
           add_quiz_response (ss_store s) user_id
             {| qr_response_id := fresh_response_id ent (ss_saved s);
                qr_quiz_id := quiz_id;
                qr_question_id := question_id;
                qr_user_answer := user_answer;
                qr_is_correct := is_correct;
                qr_time_spent := time_spent;
                qr_timestamp := now_at ent (ss_saved s);
                qr_topic := q_topic question;
                qr_difficulty := q_difficulty question |} |}
  end.

(** [accuracy >= bound] for the [int] 0 or a [float]. *)
Definition at_least (accuracy : pyval) (bound : Z) : bool :=
  match accuracy with
  | VFloat f => fleb (Z2SF bound) f
  | VInt z => (bound <=? z)%Z
  | _ => false
  end.

(** [round(x, 2)] for the [int] 0 or a [float]. *)
Definition round2_value (x : pyval) : pyval :=
  match x with
  | VFloat f => VFloat (round2 f)
  | _ => x
  end.

(** [submit_quiz_response]. *)
Definition submit_quiz_response (ent : submit_entropy) (st : store)
    (user_id quiz_id : string) (responses : list submitted_response)
  : result quiz_feedback * store :=
  let s :=
    fold_left (submit_step ent user_id quiz_id) responses
      {| ss_results := []; ss_total_correct := 0; ss_total_time := 0;
         ss_saved := 0; ss_store := st |} in
  let n := Z.of_nat (length responses) in
  let feedback :=
    rbind (match responses with
           | [] => Ok (VInt 0)
           | _ => rbind (int_truediv (ss_total_correct s) n)
                        (fun ratio => Ok (VFloat (fmul ratio (Z2SF 100))))
           end) (fun accuracy =>
    let performance_level :=
      if at_least accuracy 85 then "excellent"
      else if at_least accuracy 70 then "good"
      else if at_least accuracy 60 then "fair"
      else "needs_improvement" in
    rbind (match responses with
           | [] => Ok (VInt 0)
           | _ => rbind (int_truediv (ss_total_time s) n) (fun avg => Ok (VFloat avg))
           end) (fun average =>
    Ok {| fb_quiz_id := quiz_id;
          fb_total_questions := length responses;
          fb_correct_answers := ss_total_correct s;
          fb_accuracy := round2_value accuracy;
          fb_total_time_seconds := ss_total_time s;
          fb_average_time_per_question := round2_value average;
          fb_performance_level := performance_level;
          fb_results := ss_results s |})) in
  (feedback, ss_store s).

End QuizManagement.

(* ===================================================================== *)
(** * agents/llm_client.py                                                *)
(* ===================================================================== *)

Module LlmClient.

(** A tool call of a model response: its id, the function's name and the
    JSON text of the arguments. *)
Record tool_call : Type := {
  tc_id : string;
  tc_name : string;
  tc_arguments : string
}.

(** An entry of the [messages] list.  [content] is [None] where the dict
    holds [None]; the other optional keys are [None] when absent. *)
Record message : Type := {
  role : string;
  content : option string;
  msg_tool_calls : option (list tool_call);
  tool_call_id : option string;
  name : option string
}.

Definition text_message (r c : string) : message :=
  {| role := r; content := Some c; msg_tool_calls := None;
     tool_call_id := None; name := None |}.

(** [response.choices[0]] of a chat completion. *)
Record llm_response : Type := {
  finish_reason : string;
  resp_content : option string;
  resp_tool_calls : option (list tool_call)
}.

(** A tool function, called with keyword arguments on the store. *)
Abbreviation tool := (pydict -> store -> result pyval * store).

(** An entry of [self.tools]: the function's name and the keys of its
    [properties]. *)
Record tool_spec : Type := {
  ts_name : string;
  ts_properties : list string
}.

(** The store, the locals of a turn ([messages], [tool_calls_made],
    [iterations]) and three observers: the requests sent to the model, the
    tool functions run with the keyword arguments they received, and the
    number of calls of [process_message]. *)
Record agent_state : Type := {
  a_store : store;
  a_messages : list message;
  a_tool_calls_made : list (string * pyval);
  a_iterations : nat;
  a_requests : list (list message);
  a_executed : list (string * pydict);
  a_agent_calls : nat
}.

Definition with_store (s : agent_state) (st : store) : agent_state :=
  {| a_store := st; a_messages := a_messages s;
     a_tool_calls_made := a_tool_calls_made s; a_iterations := a_iterations s;
     a_requests := a_requests s; a_executed := a_executed s;
     a_agent_calls := a_agent_calls s |}.

Definition append_message (m : message) (s : agent_state) : agent_state :=
  {| a_store := a_store s; a_messages := a_messages s ++ [m];
     a_tool_calls_made := a_tool_calls_made s; a_iterations := a_iterations s;
     a_requests := a_requests s; a_executed := a_executed s;
     a_agent_calls := a_agent_calls s |}.

Definition track_tool_call (n : string) (arguments : pyval) (s : agent_state)
  : agent_state :=
  {| a_store := a_store s; a_messages := a_messages s;
     a_tool_calls_made := a_tool_calls_made s ++ [(n, arguments)];
     a_iterations := a_iterations s;
     a_requests := a_requests s; a_executed := a_executed s;
     a_agent_calls := a_agent_calls s |}.

Definition next_iteration (s : agent_state) : agent_state :=
  {| a_store := a_store s; a_messages := a_messages s;
     a_tool_calls_made := a_tool_calls_made s; a_iterations := S (a_iterations s);
     a_requests := a_requests s; a_executed := a_executed s;
     a_agent_calls := a_agent_calls s |}.

Definition log_request (s : agent_state) : agent_state :=
  {| a_store := a_store s; a_messages := a_messages s;
     a_tool_calls_made := a_tool_calls_made s; a_iterations := a_iterations s;
     a_requests := a_requests s ++ [a_messages s]; a_executed := a_executed s;
     a_agent_calls := a_agent_calls s |}.

Definition log_executed (n : string) (kwargs : pydict) (s : agent_state)
  : agent_state :=
  {| a_store := a_store s; a_messages := a_messages s;
     a_tool_calls_made := a_tool_calls_made s; a_iterations := a_iterations s;
     a_requests := a_requests s; a_executed := a_executed s ++ [(n, kwargs)];
     a_agent_calls := a_agent_calls s |}.

Definition begin_turn (messages : list message) (s : agent_state) : agent_state :=
  {| a_store := a_store s; a_messages := messages;
     a_tool_calls_made := []; a_iterations := 0;
     a_requests := a_requests s; a_executed := a_executed s;
     a_agent_calls := S (a_agent_calls s) |}.

(** Computations on the agent's state that may raise; the state survives
    an exception. *)
Definition M (A : Type) : Type := agent_state -> result A * agent_state.

Definition ret {A} (a : A) : M A := fun s => (Ok a, s).
Definition raise {A} (e : exn) : M A := fun s => (Raise e, s).
Definition bind {A B} (m : M A) (k : A -> M B) : M B :=
  fun s => match m s with
           | (Ok a, s') => k a s'
           | (Raise e, s') => (Raise e, s')
           end.
Definition lift {A} (r : result A) : M A := fun s => (r, s).
Definition modify (f : agent_state -> agent_state) : M unit := fun s => (Ok tt, f s).

Notation "'let*' x := m 'in' k" := (bind m (fun x => k))
  (at level 10, x pattern, m at level 100, k at level 200).

(** [for x in l: body x]. *)
Fixpoint for_each {A} (l : list A) (body : A -> M unit) : M unit :=
  match l with
  | [] => ret tt
  | x :: l' => let* _ := body x in for_each l' body
  end.

Definition nl : string := String (ascii_of_nat 10) "".

(** The phrases of [no_data_keywords]. *)
Definition no_data_keywords : list string :=
  [ "haven't taken"; "no test"; "no results"; "couldn't find"; "could not find";
    "didn't find"; "unable to find"; "issue finding"; "don't have any results";
    "hiccup"; "issue with"; "not being recognized"; "verify your user" ].

(** [any(keyword in response.lower() for keyword in no_data_keywords)]. *)
Definition claimed_error (response : string) : bool :=
  existsb (fun keyword => contains keyword (lower response)) no_data_keywords.

(** [max_iterations]. *)
Definition max_iterations : nat := 5.

Section Agent.

(** The text of [_get_system_prompt]. *)
Variable system_prompt : string.
(** [json.loads], [None] where it raises [JSONDecodeError], and
    [json.dumps(_, indent=2)]. *)
Variable json_loads : string -> option pyval.
Variable json_dumps : pyval -> string.
(** Python's text for floats, lists and dicts, and [str.title]. *)
Variable repr_other : pyval -> string.
Variable str_title : string -> string.
(** The model service: [client.chat.completions.create] on the messages
    sent, returning the first choice or raising. *)
Variable llm : list message -> result llm_response.
(** [self.tools] and [self.tool_map]. *)
Variable tools : list tool_spec.
Variable tool_map : gmap string tool.

Definition fmt : pyval -> string := QuizManagement.py_str repr_other.

(** [_get_function_params]. *)
Definition get_function_params (function_name : string) : list string :=
  match List.find (fun t => String.eqb (ts_name t) function_name) tools with
  | Some t => ts_properties t
  | None => []
  end.

(** [k in v]: keys of a dict, items of a list, substrings of a string;
    the other values are not containers. *)
Definition py_in (k : string) (v : pyval) : result bool :=
  match v with
  | VDict d => Ok (dict_has d k)
  | VList l => Ok (existsb (fun x => eq_str x k) l)
  | VStr s => Ok (contains k s)
  | _ => Raise (TypeError "argument is not iterable")
  end.

(** [v[k] = x] for a string key: only a dict takes it. *)
Definition py_setitem (v : pyval) (k : string) (x : pyval) : result pyval :=
  match v with
  | VDict d => Ok (VDict (dict_set d k x))
  | _ => Raise (TypeError "object does not support item assignment")
  end.

(** [v.get(k)]: only a dict has the method. *)
Definition py_get (v : pyval) (k : string) : result pyval :=
  match v with
  | VDict d => Ok (dict_get d k)
  | _ => Raise (AttributeError "object has no attribute 'get'")
  end.

(** The block "Add user_id to arguments if not present" of
    [_process_with_tools]. *)
Definition inject_user_id (user_id function_name : string) (arguments : pyval)
  : result pyval :=
  if bool_decide ("user_id" ∈ get_function_params function_name) then
    rbind (py_in "user_id" arguments) (fun present =>
      if negb present then py_setitem arguments "user_id" (VStr user_id)
      else
        rbind (py_get arguments "user_id") (fun llm_user_id =>
          if negb (eq_str llm_user_id user_id)
          then py_setitem arguments "user_id" (VStr user_id)
          else Ok arguments))
  else Ok arguments.

Definition error_payload (text : string) : pyval := VDict [("error", VStr text)].

(** [_execute_tool]: the function is called, inside [try], with the
    dict unpacked as keyword arguments; any exception is turned into an
    error payload. *)
Definition execute_tool (function_name : string) (arguments : pyval)
    (s : agent_state) : pyval * agent_state :=
  match tool_map !! function_name with
  | None => (error_payload ("Unknown function: " +:+ function_name), s)
  | Some func =>
      match arguments with
      | VDict kwargs =>
          let '(r, st') := func kwargs (a_store s) in
          let s' := log_executed function_name kwargs (with_store s st') in
          match r with
          | Ok v => (v, s')
          | Raise e => (error_payload (exn_str e), s')
          end
      | _ => (error_payload "argument after ** must be a mapping", s)
      end
  end.

(** The body of [for tool_call in tool_calls]. *)
Definition process_tool_call (user_id : string) (tc : tool_call) : M unit :=
  let function_name := tc_name tc in
  let arguments := default (VDict []) (json_loads (tc_arguments tc)) in
  let* arguments := lift (inject_user_id user_id function_name arguments) in
  let* result := (fun s => let '(r, s') := execute_tool function_name arguments s in
                           (Ok r, s')) in
  let* _ := modify (track_tool_call function_name arguments) in
  let content := json_dumps result in
  modify (append_message
            {| role := "tool"; content := Some content; msg_tool_calls := None;
               tool_call_id := Some (tc_id tc); name := Some function_name |}).

(** One [self.client.chat.completions.create(...)] on the current
    [messages]. *)
Definition call_model : M llm_response :=
  fun s => (llm (a_messages s), log_request s).

(** The [while] loop of [_process_with_tools]; [fuel] is
    [max_iterations - iterations]. *)
Fixpoint tool_loop (fuel : nat) (user_id : string) (response : llm_response)
  : M llm_response :=
  match fuel with
  | O => ret response
  | S fuel' =>
      if String.eqb (finish_reason response) "tool_calls" then
        let* _ := modify next_iteration in
        match resp_tool_calls response with
        | None => raise (TypeError "object of type 'NoneType' has no len()")
        | Some tool_calls =>
            let* _ := modify (append_message
                        {| role := "assistant"; content := resp_content response;
                           msg_tool_calls := Some tool_calls;
                           tool_call_id := None; name := None |}) in
            let* _ := for_each tool_calls (process_tool_call user_id) in
            let* response' := call_model in
            tool_loop fuel' user_id response'
        end
      else ret response
  end.

(** The payload of the last tool message named [tool_name] whose JSON
    content is a dict with truthy ["success"] and truthy [field]. *)
Definition success_payload (tool_name field : string) (m : message) : option pydict :=
  if String.eqb (role m) "tool" && bool_decide (name m = Some tool_name) then
    match content m with
    | Some tool_result =>
        match json_loads tool_result with
        | Some (VDict result_data) =>
            if truthy (dict_get result_data "success")
               && truthy (dict_get result_data field)
            then Some result_data else None
        | _ => None
        end
    | None => None
    end
  else None.

Definition last_success (tool_name field : string) (messages : list message)
  : option pydict :=
  fold_left (fun found m =>
               match success_payload tool_name field m with
               | Some d => Some d
               | None => found
               end) messages None.

(** [', '.join(v)]: the strings of a list, the characters of a string,
    the keys of a dict. *)
Definition py_join (sep : string) (v : pyval) : result string :=
  match v with
  | VList l =>
      rbind (fold_right
               (fun x acc =>
                  match x with
                  | VStr s => rbind acc (fun ss => Ok (s :: ss))
                  | _ => Raise (TypeError "sequence item: expected str instance")
                  end) (Ok []) l)
            (fun ss => Ok (join sep ss))
  | VStr s => Ok (join sep (map (fun c => String c "") (list_ascii_of_string s)))
  | VDict d => Ok (join sep (dict_keys d))
  | _ => Raise (TypeError "can only join an iterable")
  end.

(** The quiz confirmation built from a quiz-creation payload. *)
Definition quiz_confirmation (quiz_data : pydict) : result string :=
  let total_questions := dict_get quiz_data "total_questions" in
  let focus_areas := dict_get_default quiz_data "focus_areas" (VList [VStr "general"]) in
  let section := dict_get_default quiz_data "section" (VStr "mixed") in
  let corrected_response :=
    "I've created a personalized quiz for you with " +:+ fmt total_questions
    +:+ " questions! " in
  let corrected_response :=
    if negb (eq_str section "mixed")
    then corrected_response +:+ "It focuses on " +:+ fmt section +:+ ". "
    else corrected_response in
  rbind (if truthy focus_areas && negb (eq_str_singleton focus_areas "general")
         then rbind (py_join ", " focus_areas) (fun joined =>
                Ok (corrected_response +:+ "The quiz covers: " +:+ joined +:+ ". "))
         else Ok corrected_response) (fun corrected_response =>
  Ok (corrected_response +:+ "Ready to start when you are!")).

(** One line of the section breakdown. *)
Definition breakdown_line (section_name : string) (section_data : pyval)
  : result string :=
  rbind (py_get section_data "score") (fun score =>
  rbind (py_get section_data "percentile") (fun percentile =>
  Ok (str_title section_name +:+ ": " +:+ fmt score +:+ " points ("
      +:+ fmt percentile +:+ "th percentile)" +:+ nl))).

(** The sentence built from a test-result payload. *)
Definition test_summary (test_data : pydict) : result string :=
  let total_score := dict_get test_data "total_score" in
  let sections := dict_get_default test_data "sections" (VDict []) in
  let corrected_response :=
    "I found your latest test results! You scored " +:+ fmt total_score
    +:+ " total. " in
  if truthy sections then
    match sections with
    | VDict items =>
        rbind (fold_left
                 (fun acc item =>
                    rbind acc (fun text =>
                    rbind (breakdown_line item.1 item.2) (fun line =>
                    Ok (text +:+ line))))
                 items (Ok (corrected_response +:+ "Here's your breakdown:" +:+ nl +:+ nl)))
              (fun text =>
                 Ok (text +:+ nl
                     +:+ "Your strongest areas are Reading and Writing. Let's focus on improving your Math sections (Algebra and Geometry) to boost your overall score!"))
    | _ => Raise (AttributeError "object has no attribute 'items'")
    end
  else Ok corrected_response.

(** [_validate_response_against_tools]. *)
Definition validate_response_against_tools (response : option string)
    (tool_calls_made : list (string * pyval)) (messages : list message)
  : result string :=
  match response with
  | None => Raise (AttributeError "'NoneType' object has no attribute 'lower'")
  | Some response =>
      if claimed_error response then
        let test_data := last_success "get_latest_test_results" "total_score" messages in
        let quiz_data := last_success "generate_adaptive_quiz" "quiz_id" messages in
        match quiz_data, test_data with
        | Some quiz_data, _ => quiz_confirmation quiz_data
        | None, Some test_data => test_summary test_data
        | None, None => Ok response
        end
      else Ok response
  end.

(** [_process_with_tools], on the [messages] of the state. *)
Definition process_with_tools (user_id : string) : M string :=
  let* response := call_model in
  let* response := tool_loop max_iterations user_id response in
  fun s =>
    (validate_response_against_tools (resp_content response)
       (a_tool_calls_made s) (a_messages s), s).

(** The dict [process_message] returns; [error] and [error_code] are
    [None] when the key is absent. *)
Record turn_result : Type := {
  tr_message : string;
  tr_error : option string;
  tr_error_code : option pyval;
  tr_tool_calls_made : nat;
  tr_tools_used : list string
}.

(** The [except] clauses of [process_message], first match first. *)
Definition error_result (e : exn) : turn_result :=
  match e with
  | AuthenticationError msg status =>
      {| tr_message := "I apologize, but there's an authentication issue with the API. Please check your API key configuration in the .env file.";
         tr_error := Some msg;
         tr_error_code := Some (VInt (default 401%Z status));
         tr_tool_calls_made := 0; tr_tools_used := [] |}
  | APIError msg status =>
      let error_code := match status with Some c => VInt c | None => VStr "N/A" end in
      {| tr_message := "I encountered an API error (code " +:+ fmt error_code
                       +:+ "). Please try again later.";
         tr_error := Some msg;
         tr_error_code := Some error_code;
         tr_tool_calls_made := 0; tr_tools_used := [] |}
  | OpenAIError msg =>
      {| tr_message := "I encountered an error with the AI service. Please try again.";
         tr_error := Some msg;
         tr_error_code := None;
         tr_tool_calls_made := 0; tr_tools_used := [] |}
  | OtherException _ msg =>
      {| tr_message := "I apologize, but I encountered an error. Let's try that again.";
         tr_error := Some msg;
         tr_error_code := None;
         tr_tool_calls_made := 0; tr_tools_used := [] |}
  end.

(** [process_message]. *)
Definition process_message (user_id user_message : string)
    (conversation_history : list message) (s : agent_state)
  : turn_result * agent_state :=
  let limited_history := last_n 10 conversation_history in
  let messages :=
    [text_message "system" system_prompt] ++ limited_history
    ++ [text_message "user" user_message] in
  match process_with_tools user_id (begin_turn messages s) with
  | (Ok response, s') =>
      ({| tr_message := response;
          tr_error := None;
          tr_error_code := None;
          tr_tool_calls_made := length (a_tool_calls_made s');
          tr_tools_used := map fst (a_tool_calls_made s') |}, s')
  | (Raise e, s') => (error_result e, s')
  end.

End Agent.

(** ** The tools of the agent *)

(** [_define_tools]: the thirteen declared functions with the keys of
    their [properties]. *)
Definition define_tools : list tool_spec :=
  [ {| ts_name := "get_user_profile"; ts_properties := ["user_id"] |};
    {| ts_name := "get_learning_history"; ts_properties := ["user_id"; "days"] |};
    {| ts_name := "get_latest_test_results"; ts_properties := ["user_id"; "test_id"] |};
    {| ts_name := "analyze_performance_by_topic";
       ts_properties := ["user_id"; "section"; "timeframe"] |};
    {| ts_name := "identify_error_patterns"; ts_properties := ["user_id"] |};
    {| ts_name := "compare_progress"; ts_properties := ["user_id"; "comparison_type"] |};
    {| ts_name := "generate_adaptive_quiz"; ts_properties := ["user_id"; "config"] |};
    {| ts_name := "generate_study_recommendations"; ts_properties := ["user_id"] |};
    {| ts_name := "get_progress_summary"; ts_properties := ["user_id"] |};
    {| ts_name := "track_study_streak"; ts_properties := ["user_id"] |};
    {| ts_name := "get_question_explanation"; ts_properties := ["question_id"; "detailed"] |};
    {| ts_name := "generate_encouragement"; ts_properties := ["user_id"; "context"] |};
    {| ts_name := "generate_bar_chart_data"; ts_properties := ["user_id"; "test_id"] |} ].

(** The parameters of the nineteen functions of [_create_tool_map], from
    their [def] lines: name, and whether the parameter is required. *)
Definition signatures : list (string * list (string * bool)) :=
  [ ("get_user_profile", [("user_id", true)]);
    ("update_user_profile", [("user_id", true); ("updates", true)]);
    ("get_learning_history", [("user_id", true); ("days", false)]);
    ("get_latest_test_results", [("user_id", true); ("test_id", false)]);
    ("analyze_performance_by_topic",
       [("user_id", true); ("section", true); ("timeframe", false)]);
    ("identify_error_patterns", [("user_id", true); ("question_ids", false)]);
    ("compare_progress", [("user_id", true); ("comparison_type", false)]);
    ("generate_bar_chart_data", [("user_id", true); ("test_id", false)]);
    ("search_questions", [("filters", true); ("limit", false)]);
    ("generate_adaptive_quiz", [("user_id", true); ("config", true)]);
    ("submit_quiz_response", [("user_id", true); ("quiz_id", true); ("responses", true)]);
    ("generate_study_recommendations", [("user_id", true)]);
    ("suggest_practice_topics", [("user_id", true); ("section", true)]);
    ("get_progress_summary", [("user_id", true)]);
    ("track_study_streak", [("user_id", true)]);
    ("get_question_explanation", [("question_id", true); ("detailed", false)]);
    ("explain_topic_concept", [("topic", true); ("subtopic", false)]);
    ("generate_encouragement", [("user_id", true); ("context", false)]);
    ("celebrate_achievement", [("user_id", true); ("achievement_type", true)]) ].

(** Whether the function mapped to [function_name] has a [user_id]
    parameter. *)
Definition takes_user_id (function_name : string) : bool :=
  match List.find (fun sg => String.eqb sg.1 function_name) signatures with
  | Some sg => existsb (fun p => String.eqb p.1 "user_id") sg.2
  | None => false
  end.

(** Binding keyword arguments to parameters: an unknown keyword or a
    missing required parameter raises [TypeError]. *)
Definition bind_kwargs (params : list (string * bool)) (kwargs : pydict) : result unit :=
  if negb (forallb (fun k => existsb (fun p => String.eqb p.1 k) params) (dict_keys kwargs))
  then Raise (TypeError "got an unexpected keyword argument")
  else if negb (forallb (fun p => negb p.2 || dict_has kwargs p.1) params)
  then Raise (TypeError "missing a required positional argument")
  else Ok tt.

(** [user_profile.get_user_profile] called with keyword arguments.  A
    [user_id] that is not a string is no key of [store.users]; a list or
    a dict cannot be looked up at all. *)
Definition tool_get_user_profile (days_until : string -> option Z) : tool :=
  fun kwargs st =>
    match bind_kwargs [("user_id", true)] kwargs with
    | Raise e => (Raise e, st)
    | Ok _ =>
        match dict_get kwargs "user_id" with
        | VStr user_id => (Ok (VDict (UserProfile.get_user_profile days_until st user_id)), st)
        | VList _ | VDict _ => (Raise (TypeError "unhashable type"), st)
        | other => (Ok (VDict [("error", VStr "User not found"); ("user_id", other)]), st)
        end
    end.

(** [user_profile.update_user_profile] called with keyword arguments;
    [updates] must have [items]. *)
Definition tool_update_user_profile : tool :=
  fun kwargs st =>
    match bind_kwargs [("user_id", true); ("updates", true)] kwargs with
    | Raise e => (Raise e, st)
    | Ok _ =>
        match dict_get kwargs "updates" with
        | VDict updates =>
            match dict_get kwargs "user_id" with
            | VStr user_id =>
                let '(r, st') := UserProfile.update_user_profile st user_id updates in
                (Ok (VDict r), st')
            | VList _ | VDict _ => (Raise (TypeError "unhashable type"), st)
            | other =>
                (Ok (VDict [("error", VStr "User not found"); ("user_id", other);
                            ("success", VBool false)]), st)
            end
        | _ => (Raise (AttributeError "object has no attribute 'items'"), st)
        end
    end.

(** [_create_tool_map].  The two profile functions are the ones embedded
    above; [body] gives the other seventeen. *)
Definition create_tool_map (days_until : string -> option Z) (body : string -> tool)
  : gmap string tool :=
  list_to_map
    [ ("get_user_profile", tool_get_user_profile days_until);
      ("update_user_profile", tool_update_user_profile);
      ("get_learning_history", body "get_learning_history");
      ("get_latest_test_results", body "get_latest_test_results");
      ("analyze_performance_by_topic", body "analyze_performance_by_topic");
      ("identify_error_patterns", body "identify_error_patterns");
      ("compare_progress", body "compare_progress");
      ("generate_bar_chart_data", body "generate_bar_chart_data");
      ("search_questions", body "search_questions");
      ("generate_adaptive_quiz", body "generate_adaptive_quiz");
      ("submit_quiz_response", body "submit_quiz_response");
      ("generate_study_recommendations", body "generate_study_recommendations");
      ("suggest_practice_topics", body "suggest_practice_topics");
      ("get_progress_summary", body "get_progress_summary");
      ("track_study_streak", body "track_study_streak");
      ("get_question_explanation", body "get_question_explanation");
      ("explain_topic_concept", body "explain_topic_concept");
      ("generate_encouragement", body "generate_encouragement");
      ("celebrate_achievement", body "celebrate_achievement") ].

End LlmClient.

(* ===================================================================== *)
(** * agents/orchestrator.py                                              *)
(* ===================================================================== *)

Module Orchestrator.
Import LlmClient.

(** The dict [handle_message] returns.  [cr_error] and [cr_ui_elements]
    are [None] when the key is absent; the last four fields are the
    [metadata]. *)
Record chat_response : Type := {
  cr_session_id : string;
  cr_response : string;
  cr_error : option string;
  cr_follow_ups : list string;
  cr_tools_used : list string;
  cr_ui_elements : option pyval;
  cr_timestamp : string;
  cr_tool_calls_made : option nat;
  cr_is_welcome : bool;
  cr_error_flag : bool
}.

(** [max_context_turns]. *)
Definition max_context_turns : nat := 10.

(** The words of [analysis_keywords]. *)
Definition analysis_keywords : list string :=
  [ "analyze"; "analysis"; "chart"; "visual"; "graph"; "breakdown";
    "detailed analysis"; "show me" ].

(** [_force_tool_usage_message]. *)
Definition force_tool_usage_message (user_id user_message : string) : string :=
  user_message +:+ nl +:+ nl
  +:+ "[SYSTEM: User explicitly requested analysis. You MUST call these tools:" +:+ nl
  +:+ "1. get_latest_test_results(user_id='" +:+ user_id
  +:+ "') - MANDATORY to get test scores" +:+ nl
  +:+ "2. generate_bar_chart_data(user_id='" +:+ user_id
  +:+ "') - MANDATORY to create visualizations" +:+ nl
  +:+ "3. analyze_performance_by_topic(user_id='" +:+ user_id
  +:+ "', section='<appropriate_section>') - Call for relevant sections" +:+ nl +:+ nl
  +:+ "DO NOT respond without calling these tools. When get_latest_test_results returns data with 'success': true and 'total_score', that means DATA EXISTS - you MUST acknowledge and use it. NEVER say 'no test results' or 'haven't taken' when tools return actual data.]".

(** [_get_formatted_history]. *)
Definition get_formatted_history (st : store) (session_id : string) : list message :=
  let history := get_conversation_history st session_id max_context_turns in
  omap (fun msg =>
          if bool_decide (cm_message_type msg ∈ ["user"; "assistant"])
          then Some (text_message (cm_message_type msg) (cm_content msg))
          else None) history.

Section Orchestrator.

(** The agent's dependencies, as in [LlmClient]. *)
Variable system_prompt : string.
Variable json_loads : string -> option pyval.
Variable json_dumps : pyval -> string.
Variable repr_other : pyval -> string.
Variable str_title : string -> string.
Variable llm : list message -> result llm_response.
Variable tools : list tool_spec.
Variable tool_map : gmap string tool.
(** [settings.DEBUG]. *)
Variable debug : bool.
(** [str(uuid.uuid4())] and [datetime.now().isoformat()]. *)
Variable fresh_session_id : string.
Variable now : string.
(** The clock behind [days_until_test]. *)
Variable days_until : string -> option Z.
(** Functions whose bodies are not embedded: the progress summary, the
    two builders of the welcome screen, and the three that decorate an
    ordinary turn.  Each returns or raises. *)
Variable get_progress_summary : store -> string -> result pydict.
Variable create_welcome_message : store -> pydict -> pydict -> result string.
Variable create_welcome_ui_elements : store -> pydict -> pydict -> result pyval.
Variable identify_follow_ups : turn_result -> result (list string).
Variable create_structured_response :
  store -> string -> list string -> string -> result pyval.
Variable add_contextual_quick_replies :
  string -> pyval -> string -> list string -> list message -> result pyval.

(** [self.llm_agent.process_message]. *)
Definition agent_process_message (user_id user_message : string)
    (history : list message) : M turn_result :=
  fun s =>
    let '(r, s') :=
      process_message system_prompt json_loads json_dumps repr_other str_title
        llm tools tool_map user_id user_message history s in
    (Ok r, s').

(** [_save_message]. *)
Definition save_message (session_id role_ text : string)
    (tool_calls : option (list string)) : M unit :=
  modify (fun s =>
    with_store s
      (add_conversation_message (a_store s) session_id
         {| cm_message_type := role_; cm_content := text;
            cm_tool_calls := tool_calls; cm_timestamp := now |})).

(** A function that reads the store. *)
Definition reading {A} (f : store -> result A) : M A := fun s => (f (a_store s), s).

(** [_handle_session_start]. *)
Definition handle_session_start (user_id session_id user_message : string)
  : M chat_response :=
  let* profile := reading (fun st => Ok (UserProfile.get_user_profile days_until st user_id)) in
  if truthy (dict_get profile "error") then
    let* _ := save_message session_id "user" user_message None in
    let* response := agent_process_message user_id user_message [] in
    let* _ := save_message session_id "assistant" (tr_message response) None in
    let* ui := reading (fun st =>
                 create_structured_response st (tr_message response)
                   (tr_tools_used response) user_id) in
    ret {| cr_session_id := session_id;
           cr_response := tr_message response;
           cr_error := None;
           cr_follow_ups := [];
           cr_tools_used := tr_tools_used response;
           cr_ui_elements := Some ui;
           cr_timestamp := now;
           cr_tool_calls_made := Some (tr_tool_calls_made response);
           cr_is_welcome := false;
           cr_error_flag := false |}
  else
    let* progress := reading (fun st => get_progress_summary st user_id) in
    let* welcome_message := reading (fun st => create_welcome_message st profile progress) in
    let* _ := save_message session_id "assistant" welcome_message None in
    let* ui_elements :=
      reading (fun st => create_welcome_ui_elements st profile progress) in
    ret {| cr_session_id := session_id;
           cr_response := welcome_message;
           cr_error := None;
           cr_follow_ups := ["What would you like to work on today?"];
           cr_tools_used := ["get_user_profile"; "get_progress_summary"];
           cr_ui_elements := Some ui_elements;
           cr_timestamp := now;
           cr_tool_calls_made := Some 2;
           cr_is_welcome := true;
           cr_error_flag := false |}.

(** The [try] block of [handle_message]. *)
Definition handle_message_body (user_id user_message session_id : string)
    (is_new_session : bool) : M chat_response :=
  let* history := reading (fun st => Ok (get_formatted_history st session_id)) in
  if is_new_session && bool_decide (length history = 0) then
    handle_session_start user_id session_id user_message
  else
    let* _ := save_message session_id "user" user_message None in
    let message_lower := lower user_message in
    let is_explicit_analysis :=
      existsb (fun keyword => contains keyword message_lower) analysis_keywords in
    let enriched_message :=
      if is_explicit_analysis then force_tool_usage_message user_id user_message
      else user_message in
    let* response := agent_process_message user_id enriched_message history in
    let* _ := save_message session_id "assistant" (tr_message response)
                (Some (tr_tools_used response)) in
    let* follow_ups := lift (identify_follow_ups response) in
    let* structured_response :=
      reading (fun st =>
        create_structured_response st (tr_message response)
          (tr_tools_used response) user_id) in
    let* structured_response :=
      lift (add_contextual_quick_replies (tr_message response) structured_response
              user_message (tr_tools_used response) history) in
    ret {| cr_session_id := session_id;
           cr_response := tr_message response;
           cr_error := None;
           cr_follow_ups := follow_ups;
           cr_tools_used := tr_tools_used response;
           cr_ui_elements := Some structured_response;
           cr_timestamp := now;
           cr_tool_calls_made := Some (tr_tool_calls_made response);
           cr_is_welcome := false;
           cr_error_flag := false |}.

(** [handle_message]: a [session_id] of [None] is a new session; an
    exception of the [try] block is logged as a system message and
    answered with the generic apology. *)
Definition handle_message (user_id user_message : string) (session_id : option string)
    (s : agent_state) : chat_response * agent_state :=
  let is_new_session := bool_decide (session_id = None) in
  let session_id :=
    match session_id with
    | Some sid => if String.eqb sid "" then fresh_session_id else sid
    | None => fresh_session_id
    end in
  match handle_message_body user_id user_message session_id is_new_session s with
  | (Ok r, s') => (r, s')
  | (Raise e, s') =>
      let '(_, s'') :=
        save_message session_id "system" ("Error: " +:+ exn_str e) None s' in
      ({| cr_session_id := session_id;
          cr_response := "I apologize, but I encountered an issue. Could you please rephrase your question?";
          cr_error := Some (if debug then exn_str e else "An error occurred");
          cr_follow_ups := [];
          cr_tools_used := [];
          cr_ui_elements := None;
          cr_timestamp := now;
          cr_tool_calls_made := None;
          cr_is_welcome := false;
          cr_error_flag := true |}, s'')
  end.

End Orchestrator.

End Orchestrator.

(* ===================================================================== *)
(** * tools/performance_analysis.py                                       *)
(* ===================================================================== *)

Module PerformanceAnalysis.

(** [len(v)]: strings, lists and dicts have a length. *)
Definition py_len (v : pyval) : result nat :=
  match v with
  | VStr s => Ok (String.length s)
  | VList l => Ok (length l)
  | VDict d => Ok (length d)
  | _ => Raise (TypeError "object has no len()")
  end.

(** The dict built from the chosen test. *)
Definition test_report (test : pydict) : pydict :=
  [ ("success", VBool true);
    ("test_id", dict_get test "test_id");
    ("test_type", dict_get test "test_type");
    ("total_score", dict_get test "total_score");
    ("date_taken", dict_get test "date_taken");
    ("sections", dict_get_default test "sections" (VDict []));
    ("completion_status", dict_get test "completion_status");
    ("message", VStr "Test results found successfully") ].

(** [get_latest_test_results].  [test_id] is a string or [None], as the
    signature declares it.  The line printed before returning takes the
    length of the sections, and raises when they have none. *)
Definition get_latest_test_results (st : store) (user_id : string)
    (test_id : option string) : result pydict :=
  let test_results := get_test_results st user_id in
  match test_results with
  | [] =>
      Ok [ ("error", VStr ("No test results found for user " +:+ user_id));
           ("user_id", VStr user_id);
           ("message",
            VStr "No test results found. Make sure you have taken a practice test.") ]
  | _ =>
      let report (test : pydict) : result pydict :=
        let result := test_report test in
        rbind (py_len (dict_get_default result "sections" (VDict [])))
              (fun _ => Ok result) in
      match test_id with
      | Some ((String _ _) as tid) =>
          match List.find (fun t => eq_str (dict_get t "test_id") tid) test_results with
          | Some ((_ :: _) as test) => report test
          | _ =>
              Ok [ ("error", VStr ("Test with ID " +:+ tid +:+ " not found for user "
                                   +:+ user_id));
                   ("test_id", VStr tid);
                   ("user_id", VStr user_id) ]
          end
      | _ => report (List.last test_results [])
      end
  end.

End PerformanceAnalysis.

(* ===================================================================== *)
(** * tools/progress_tracking.py                                          *)
(* ===================================================================== *)

Module ProgressTracking.

(** A set of dates, kept as the strictly decreasing list of its members:
    the list [sorted(dates, reverse=True)] gives, and whose length is
    [len(dates)].  [add_date] is [dates.add(d)]. *)
Fixpoint add_date (d : Z) (dates : list Z) : list Z :=
  match dates with
  | [] => [d]
  | x :: rest =>
      if (x <? d)%Z then d :: dates
      else if (x =? d)%Z then dates
      else x :: add_date d rest
  end.

(** The loop over the sorted dates: a date counts when it is the expected
    one or at most one day before it, and becomes the expected one; the
    first date that does not count ends the loop. *)
Fixpoint count_streak (expected_date : Z) (sorted_dates : list Z) : Z :=
  match sorted_dates with
  | [] => 0
  | date :: rest =>
      if ((date =? expected_date) || (expected_date - date <=? 1))%Z
      then (1 + count_streak date rest)%Z
      else 0%Z
  end.

(** [_get_streak_message]. *)
Definition get_streak_message (streak_days : Z) : string :=
  if (streak_days =? 0)%Z then
    "Start your study streak today! Even 10 minutes counts."
  else if (streak_days =? 1)%Z then
    "Great start! Come back tomorrow to build your streak."
  else if (streak_days <? 7)%Z then
    str_of_Z streak_days +:+ " days strong! Keep the momentum going."
  else if (streak_days <? 30)%Z then
    "Amazing " +:+ str_of_Z streak_days
    +:+ "-day streak! You're building a solid habit."
  else
    "Incredible " +:+ str_of_Z streak_days
    +:+ "-day streak! Your dedication is inspiring.".

Section Clock.

(** The clock and the calendar: [date_of ts] is the day number of
    [datetime.fromisoformat(ts.replace("Z", "+00:00")).date()], [None]
    when that raises; [today] is that of [datetime.now().date()]. *)
Variable date_of : string -> option Z.
Variable today : Z.

(** The dates of the responses whose timestamp parses. *)
Definition activity_dates (responses : list quiz_response) : list Z :=
  fold_left
    (fun dates r =>
       match date_of (qr_timestamp r) with
       | Some d => add_date d dates
       | None => dates
       end)
    responses [].

(** [_calculate_streak]. *)
Definition calculate_streak (responses : list quiz_response) : Z :=
  match responses with
  | [] => 0%Z
  | _ =>
      match activity_dates responses with
      | [] => 0%Z
      | sorted_dates => count_streak today sorted_dates
      end
  end.

(** The dict [track_study_streak] returns. *)
Record streak_report : Type := {
  sk_current_streak : Z;
  sk_streak_status : string;
  sk_total_study_days : nat;
  sk_message : string
}.

(** [track_study_streak].  The three marks that open the status texts
    are kept in UTF-8. *)
Definition track_study_streak (st : store) (user_id : string) : streak_report :=
  let responses := get_quiz_responses st user_id in
  let streak_days := calculate_streak responses in
  let study_dates := activity_dates responses in
  {| sk_current_streak := streak_days;
     sk_streak_status :=
       if (7 <=? streak_days)%Z then "🔥 On fire!"
       else if (3 <=? streak_days)%Z then "⭐ Great start!"
       else if (1 <=? streak_days)%Z then "💪 Keep going!"
       else "Start your streak today!";
     sk_total_study_days := length study_dates;
     sk_message := get_streak_message streak_days |}.

End Clock.

End ProgressTracking.

(* ===================================================================== *)
(** * tools/explanations.py                                               *)
(* ===================================================================== *)

Module Explanations.

Definition general_tips : list string :=
  [ "Practice regularly to build familiarity";
    "Review incorrect answers carefully";
    "Time yourself to improve speed";
    "Identify patterns in question types" ].

(** The [topic_tips] dict.  The multiplication sign of the second
    probability tip is kept in UTF-8. *)
Definition topic_tips : list (string * list string) :=
  [ ("algebra",
     [ "Master FOIL and factoring techniques";
       "Draw diagrams for word problems";
       "Check your work by substituting answers back" ]);
    ("geometry",
     [ "Memorize key formulas for area and volume";
       "Draw and label diagrams";
       "Look for similar triangles and parallel lines" ]);
    ("reading_comprehension",
     [ "Read the questions before the passage";
       "Underline key phrases";
       "Eliminate obviously wrong answers first" ]);
    ("vocabulary",
     [ "Learn word roots and prefixes";
       "Use flashcards for daily practice";
       "Read widely to see words in context" ]);
    ("probability",
     [ "Draw tree diagrams for complex problems";
       "Remember: P(A and B) = P(A) × P(B) for independent events";
       "Count carefully and check your work" ]) ].

(** [_generate_learning_tips] on a string. *)
Definition generate_learning_tips (topic : string) : list string :=
  match List.find (fun kv => String.eqb kv.1 (lower topic)) topic_tips with
  | Some kv => kv.2
  | None => general_tips
  end.

(** [_generate_learning_tips] on what [question.get("topic")] gives:
    [None] has no [lower]. *)
Definition generate_learning_tips_opt (topic : option string) : result (list string) :=
  match topic with
  | Some t => Ok (generate_learning_tips t)
  | None => Raise (AttributeError "'NoneType' object has no attribute 'lower'")
  end.

Definition opt_str (o : option string) : pyval :=
  match o with Some s => VStr s | None => VNone end.

(** [get_question_explanation]. *)
Definition get_question_explanation (st : store) (question_id : string)
    (detailed : bool) : result pydict :=
  match QuizManagement.find_question st (Some question_id) with
  | None => Ok [ ("error", VStr "Question not found") ]
  | Some question =>
      let explanation :=
        [ ("question_id", VStr (default "None" (q_question_id question)));
          ("topic", opt_str (q_topic question));
          ("subtopic", opt_str (q_subtopic question));
          ("correct_answer", opt_str (q_correct_answer question));
          ("explanation", opt_str (q_explanation question)) ] in
      if detailed then
        rbind (generate_learning_tips_opt (q_topic question)) (fun tips =>
          Ok (dict_set explanation "learning_tips" (VList (map VStr tips))))
      else Ok explanation
  end.

(** [explain_topic_concept]. *)
Definition explain_topic_concept (topic : string) (subtopic : option string) : pydict :=
  [ ("topic", VStr topic);
    ("subtopic", opt_str subtopic);
    ("explanation_type", VStr "conceptual_overview");
    ("message",
     VStr ("Explaining " +:+ topic
           +:+ match subtopic with
               | Some ((String _ _) as s) => " - " +:+ s
               | _ => ""
               end));
    ("learning_tips", VList (map VStr (generate_learning_tips topic))) ].

End Explanations.

(* ===================================================================== *)
(** * agents/llm_client.py: the constructor                               *)
(* ===================================================================== *)

Module TestPrepAgent.
Import Config.

(** The lines [__init__] prints about the key. *)
Inductive printed : Type :=
| KeyInfo (len : nat) (preview : string)
| WarnNoSkPrefix
| WarnTooShort (len : nat).

(** [s[-n:]] for a positive [n]. *)
Definition last_chars (n : nat) (s : string) : string :=
  String.substring (String.length s - n) n s.

(** The preview of a key: its first ten and last four characters when it
    has more than fourteen. *)
Definition masked_key (api_key : string) : string :=
  if (14 <? String.length api_key)%nat
  then String.substring 0 10 api_key +:+ "..." +:+ last_chars 4 api_key
  else "***".

(** [TestPrepAgent.__init__] up to the creation of the client: what it
    prints, and the key it hands to the client or the exception. *)
Definition init (settings : Settings) : list printed * result string :=
  let api_key :=
    if String.eqb (OPENAI_API_KEY settings) "" then None
    else Some (strip (OPENAI_API_KEY settings)) in
  match api_key with
  | Some ((String _ _) as api_key) =>
      ([KeyInfo (String.length api_key) (masked_key api_key)]
       ++ (if startswith "sk-" api_key then [] else [WarnNoSkPrefix])
       ++ (if (String.length api_key <? 20)%nat
           then [WarnTooShort (String.length api_key)] else []),
       Ok api_key)
  | _ => ([], Raise (ValueError "OPENAI_API_KEY is missing or empty!"))
  end.

End TestPrepAgent.

(* ===================================================================== *)
(** * agents/orchestrator.py: what a response is built from               *)
(* ===================================================================== *)

Module Presentation.
Import LlmClient PerformanceAnalysis.

(** [_identify_follow_ups]. *)
Definition identify_follow_ups (response : turn_result) : list string :=
  let tools_used := tr_tools_used response in
  let suggest (tool_name text : string) (follow_ups : list string) : list string :=
    if bool_decide (tool_name ∈ tools_used) then follow_ups ++ [text] else follow_ups in
  let follow_ups := [] in
  let follow_ups :=
    suggest "analyze_performance_by_topic"
      "Would you like me to create a practice quiz focused on your weak areas?"
      follow_ups in
  let follow_ups :=
    suggest "generate_adaptive_quiz" "Ready to start the quiz whenever you are!"
      follow_ups in
  let follow_ups :=
    suggest "get_latest_test_results"
      "Want to see how this compares to your previous attempts?" follow_ups in
  let follow_ups :=
    suggest "get_progress_summary"
      "Would you like specific recommendations to improve further?" follow_ups in
  take 2 follow_ups.

(** ** The session summary *)

(** [counts.get(role, 0)] and [counts[role] = n] on a dict of counters. *)
Fixpoint count_of (counts : list (string * Z)) (role_ : string) : Z :=
  match counts with
  | [] => 0
  | (k, n) :: rest => if String.eqb k role_ then n else count_of rest role_
  end.

Fixpoint set_count (counts : list (string * Z)) (role_ : string) (n : Z)
  : list (string * Z) :=
  match counts with
  | [] => [(role_, n)]
  | (k, m) :: rest =>
      if String.eqb k role_ then (k, n) :: rest else (k, m) :: set_count rest role_ n
  end.

(** The dict [get_session_summary] returns. *)
Record session_summary : Type := {
  sm_session_id : string;
  sm_total_turns : Z;
  sm_message_counts : list (string * Z);
  sm_started_at : option string;
  sm_last_activity : option string
}.

(** [get_session_summary]. *)
Definition get_session_summary (st : store) (session_id : string) : session_summary :=
  let history := get_conversation_history st session_id 100 in
  let message_counts :=
    fold_left
      (fun counts msg =>
         let role_ := cm_message_type msg in
         set_count counts role_ (count_of counts role_ + 1)%Z)
      history [("user", 0%Z); ("assistant", 0%Z); ("system", 0%Z)] in
  {| sm_session_id := session_id;
     sm_total_turns := count_of message_counts "user";
     sm_message_counts := message_counts;
     sm_started_at := cm_timestamp <$> head history;
     sm_last_activity := cm_timestamp <$> last history |}.

(** ** The structured response *)

(** The [ui_elements] dict: its three lists. *)
Record ui_elements : Type := {
  ui_cards : list pyval;
  ui_quick_replies : list pyval;
  ui_charts : list pyval
}.

Definition ui_value (ui : ui_elements) : pyval :=
  VDict [ ("cards", VList (ui_cards ui));
          ("quick_replies", VList (ui_quick_replies ui));
          ("charts", VList (ui_charts ui)) ].

Definition add_card (card : pyval) (ui : ui_elements) : ui_elements :=
  {| ui_cards := ui_cards ui ++ [card]; ui_quick_replies := ui_quick_replies ui;
     ui_charts := ui_charts ui |}.

Definition add_chart (chart : pyval) (ui : ui_elements) : ui_elements :=
  {| ui_cards := ui_cards ui; ui_quick_replies := ui_quick_replies ui;
     ui_charts := ui_charts ui ++ [chart] |}.

Definition extend_quick_replies (replies : list pyval) (ui : ui_elements) : ui_elements :=
  {| ui_cards := ui_cards ui; ui_quick_replies := ui_quick_replies ui ++ replies;
     ui_charts := ui_charts ui |}.

Definition button (text action : string) : pyval :=
  VDict [ ("text", VStr text); ("action", VStr action) ].

Section StructuredResponse.

(** Python's text for floats, lists and dicts. *)
Variable repr_other : pyval -> string.
(** The three tool functions the builder calls; their bodies are not
    embedded.  Each returns a dict or raises. *)
Variable get_progress_summary : store -> string -> result pydict.
Variable generate_bar_chart_data : store -> string -> result pydict.
Variable analyze_performance_by_topic :
  store -> string -> string -> string -> result pydict.

(** The four steps of [_create_structured_response]. *)
Definition progress_step (st : store) (tools_used : list string) (user_id : string)
    (ui : ui_elements) : result ui_elements :=
  if bool_decide ("get_progress_summary" ∈ tools_used) then
    rbind (get_progress_summary st user_id) (fun progress =>
      if negb (truthy (dict_get progress "error")) then
        Ok (add_card
              (VDict [ ("type", VStr "progress_card");
                       ("title", VStr "Your Progress");
                       ("data", VDict progress) ])
              (add_chart
                 (VDict [ ("type", VStr "circular_progress");
                          ("title", VStr "Overall Progress");
                          ("value", dict_get_default progress "overall_accuracy" (VInt 0));
                          ("target", VInt 85);
                          ("label",
                           VStr (QuizManagement.py_str repr_other
                                   (dict_get_default progress
                                      "total_questions_attempted" (VInt 0))
                                 +:+ " questions")) ])
                 ui))
      else Ok ui)
  else Ok ui.

Definition quiz_step (tools_used : list string) (ui : ui_elements) : ui_elements :=
  if bool_decide ("generate_adaptive_quiz" ∈ tools_used) then
    add_card
      (VDict [ ("type", VStr "quiz_ready");
               ("title", VStr "Quiz Ready!");
               ("message",
                VStr "Your personalized quiz has been created and is ready to start.");
               ("action", VStr "start_quiz") ])
      (extend_quick_replies
         [ button "▶️ Start Quiz" "start_quiz";
           button "⚙️ Customize Quiz" "customize_quiz";
           button "❌ Cancel" "cancel" ]
         ui)
  else ui.

Definition bar_chart_step (st : store) (tools_used : list string) (user_id : string)
    (ui : ui_elements) : result ui_elements :=
  if bool_decide ("generate_bar_chart_data" ∈ tools_used) then
    rbind (generate_bar_chart_data st user_id) (fun bar_chart_data =>
      if negb (truthy (dict_get bar_chart_data "error"))
         && truthy (dict_get bar_chart_data "bars")
      then
        rbind (py_len (dict_get_default bar_chart_data "bars" (VList []))) (fun _ =>
          Ok (add_chart
                (VDict [ ("type", VStr "bar_chart");
                         ("title", VStr "Score Breakdown by Subject");
                         ("data", VDict bar_chart_data) ])
                ui))
      else Ok ui)
  else Ok ui.

Definition performance_step (st : store) (tools_used : list string) (user_id : string)
    (ui : ui_elements) : result ui_elements :=
  if bool_decide ("analyze_performance_by_topic" ∈ tools_used) then
    rbind (analyze_performance_by_topic st user_id "math" "all") (fun perf =>
      if negb (truthy (dict_get perf "error")) && truthy (dict_get perf "topics")
      then
        Ok (add_card
              (VDict [ ("type", VStr "performance");
                       ("title", VStr "Math Analysis");
                       ("data", VDict perf) ])
              ui)
      else Ok ui)
  else Ok ui.

(** [_create_structured_response]; the text of the message is not looked
    at. *)
Definition create_structured_response (st : store) (text : string)
    (tools_used : list string) (user_id : string) : result ui_elements :=
  let ui := {| ui_cards := []; ui_quick_replies := []; ui_charts := [] |} in
  match tools_used with
  | [] => Ok ui
  | _ =>
      rbind (progress_step st tools_used user_id ui) (fun ui =>
      let ui := quiz_step tools_used ui in
      rbind (bar_chart_step st tools_used user_id ui) (fun ui =>
      performance_step st tools_used user_id ui))
  end.

End StructuredResponse.

(** ** The welcome message *)

(** [s.split()[0]]: the first run of characters that are not white
    space, when there is one. *)
Fixpoint take_word (s : string) : string :=
  match s with
  | String c s' => if is_space c then "" else String c (take_word s')
  | EmptyString => ""
  end.

Definition first_word (s : string) : option string :=
  match lstrip s with
  | EmptyString => None
  | t => Some (take_word t)
  end.

(** [v <= n] for a small integer [n]: numbers compare, the rest raises. *)
Definition py_le (v : pyval) (n : Z) : result bool :=
  match v with
  | VInt z => Ok (z <=? n)%Z
  | VBool b => Ok ((if b then 1 else 0) <=? n)%Z
  | VFloat f => Ok (fleb f (Z2SF n))
  | _ => Raise (TypeError "'<=' not supported between instances")
  end.

(** [a or b]. *)
Definition py_or (a b : pyval) : pyval := if truthy a then a else b.

Section Welcome.

Variable repr_other : pyval -> string.

Definition show : pyval -> string := QuizManagement.py_str repr_other.

(** [get_latest_test_results(user_id)] on whatever the profile holds
    under ["user_id"]: a string is looked up, a list or a dict cannot be
    a key, and nothing else is one. *)
Definition latest_test_of (st : store) (user_id : pyval) : result pydict :=
  match user_id with
  | VStr s => get_latest_test_results st s None
  | VList _ | VDict _ => Raise (TypeError "unhashable type")
  | _ =>
      Ok [ ("error", VStr ("No test results found for user " +:+ show user_id));
           ("user_id", user_id);
           ("message",
            VStr "No test results found. Make sure you have taken a practice test.") ]
  end.

(** [_create_welcome_message].  The marks beyond Latin-1 are kept in
    UTF-8. *)
Definition create_welcome_message (st : store) (profile progress : pydict)
  : result string :=
  rbind (match dict_get_default profile "name" (VStr "there") with
         | VStr s =>
             match first_word s with
             | Some w => Ok w
             | None => Raise (OtherException "IndexError" "list index out of range")
             end
         | _ => Raise (AttributeError "object has no attribute 'split'")
         end) (fun name =>
  let test_type := dict_get_default profile "test_type" (VStr "ABC Certification") in
  let baseline_score := dict_get profile "baseline_score" in
  let user_id := dict_get profile "user_id" in
  rbind (if truthy user_id
         then rbind (latest_test_of st user_id) (fun d => Ok (VDict d))
         else Ok VNone) (fun latest_test =>
  let test_found :=
    match latest_test with
    | VDict d => truthy latest_test && negb (truthy (dict_get d "error"))
    | _ => false
    end in
  let current_score :=
    match latest_test with
    | VDict d => if test_found then dict_get d "total_score" else VNone
    | _ => VNone
    end in
  let current_score :=
    if negb (truthy current_score) && truthy (VDict progress)
       && negb (truthy (dict_get progress "error"))
    then py_or (dict_get progress "current_score") (dict_get progress "latest_score")
    else current_score in
  let current_score :=
    if negb (truthy current_score) then baseline_score else current_score in
  if test_found && truthy current_score then
    Ok ("Hey " +:+ name +:+ "!"
        +:+ nl +:+ "Well done on that last exam!"
        +:+ nl +:+ "You scored a " +:+ show current_score
        +:+ " which is a marked improvement but I think there's still room to grow."
        +:+ nl +:+ "You got this! 😉")
  else
    let days_until_test := dict_get profile "days_until_test" in
    match days_until_test with
    | VNone =>
        Ok ("Hey " +:+ name +:+ "! 👋" +:+ nl +:+ nl
            +:+ "Ready to ace your " +:+ show test_type +:+ "?")
    | _ =>
        rbind (py_le days_until_test 0) (fun today_or_past =>
        if today_or_past then
          Ok ("Hey " +:+ name +:+ "!" +:+ nl +:+ nl +:+ "Yay! It's test day! 🎉"
              +:+ nl +:+ nl
              +:+ "Are you excited? I hope you're feeling confident and ready to show what you know! 💪")
        else
          rbind (py_le days_until_test 7) (fun this_week =>
          if this_week then
            Ok ("Hey " +:+ name +:+ "! 👋" +:+ nl +:+ nl
                +:+ "Your " +:+ show test_type +:+ " is coming up soon!"
                +:+ nl +:+ nl
                +:+ "Only " +:+ show days_until_test
                +:+ " days to go! Let's make sure you're fully prepared.")
          else
            rbind (py_le days_until_test 30) (fun this_month =>
            if this_month then
              Ok ("Hey " +:+ name +:+ "! 👋" +:+ nl +:+ nl
                  +:+ "Great to see you preparing for your " +:+ show test_type +:+ "!"
                  +:+ nl +:+ nl
                  +:+ "You have " +:+ show days_until_test
                  +:+ " days to prepare. We've got this! 🎯")
            else
              Ok ("Hey " +:+ name +:+ "! 👋" +:+ nl +:+ nl
                  +:+ "Welcome back to your " +:+ show test_type +:+ " prep!"))))
    end)).

End Welcome.

End Presentation.

(* ===================================================================== *)
(** * tools/user_profile.py: the learning history                         *)
(* ===================================================================== *)

Module LearningHistory.
Import ProgressTracking.

Definition fsub : spec_float -> spec_float -> spec_float := SFsub prec emax.

(** An entry of the ["topic_breakdown"] dict. *)
Record topic_entry : Type := {
  te_attempted : Z;
  te_accuracy : pyval
}.

(** The dict [get_learning_history] returns for a user of the store. *)
Record learning_history : Type := {
  lh_period_days : Z;
  lh_total_questions_attempted : nat;
  lh_accuracy_rate : pyval;
  lh_current_streak_days : Z;
  lh_topics_practiced : nat;
  lh_topic_breakdown : list (option string * topic_entry)
}.

Inductive history_outcome : Type :=
| UserNotFound
| History (h : learning_history).

(** [(correct / total * 100) if total > 0 else 0]. *)
Definition percentage (correct total : Z) : result pyval :=
  if (0 <? total)%Z then
    rbind (int_truediv correct total) (fun ratio => Ok (VFloat (fmul ratio (Z2SF 100))))
  else Ok (VInt 0).

Section Clock.

(** The clock and the calendar: [timestamp_of ts] is
    [datetime.fromisoformat(ts.replace("Z", "+00:00")).timestamp()] and
    [date_of ts] the day number of its [date()], [None] when that raises;
    [now_timestamp] is [datetime.now().timestamp()] and [today] the day
    number of [datetime.now().date()]. *)
Variable timestamp_of : string -> option spec_float.
Variable date_of : string -> option Z.
Variable now_timestamp : spec_float.
Variable today : Z.

(** The body of the first loop: a response whose timestamp does not
    parse is kept. *)
Definition is_recent (cutoff : spec_float) (r : quiz_response) : bool :=
  match timestamp_of (qr_timestamp r) with
  | Some timestamp => fleb cutoff timestamp
  | None => true
  end.

(** [topic_stats]: per topic, the pair [(total, correct)], in the order
    the topics were first met. *)
Definition topic_stats_of (recent_responses : list quiz_response)
  : list (option string * (Z * Z)) :=
  fold_left
    (fun stats r => QuizManagement.bump_topic stats (qr_topic r) (qr_is_correct r))
    recent_responses [].

(** The dict comprehension of the ["topic_breakdown"]. *)
Fixpoint topic_breakdown_of (topic_stats : list (option string * (Z * Z)))
  : result (list (option string * topic_entry)) :=
  match topic_stats with
  | [] => Ok []
  | (topic, (total, correct)) :: rest =>
      rbind (percentage correct total) (fun accuracy =>
      rbind (topic_breakdown_of rest) (fun entries =>
      Ok ((topic,
           {| te_attempted := total;
              te_accuracy := QuizManagement.round2_value accuracy |}) :: entries)))
  end.

(** [get_learning_history]. *)
Definition get_learning_history (st : store) (user_id : string) (days : Z)
  : result history_outcome :=
  match get_user st user_id with
  | Some (_ :: _) =>
      let responses := get_quiz_responses st user_id in
      rbind (float_of_int (days * 24 * 60 * 60)) (fun period =>
      let cutoff := fsub now_timestamp period in
      let recent_responses := List.filter (is_recent cutoff) responses in
      let total_questions := length recent_responses in
      let correct_answers :=
        Z.of_nat (length (List.filter qr_is_correct recent_responses)) in
      rbind (percentage correct_answers (Z.of_nat total_questions)) (fun accuracy =>
      let sorted_dates := activity_dates date_of recent_responses in
      let current_streak :=
        match sorted_dates with
        | [] => 0%Z
        | _ => count_streak today sorted_dates
        end in
      let topic_stats := topic_stats_of recent_responses in
      rbind (topic_breakdown_of topic_stats) (fun topic_breakdown =>
      Ok (History
            {| lh_period_days := days;
               lh_total_questions_attempted := total_questions;
               lh_accuracy_rate := QuizManagement.round2_value accuracy;
               lh_current_streak_days := current_streak;
               lh_topics_practiced := length topic_stats;
               lh_topic_breakdown := topic_breakdown |}))))
  | _ => Ok UserNotFound
  end.

End Clock.

End LearningHistory.

(* ===================================================================== *)
(** * agents/orchestrator.py: the quick replies                           *)
(* ===================================================================== *)

Module QuickReplies.
Import LlmClient Presentation.

Definition fdiv : spec_float -> spec_float -> spec_float := SFdiv prec emax.

(** ** agents/scenarios.py *)

(** The ["quick_replies"] of [get_improvement_scenario]. *)
Definition improvement_replies : list pyval :=
  [ button "✅ Give me practice questions" "practice";
    button "📚 Explain the concepts" "explain_concepts";
    button "🎯 Create a study plan" "create_plan";
    button "📊 Show me my mistakes" "show_mistakes" ].

(** [int(accuracy * total / 100)], the count each message of
    [get_quiz_complete_scenario] shows. *)
Definition shown_correct (accuracy : pyval) (total : Z) : result Z :=
  match accuracy with
  | VFloat f =>
      rbind (float_of_int total) (fun t => int_of_float (fdiv (fmul f t) (Z2SF 100)))
  | VInt z => rbind (int_truediv (z * total) 100) int_of_float
  | _ => Raise (TypeError "unsupported operand type(s) for *")
  end.

(** The ["quick_replies"] of [get_quiz_complete_scenario], for the [int]
    0 or a [float]. *)
Definition quiz_complete_replies (accuracy : pyval) (total : Z) : result (list pyval) :=
  if QuizManagement.at_least accuracy 80 then
    rbind (shown_correct accuracy total) (fun _ =>
      Ok [ button "📊 Show detailed breakdown" "quiz_breakdown";
           button "🎯 Try harder questions" "harder_quiz";
           button "📈 Check my progress" "check_progress";
           button "✨ Practice more" "practice" ])
  else if QuizManagement.at_least accuracy 60 then
    rbind (shown_correct accuracy total) (fun _ =>
      Ok [ button "📖 Review wrong answers" "review_answers";
           button "🎯 Practice weak topics" "weak_topics";
           button "💡 Get study tips" "study_tips";
           button "🔄 Try similar quiz" "similar_quiz" ])
  else
    rbind (shown_correct accuracy total) (fun _ =>
      Ok [ button "📖 Review all answers" "review_all";
           button "📚 Explain concepts" "explain_concepts";
           button "🎯 Easier practice" "easier_quiz";
           button "💪 Get encouragement" "encouragement" ]).

(** ** The button lists of [_add_contextual_quick_replies], in the order
    of the source *)

Definition test_results_replies : list pyval :=
  [ button "📊 Analyze my last exam" "analyze_exam";
    button "💰 How can I improve my scores?" "improve_scores";
    button "📈 Compare with my target" "compare_progress";
    button "🎯 Generate practice questions" "create_quiz" ].

Definition performance_replies : list pyval :=
  [ button "🎯 Create practice on weak areas" "create_quiz";
    button "📊 Show detailed breakdown" "detailed_analysis";
    button "💡 What should I study next?" "get_recommendations";
    button "📈 How am I doing overall?" "check_progress" ].

Definition quiz_ready_replies : list pyval :=
  [ button "▶️ Start this quiz" "start_quiz";
    button "⚙️ Customize quiz settings" "customize_quiz";
    button "📚 Review concepts first" "review_concepts";
    button "❌ Skip for now" "cancel" ].

Definition recommendation_replies : list pyval :=
  [ button "🎯 Create practice quiz" "create_quiz";
    button "📊 Analyze more details" "analyze_exam";
    button "💡 Show study plan" "get_recommendations";
    button "📈 Track my progress" "check_progress" ].

Definition progress_replies : list pyval :=
  [ button "🎯 Create practice questions" "create_quiz";
    button "📊 Analyze my last test" "analyze_exam";
    button "💡 Get recommendations" "get_recommendations";
    button "🔥 Check my streak" "check_progress" ].

Definition error_pattern_replies : list pyval :=
  [ button "🎯 Practice my weak topics" "create_quiz";
    button "📊 Show detailed analysis" "detailed_analysis";
    button "💡 How to fix these mistakes?" "get_recommendations";
    button "📚 Review explanations" "review_concepts" ].

Definition explanation_replies : list pyval :=
  [ button "🎯 Try similar questions" "create_quiz";
    button "📊 Analyze my test" "analyze_exam";
    button "💡 Explain another topic" "explain_concepts";
    button "📈 Check my progress" "check_progress" ].

Definition post_quiz_replies : list pyval :=
  [ button "📊 Review my results" "analyze_exam";
    button "🎯 Try another quiz" "create_quiz";
    button "💡 Get study tips" "get_recommendations";
    button "📈 Check overall progress" "check_progress" ].

Definition improvement_discussion_replies : list pyval :=
  [ button "🎯 Create practice on weak areas" "create_quiz";
    button "📊 Show detailed breakdown" "analyze_exam";
    button "💡 Get personalized recommendations" "get_recommendations";
    button "📚 Review explanations" "review_concepts" ].

Definition no_data_replies : list pyval :=
  [ button "✅ I did take a test!" "confirm_test_taken";
    button "🎯 Let's do a practice quiz" "create_quiz";
    button "📊 Check my profile" "check_profile";
    button "💬 I need help" "support" ].

Definition confirm_quiz_replies : list pyval :=
  [ button "✅ Yes! Let's do it" "start_quiz";
    button "⚙️ Let me customize it" "customize_quiz";
    button "📚 Review first" "review_concepts";
    button "❌ Maybe later" "cancel" ].

Definition confirm_test_replies : list pyval :=
  [ button "✅ Yep, I took one!" "confirm_test_taken";
    button "❌ Not yet" "no_test_yet";
    button "🎯 Let's practice" "create_quiz" ].

Definition schedule_replies : list pyval :=
  [ button "📅 Set a new date" "schedule_test";
    button "📊 Just study for now" "focus_study";
    button "💬 Tell me more" "more_info" ].

Definition confirm_replies : list pyval :=
  [ button "✅ Yes, sounds good!" "confirm_yes";
    button "❌ Nope, I'm good" "confirm_no";
    button "💬 Tell me more" "more_info" ].

Definition analysis_replies : list pyval :=
  [ button "🎯 Help me practice" "create_quiz";
    button "📊 Show me more details" "analyze_exam";
    button "💡 What should I study?" "get_recommendations";
    button "📈 How am I doing now?" "check_progress" ].

Definition streak_replies : list pyval :=
  [ button "📈 Overall progress" "check_progress";
    button "🎯 Create practice quiz" "create_quiz";
    button "📊 Analyze my test" "analyze_exam";
    button "💡 Get recommendations" "get_recommendations" ].

Definition default_replies : list pyval :=
  [ button "📊 Analyze my last exam" "analyze_exam";
    button "💰 How can I improve my scores?" "improve_scores";
    button "🤔 How am I doing now?" "check_progress";
    button "📝 Come up with similar questions" "create_quiz" ].

Definition set_quick_replies (replies : list pyval) (ui : ui_elements) : ui_elements :=
  {| ui_cards := ui_cards ui; ui_quick_replies := replies; ui_charts := ui_charts ui |}.

(** [any(phrase in text for phrase in phrases)]. *)
Definition any_in (phrases : list string) (text : string) : bool :=
  existsb (fun phrase => contains phrase text) phrases.

(** The contents joined by a space, in lower case; a content that is
    [None] cannot be joined. *)
Fixpoint contents_of (messages : list message) : result (list string) :=
  match messages with
  | [] => Ok []
  | msg :: rest =>
      match content msg with
      | Some text => rbind (contents_of rest) (fun texts => Ok (text :: texts))
      | None => Raise (TypeError "sequence item: expected str instance, NoneType found")
      end
  end.

Definition conversation_context_of (conversation_history : list message)
  : result string :=
  match conversation_history with
  | [] => Ok ""
  | _ =>
      rbind (contents_of (last_n 3 conversation_history)) (fun texts =>
        Ok (lower (String.concat " " texts)))
  end.

(** What the line printed at the end needs of a reply: a dict whose
    ["text"], when it has one, can be sliced. *)
Definition printable (r : pyval) : bool :=
  match r with
  | VDict d =>
      match dict_get_default d "text" (VStr "") with
      | VStr _ | VList _ => true
      | _ => false
      end
  | _ => false
  end.

Section QuickReplies.

(** [search_accuracy text] is [re.search(r'(\d+)%|(\d+)/(\d+)', text)]:
    [None] when nothing matches, else the groups 2 and 3 of the match
    (both [None] when the percentage matched).  [py_int] is [int] on a
    string of digits. *)
Variable search_accuracy : string -> option (option string * option string).
Variable py_int : string -> result Z.

(** The [try] block of the quiz-completion branch. *)
Definition quiz_complete_attempt (groups : option string * option string)
  : result (list pyval) :=
  rbind (match groups.1 with
         | Some ((String _ _) as digits) => py_int digits
         | _ => Ok 0%Z
         end) (fun correct =>
  rbind (match groups.2 with
         | Some ((String _ _) as digits) => py_int digits
         | _ => Ok 20%Z
         end) (fun total =>
  rbind (if (0 <? total)%Z then
           rbind (int_truediv correct total) (fun ratio =>
             Ok (VFloat (fmul ratio (Z2SF 100))))
         else Ok (VInt 0)) (fun accuracy =>
  quiz_complete_replies accuracy total))).

(** [_add_contextual_quick_replies]: the [ui_elements] it leaves.  The
    user's message is lowered and not looked at again. *)
Definition add_contextual_quick_replies (response_text : string) (ui : ui_elements)
    (user_message : string) (tools_used : list string)
    (conversation_history : list message) : result ui_elements :=
  let response_lower := lower response_text in
  let uses (function_name : string) : bool := bool_decide (function_name ∈ tools_used) in
  rbind (conversation_context_of conversation_history) (fun conversation_context =>
  if uses "get_latest_test_results" then Ok (set_quick_replies test_results_replies ui)
  else if uses "analyze_performance_by_topic"
  then Ok (set_quick_replies performance_replies ui)
  else if uses "generate_adaptive_quiz" then Ok (set_quick_replies quiz_ready_replies ui)
  else if uses "generate_bar_chart_data" || uses "generate_study_recommendations"
  then Ok (set_quick_replies recommendation_replies ui)
  else if uses "get_progress_summary" then Ok (set_quick_replies progress_replies ui)
  else if uses "identify_error_patterns"
  then Ok (set_quick_replies error_pattern_replies ui)
  else if uses "get_question_explanation"
  then Ok (set_quick_replies explanation_replies ui)
  else if negb (String.eqb conversation_context "")
          && any_in ["quiz"; "practice"; "question"] conversation_context
          && any_in ["complete"; "finished"; "done"; "result"; "score"; "correct"]
               response_lower
  then
    match search_accuracy response_text with
    | Some groups =>
        match quiz_complete_attempt groups with
        | Ok replies => Ok (set_quick_replies replies ui)
        | Raise _ => Ok (set_quick_replies post_quiz_replies ui)
        end
    | None => Ok (set_quick_replies post_quiz_replies ui)
    end
  else if negb (String.eqb conversation_context "")
          && any_in ["improve"; "better"; "weak"; "struggl"; "help"] conversation_context
  then Ok (set_quick_replies improvement_discussion_replies ui)
  else if any_in [ "issue retrieving"; "error"; "could not"; "unable to";
                   "no recent test results"; "no test results"; "haven't taken" ]
            response_lower
  then Ok (set_quick_replies no_data_replies ui)
  else if any_in [ "would you like"; "do you want"; "shall we"; "ready to";
                   "can you confirm"; "please confirm"; "let me know" ]
            response_lower
  then
    if contains "quiz" response_lower || contains "practice" response_lower
    then Ok (set_quick_replies confirm_quiz_replies ui)
    else if contains "test" response_lower || contains "exam" response_lower
    then Ok (set_quick_replies confirm_test_replies ui)
    else if contains "schedule" response_lower || contains "reschedule" response_lower
    then Ok (set_quick_replies schedule_replies ui)
    else Ok (set_quick_replies confirm_replies ui)
  else if any_in [ "based on"; "you scored"; "your performance"; "recommend"; "suggest";
                   "weak areas"; "strengths"; "improve"; "focus on"; "analysis";
                   "breakdown" ]
            response_lower
  then
    let weak_topics :=
      List.filter
        (fun topic =>
           contains topic response_lower
           && (contains "weak" response_lower || contains "struggle" response_lower
               || contains "difficulty" response_lower))
        [ "algebra"; "geometry"; "reading"; "writing"; "math"; "verbal";
          "quantitative" ] in
    match weak_topics with
    | [] => Ok (set_quick_replies analysis_replies ui)
    | _ => Ok (set_quick_replies improvement_replies ui)
    end
  else if any_in [ "streak"; "progress"; "improvement"; "better"; "days"; "practice" ]
            response_lower
          && match tools_used with [] => true | _ => false end
  then Ok (set_quick_replies streak_replies ui)
  else
    let ui :=
      match ui_quick_replies ui with
      | [] => set_quick_replies default_replies ui
      | _ => ui
      end in
    if forallb printable (ui_quick_replies ui) then Ok ui
    else Raise (AttributeError "object has no attribute 'get'")).

End QuickReplies.

End QuickReplies.

(* ===================================================================== *)
(** * main.py: the endpoints                                              *)
(* ===================================================================== *)

Module Api.
Import UserProfile QuizManagement.

(** What an endpoint answers: the value it returns, or the
    [HTTPException] it raises. *)
Inductive http_response (A : Type) : Type :=
| Returned (body : A)
| HTTPException (status_code : Z) (detail : pyval).
Arguments Returned {A} body.
Arguments HTTPException {A} status_code detail.

(** The request model [QuizConfig]. *)
Record QuizConfig : Type := {
  size : Z;
  section : option string;
  topics : option (list string)
}.

(** [config.model_dump()], as [generate_adaptive_quiz] reads it: there is
    no ["test_type"], and [topics] of [None] is as falsy as no topics. *)
Definition model_dump (config : QuizConfig) : quiz_config :=
  {| cfg_size := Some (size config);
     cfg_test_type := None;
     cfg_section := match section config with Some s => VStr s | None => VNone end;
     cfg_topics := match topics config with Some l => map VStr l | None => [] end |}.

(** [get_profile]. *)
Definition get_profile (days_until : string -> option Z) (st : store) (user_id : string)
  : http_response pydict :=
  let profile := get_user_profile days_until st user_id in
  match dict_lookup profile "error" with
  | Some detail => HTTPException 404 detail
  | None => Returned profile
  end.

(** [create_quiz]. *)
Definition create_quiz (repr_other : pyval -> string) (ent : quiz_entropy) (st : store)
    (user_id : string) (config : QuizConfig) : http_response quiz_created * store :=
  match generate_adaptive_quiz repr_other ent st user_id (model_dump config) with
  | (Ok (QuizCreated quiz), st') => (Returned quiz, st')
  | (Ok (QuizError error _), st') => (HTTPException 400 (VStr error), st')
  | (Raise e, st') => (HTTPException 500 (VStr (exn_str e)), st')
  end.

(** [submit_quiz]. *)
Definition submit_quiz (ent : submit_entropy) (st : store) (user_id quiz_id : string)
    (responses : list submitted_response) : http_response quiz_feedback * store :=
  match submit_quiz_response ent st user_id quiz_id responses with
  | (Ok result, st') => (Returned result, st')
  | (Raise e, st') => (HTTPException 500 (VStr (exn_str e)), st')
  end.

End Api.

(* ===================================================================== *)
(** * Properties                                                          *)
(* ===================================================================== *)

(** ** Dictionaries *)

Module DictFacts.

Lemma dict_lookup_set (d : pydict) (k k' : string) (v : pyval) :
  dict_lookup (dict_set d k v) k' =
  if String.eqb k k' then Some v else dict_lookup d k'.
Proof.
  induction d as [|[k0 v0] d IH]; simpl.
  - reflexivity.
  - destruct (String.eqb k0 k) eqn:E0; simpl.
    + apply String.eqb_eq in E0. subst k0.
      destruct (String.eqb k k'); reflexivity.
    + destruct (String.eqb k0 k') eqn:E1.
      * apply String.eqb_eq in E1. subst k0.
        rewrite String.eqb_sym, E0. reflexivity.
      * apply IH.
Qed.

Lemma dict_lookup_app (d1 d2 : pydict) (k : string) :
  dict_lookup (d1 ++ d2) k =
  match dict_lookup d1 k with Some v => Some v | None => dict_lookup d2 k end.
Proof.
  induction d1 as [|[k0 v0] d1 IH]; simpl; [reflexivity|].
  destruct (String.eqb k0 k); [reflexivity | apply IH].
Qed.

(** After [d.update(u)] a key holds the value of its last item in [u],
    and its old value when [u] has no item for it. *)
Lemma dict_lookup_update (u d : pydict) (k : string) :
  dict_lookup (dict_update d u) k =
  match dict_lookup (rev u) k with
  | Some v => Some v
  | None => dict_lookup d k
  end.
Proof.
  unfold dict_update. revert d.
  induction u as [|[k0 v0] u IH]; intros d; simpl; [reflexivity|].
  rewrite IH, dict_lookup_app, dict_lookup_set. simpl.
  destruct (dict_lookup (rev u) k); [reflexivity|].
  destruct (String.eqb k0 k); reflexivity.
Qed.

Lemma dict_lookup_filter_out (keep : string -> bool) (u : pydict) (k : string) :
  keep k = false ->
  dict_lookup (List.filter (fun kv => keep kv.1) u) k = None.
Proof.
  intros Hk. induction u as [|[k0 v0] u IH]; simpl; [reflexivity|].
  destruct (keep k0) eqn:E; simpl; [|exact IH].
  destruct (String.eqb k0 k) eqn:E0; [|exact IH].
  apply String.eqb_eq in E0. congruence.
Qed.

Lemma dict_lookup_filter_in (keep : string -> bool) (u : pydict) (k : string) :
  keep k = true ->
  dict_lookup (List.filter (fun kv => keep kv.1) u) k = dict_lookup u k.
Proof.
  intros Hk. induction u as [|[k0 v0] u IH]; simpl; [reflexivity|].
  destruct (keep k0) eqn:E; simpl.
  - destruct (String.eqb k0 k); [reflexivity | exact IH].
  - destruct (String.eqb k0 k) eqn:E0; [|exact IH].
    apply String.eqb_eq in E0. congruence.
Qed.

Lemma filter_rev {A} (f : A -> bool) (l : list A) :
  List.filter f (rev l) = rev (List.filter f l).
Proof.
  induction l as [|x l IH]; simpl; [reflexivity|].
  rewrite List.filter_app, IH. simpl.
  destruct (f x); simpl; [reflexivity | apply app_nil_r].
Qed.

End DictFacts.

(** ** config.py *)

Module ConfigFacts.
Import Config.

Lemma validate_ok_iff (v k : string) :
  (validate_and_strip_api_key v).2 = Ok k <->
  v <> "" /\ (20 <= String.length (strip v))%nat /\ k = strip v.
Proof.
  unfold validate_and_strip_api_key.
  destruct (String.eqb_spec v ""); simpl.
  - split; [discriminate | intros [H _]; contradiction].
  - destruct (Nat.ltb_spec (String.length (strip v)) 20); simpl.
    + split; [discriminate | intros (_ & H' & _); lia].
    + split.
      * intros [= <-]. auto.
      * intros (_ & _ & ->). reflexivity.
Qed.

(** C9, as the code has it.  Validation rejects exactly the empty key and
    the keys whose stripped length is below 20, so settings construction
    succeeds exactly for the other keys; the check of the prefix ["sk-"]
    decides only whether a warning is printed. *)
Theorem api_key_validation (v environment : string) (debug : bool) :
  (is_ok (Settings_new (Some v) environment debug) = true <->
   v <> "" /\ (20 <= String.length (strip v))%nat)
  /\ (forall k, (validate_and_strip_api_key v).2 = Ok k -> k = strip v)
  /\ ((validate_and_strip_api_key v).1 = [] <->
      v = "" \/ startswith "sk-" (strip v) = true).
Proof.
  split; [|split].
  - unfold Settings_new.
    destruct ((validate_and_strip_api_key v).2) as [k|e] eqn:E; simpl.
    + apply validate_ok_iff in E as (? & ? & _). tauto.
    + split; [discriminate|]. intros [Hv Hl].
      assert (H : (validate_and_strip_api_key v).2 = Ok (strip v))
        by (apply validate_ok_iff; auto).
      congruence.
  - intros k Hk. apply validate_ok_iff in Hk. tauto.
  - unfold validate_and_strip_api_key.
    destruct (String.eqb_spec v "").
    + cbn [fst]. tauto.
    + destruct (startswith "sk-" (strip v)) eqn:P;
        destruct (String.length (strip v) <? 20)%nat; cbn [fst];
        split; intros H; try discriminate; try tauto;
        destruct H; try contradiction; discriminate.
Qed.

(** A key of 23 characters that does not start with ["sk-"]. *)
Definition unprefixed_key : string := "pk-0123456789abcdefghij".

(** C9 as stated fails: a key lacking the prefix passes validation and
    the settings are built from it; the only trace is the warning. *)
Lemma unprefixed_key_accepted :
  startswith "sk-" (strip unprefixed_key) = false
  /\ validate_and_strip_api_key unprefixed_key
     = ([WarnNoSkPrefix "pk-"], Ok unprefixed_key)
  /\ get_settings (Some unprefixed_key) "development" true
     = Ok {| OPENAI_API_KEY := unprefixed_key; ENVIRONMENT := "development";
             DEBUG := true |}.
Proof. repeat split; vm_compute; reflexivity. Qed.

End ConfigFacts.

(** ** tools/user_profile.py *)

Module UserProfileFacts.
Import UserProfile DictFacts.

Definition protected (k : string) : bool := bool_decide (k ∈ protected_fields).

Lemma safe_updates_protected (updates : pydict) (k : string) :
  protected k = true -> dict_lookup (rev (safe_updates_of updates)) k = None.
Proof.
  intros Hk. unfold safe_updates_of.
  rewrite <- filter_rev.
  apply (dict_lookup_filter_out (fun k => negb (protected k))).
  unfold protected in *. rewrite Hk. reflexivity.
Qed.

Lemma safe_updates_other (updates : pydict) (k : string) :
  protected k = false ->
  dict_lookup (rev (safe_updates_of updates)) k = dict_lookup (rev updates) k.
Proof.
  intros Hk. unfold safe_updates_of.
  rewrite <- filter_rev.
  apply (dict_lookup_filter_in (fun k => negb (protected k))).
  unfold protected in *. rewrite Hk. reflexivity.
Qed.

(** C10.  For an existing user, [update_user_profile] leaves the stored
    ["user_id"] and ["email"] as they were, whatever [updates] holds; any
    other key holds the value supplied for it (the last one, should the
    items repeat a key) or, when none is supplied, its old value.  The
    other users and the rest of the store are untouched. *)
Theorem update_user_profile_frame (st : store) (user_id : string)
    (user updates : pydict) :
  users st !! user_id = Some user ->
  exists user',
    users (update_user_profile st user_id updates).2 !! user_id = Some user'
    /\ dict_lookup user' "user_id" = dict_lookup user "user_id"
    /\ dict_lookup user' "email" = dict_lookup user "email"
    /\ (forall k, k <> "user_id" -> k <> "email" ->
        dict_lookup user' k =
        match dict_lookup (rev updates) k with
        | Some v => Some v
        | None => dict_lookup user k
        end)
    /\ (forall other, other <> user_id ->
        users (update_user_profile st user_id updates).2 !! other
        = users st !! other)
    /\ questions (update_user_profile st user_id updates).2 = questions st
    /\ test_results (update_user_profile st user_id updates).2 = test_results st
    /\ quiz_responses (update_user_profile st user_id updates).2 = quiz_responses st
    /\ quizzes (update_user_profile st user_id updates).2 = quizzes st.
Proof.
  intros Hu.
  unfold update_user_profile, update_user. rewrite Hu. simpl.
  exists (dict_update user (safe_updates_of updates)).
  split; [apply lookup_insert_eq|].
  split; [rewrite dict_lookup_update, safe_updates_protected; reflexivity|].
  split; [rewrite dict_lookup_update, safe_updates_protected; reflexivity|].
  split.
  - intros k H1 H2. rewrite dict_lookup_update, safe_updates_other; [reflexivity|].
    unfold protected, protected_fields.
    apply bool_decide_eq_false. rewrite !elem_of_cons, elem_of_nil. tauto.
  - split; [|repeat split].
    intros other Hne. apply lookup_insert_ne. congruence.
Qed.

(** A store with two users, for the examples. *)
Definition suzy : pydict :=
  [ ("user_id", VStr "mock-user"); ("email", VStr "student@example.com");
    ("name", VStr "Suzy"); ("test_type", VStr "ABC Certification");
    ("target_score", VInt 1600) ].

Definition alex : pydict :=
  [ ("user_id", VStr "victim"); ("email", VStr "alex@example.com");
    ("name", VStr "Alex"); ("test_type", VStr "SAT") ].

Definition two_users : store :=
  {| users := <["mock-user" := suzy]> (<["victim" := alex]> ∅);
     questions := []; test_results := ∅; quiz_responses := ∅;
     conversation_history := ∅; study_sessions := ∅; quizzes := ∅ |}.

Definition hostile_updates : pydict :=
  [ ("user_id", VStr "root"); ("email", VStr "evil@example.com");
    ("target_score", VInt 1500) ].

Lemma update_user_profile_frame_witness :
  users two_users !! "mock-user" = Some suzy
  /\ exists user',
       users (update_user_profile two_users "mock-user" hostile_updates).2
         !! "mock-user" = Some user'
       /\ dict_lookup user' "user_id" = Some (VStr "mock-user")
       /\ dict_lookup user' "email" = Some (VStr "student@example.com").
Proof.
  split; [reflexivity|].
  destruct (update_user_profile_frame two_users "mock-user" suzy hostile_updates)
    as (user' & H1 & H2 & H3 & _); [reflexivity|].
  exists user'. repeat split; assumption.
Defined.

End UserProfileFacts.

(** ** agents/llm_client.py *)

Module LlmClientFacts.
Import LlmClient DictFacts.

Section AgentFacts.
Set Default Proof Using "Type".

Variable system_prompt : string.
Variable json_loads : string -> option pyval.
Variable json_dumps : pyval -> string.
Variable repr_other : pyval -> string.
Variable str_title : string -> string.
Variable llm : list message -> result llm_response.
Variable tools : list tool_spec.
Variable tool_map : gmap string tool.

Local Abbreviation inject := (inject_user_id tools).
Local Abbreviation exec := (execute_tool tool_map).
Local Abbreviation ptc := (process_tool_call json_loads json_dumps tools tool_map).
Local Abbreviation loop := (tool_loop json_loads json_dumps llm tools tool_map).
Local Abbreviation validate := (validate_response_against_tools json_loads repr_other str_title).
Local Abbreviation pwt :=
  (process_with_tools json_loads json_dumps repr_other str_title llm tools tool_map).
Local Abbreviation pm :=
  (process_message system_prompt json_loads json_dumps repr_other str_title
     llm tools tool_map).

(** The message that carries a tool's result. *)
Definition tool_message (tc : tool_call) (result : pyval) : message :=
  {| role := "tool"; content := Some (json_dumps result); msg_tool_calls := None;
     tool_call_id := Some (tc_id tc); name := Some (tc_name tc) |}.

(** The arguments of a tool call as parsed: an empty dict when the text
    is not JSON. *)
Definition parsed_arguments (tc : tool_call) : pyval :=
  default (VDict []) (json_loads (tc_arguments tc)).

Lemma process_tool_call_unfold (user_id : string) (tc : tool_call) (s : agent_state) :
  ptc user_id tc s =
  match inject user_id (tc_name tc) (parsed_arguments tc) with
  | Raise e => (Raise e, s)
  | Ok arguments =>
      (Ok tt,
       append_message (tool_message tc (exec (tc_name tc) arguments s).1)
         (track_tool_call (tc_name tc) arguments (exec (tc_name tc) arguments s).2))
  end.
Proof.
  unfold process_tool_call, bind, lift, modify, parsed_arguments, tool_message.
  destruct (inject_user_id _ _ _ _) as [arguments|e]; [|reflexivity].
  destruct (execute_tool _ _ _ _) as [r s1]. reflexivity.
Qed.

(** What [_execute_tool] does to the state: it runs at most one tool
    function, on keyword arguments that are the dict it was given. *)
Lemma execute_tool_state (function_name : string) (arguments : pyval) (s : agent_state) :
  let s' := (exec function_name arguments s).2 in
  a_messages s' = a_messages s
  /\ a_tool_calls_made s' = a_tool_calls_made s
  /\ a_iterations s' = a_iterations s
  /\ a_requests s' = a_requests s
  /\ a_agent_calls s' = a_agent_calls s
  /\ (a_executed s' = a_executed s
      \/ exists kwargs, arguments = VDict kwargs
           /\ a_executed s' = a_executed s ++ [(function_name, kwargs)]).
Proof.
  unfold execute_tool.
  destruct (tool_map !! function_name) as [func|]; [|simpl; auto 10].
  destruct arguments as [| | | | | |d]; simpl; auto 10.
  destruct (func d (a_store s)) as [[v|e] st']; simpl;
    repeat split; right; eexists; split; reflexivity.
Qed.

(** [_execute_tool] turns an exception of the tool function into an
    error payload. *)
Lemma execute_tool_raise (function_name : string) (kwargs : pydict) (func : tool)
    (e : exn) (st' : store) (s : agent_state) :
  tool_map !! function_name = Some func ->
  func kwargs (a_store s) = (Raise e, st') ->
  exec function_name (VDict kwargs) s
  = (error_payload (exn_str e), log_executed function_name kwargs (with_store s st')).
Proof.
  intros Hf He. unfold execute_tool. rewrite Hf, He. reflexivity.
Qed.

(** C7.  When the function a tool call dispatches to raises an
    exception [e], [_execute_tool] returns the dict [{"error": str(e)}]
    instead of propagating; the loop body serializes that dict, appends
    it to the conversation as the tool message of the call (with the
    id and the function name of the call), and returns normally, so
    the remaining calls of the turn are processed. *)
Theorem tool_exception_is_fed_back (user_id : string) (tc : tool_call)
    (kwargs : pydict) (func : tool) (e : exn) (st' : store) (s : agent_state) :
  inject user_id (tc_name tc) (parsed_arguments tc) = Ok (VDict kwargs) ->
  tool_map !! tc_name tc = Some func ->
  func kwargs (a_store s) = (Raise e, st') ->
  exec (tc_name tc) (VDict kwargs) s
  = (VDict [("error", VStr (exn_str e))],
     log_executed (tc_name tc) kwargs (with_store s st'))
  /\ exists s',
       ptc user_id tc s = (Ok tt, s')
       /\ a_messages s'
          = a_messages s
            ++ [ {| role := "tool";
                    content := Some (json_dumps (VDict [("error", VStr (exn_str e))]));
                    msg_tool_calls := None;
                    tool_call_id := Some (tc_id tc);
                    name := Some (tc_name tc) |} ]
       /\ a_store s' = st'
       /\ forall rest, for_each (tc :: rest) (ptc user_id) s
                       = for_each rest (ptc user_id) s'.
Proof.
  intros Hi Hf He.
  pose proof (execute_tool_raise _ _ _ _ _ _ Hf He) as Hx.
  split; [exact Hx|].
  eexists. split; [|split; [|split]].
  - rewrite process_tool_call_unfold, Hi, Hx. reflexivity.
  - reflexivity.
  - reflexivity.
  - intros rest. simpl. unfold bind at 1.
    rewrite process_tool_call_unfold, Hi, Hx. reflexivity.
Qed.

(** ** The loop, one round at a time *)

Definition assistant_message (response : llm_response) (calls : list tool_call)
  : message :=
  {| role := "assistant"; content := resp_content response;
     msg_tool_calls := Some calls; tool_call_id := None; name := None |}.

Lemma tool_loop_step (fuel : nat) (user_id : string) (response : llm_response)
    (s : agent_state) :
  loop (S fuel) user_id response s =
  if String.eqb (finish_reason response) "tool_calls" then
    match resp_tool_calls response with
    | None => (Raise (TypeError "object of type 'NoneType' has no len()"),
               next_iteration s)
    | Some calls =>
        match for_each calls (ptc user_id)
                (append_message (assistant_message response calls)
                   (next_iteration s)) with
        | (Raise e, s2) => (Raise e, s2)
        | (Ok _, s2) =>
            match llm (a_messages s2) with
            | Raise e => (Raise e, log_request s2)
            | Ok response' => loop fuel user_id response' (log_request s2)
            end
        end
    end
  else (Ok response, s).
Proof.
  simpl. destruct (String.eqb _ _); [|reflexivity].
  unfold bind at 1. unfold modify at 1.
  destruct (resp_tool_calls response) as [calls|]; [|reflexivity].
  unfold bind at 1. unfold modify at 1.
  unfold bind at 1. unfold assistant_message.
  destruct (for_each calls _ _) as [[[]|e] s2]; [|reflexivity].
  unfold bind at 1. unfold call_model at 1.
  destruct (llm (a_messages s2)); reflexivity.
Qed.

Lemma for_each_cons {A} (x : A) (l : list A) (body : A -> M unit) (s : agent_state) :
  for_each (x :: l) body s =
  match body x s with
  | (Ok _, s') => for_each l body s'
  | (Raise e, s') => (Raise e, s')
  end.
Proof. reflexivity. Qed.

(** ** What a turn sends to the model and runs *)

(** All the requests of [reqs] were answered. *)
Definition answered (reqs : list (list message)) : Prop :=
  Forall (fun q => is_ok (llm q) = true) reqs.

(** The requests [reqs] of a computation that ended in [r]: all were
    answered, unless the computation raised the very exception of its
    last request. *)
Definition no_retry {A} (r : result A) (reqs : list (list message)) : Prop :=
  match r with
  | Ok _ => answered reqs
  | Raise e =>
      answered reqs
      \/ exists init q, reqs = init ++ [q] /\ answered init /\ llm q = Raise e
  end.

(** A tool function was run on keyword arguments that came out of the
    injection step for [user_id]. *)
Definition injected (user_id : string) (entry : string * pydict) : Prop :=
  exists arguments, inject user_id entry.1 arguments = Ok (VDict entry.2).

Lemma process_tool_call_log (user_id : string) (tc : tool_call) (s : agent_state) :
  let s' := (ptc user_id tc s).2 in
  a_requests s' = a_requests s
  /\ a_iterations s' = a_iterations s
  /\ a_agent_calls s' = a_agent_calls s
  /\ exists new, a_executed s' = a_executed s ++ new /\ Forall (injected user_id) new.
Proof.
  rewrite process_tool_call_unfold.
  destruct (inject user_id (tc_name tc) (parsed_arguments tc)) as [arguments|e] eqn:Hi.
  - pose proof (execute_tool_state (tc_name tc) arguments s)
      as (_ & _ & H3 & H4 & H5 & H6).
    simpl. repeat split; try assumption.
    destruct H6 as [H6|(kwargs & -> & H6)].
    + exists []. rewrite app_nil_r. auto.
    + exists [(tc_name tc, kwargs)]. split; [exact H6|].
      constructor; [|constructor]. eexists. exact Hi.
  - simpl. repeat split. exists []. rewrite app_nil_r. auto.
Qed.

Lemma for_each_log (user_id : string) (calls : list tool_call) (s : agent_state) :
  let s' := (for_each calls (ptc user_id) s).2 in
  a_requests s' = a_requests s
  /\ a_iterations s' = a_iterations s
  /\ a_agent_calls s' = a_agent_calls s
  /\ exists new, a_executed s' = a_executed s ++ new /\ Forall (injected user_id) new.
Proof.
  revert s. induction calls as [|tc calls IH]; intros s.
  - simpl. repeat split. exists []. rewrite app_nil_r. auto.
  - rewrite for_each_cons.
    pose proof (process_tool_call_log user_id tc s) as (H1 & H2 & H3 & new1 & H4 & H5).
    destruct (ptc user_id tc s) as [[[]|e] s1]; simpl in *.
    + destruct (IH s1) as (G1 & G2 & G3 & new2 & G4 & G5).
      repeat split; try congruence.
      exists (new1 ++ new2). split.
      * rewrite G4, H4, app_assoc. reflexivity.
      * apply Forall_app; auto.
    + repeat split; try assumption. exists new1. auto.
Qed.

Lemma answered_cons (q : list message) (reqs : list (list message)) (r : llm_response) :
  llm q = Ok r -> answered reqs -> answered (q :: reqs).
Proof. intros Hq H. constructor; [rewrite Hq; reflexivity | exact H]. Qed.

Lemma tool_loop_log (user_id : string) (fuel : nat) :
  forall (response : llm_response) (s : agent_state),
    let out := loop fuel user_id response s in
    a_agent_calls out.2 = a_agent_calls s
    /\ (exists reqs, a_requests out.2 = a_requests s ++ reqs /\ no_retry out.1 reqs)
    /\ (exists new, a_executed out.2 = a_executed s ++ new
                    /\ Forall (injected user_id) new).
Proof.
  induction fuel as [|fuel IH]; intros response s.
  - simpl. split; [reflexivity|]. split.
    + exists []. rewrite app_nil_r. split; [reflexivity | constructor].
    + exists []. rewrite app_nil_r. auto.
  - rewrite tool_loop_step.
    destruct (String.eqb _ _).
    2:{ simpl. split; [reflexivity|]. split.
        - exists []. rewrite app_nil_r. split; [reflexivity | constructor].
        - exists []. rewrite app_nil_r. auto. }
    destruct (resp_tool_calls response) as [calls|].
    2:{ simpl. split; [reflexivity|]. split.
        - exists []. rewrite app_nil_r. split; [reflexivity | left; constructor].
        - exists []. rewrite app_nil_r. auto. }
    pose proof (for_each_log user_id calls
                  (append_message (assistant_message response calls)
                     (next_iteration s))) as (H1 & _ & H3 & new1 & H4 & H5).
    destruct (for_each calls _ _) as [[[]|e] s2]; simpl in H1, H3, H4.
    2:{ simpl. split; [exact H3|]. split.
        - exists []. rewrite app_nil_r. split; [exact H1 | left; constructor].
        - exists new1. auto. }
    destruct (llm (a_messages s2)) as [response'|e] eqn:Hq.
    2:{ simpl. split; [exact H3|]. split.
        - exists [a_messages s2]. split; [rewrite H1; reflexivity|].
          right. exists [], (a_messages s2). repeat split; [constructor | exact Hq].
        - exists new1. auto. }
    destruct (IH response' (log_request s2)) as (G1 & (reqs & G2 & G3) & new2 & G4 & G5).
    split; [rewrite G1; exact H3|]. split.
    + exists (a_messages s2 :: reqs). split.
      * rewrite G2. simpl. rewrite H1, <- app_assoc. reflexivity.
      * destruct (loop fuel user_id response' (log_request s2)).1 as [a|e']; simpl in *.
        -- eapply answered_cons; eauto.
        -- destruct G3 as [G3|(init & q & -> & G3 & G3')].
           ++ left. eapply answered_cons; eauto.
           ++ right. exists (a_messages s2 :: init), q.
              repeat split; [eapply answered_cons; eauto | exact G3'].
    + exists (new1 ++ new2). split.
      * rewrite G4. simpl. rewrite H4, app_assoc. reflexivity.
      * apply Forall_app; auto.
Qed.

Lemma process_with_tools_unfold (user_id : string) (s : agent_state) :
  pwt user_id s =
  match llm (a_messages s) with
  | Raise e => (Raise e, log_request s)
  | Ok response =>
      match loop max_iterations user_id response (log_request s) with
      | (Raise e, s') => (Raise e, s')
      | (Ok response', s') =>
          (validate (resp_content response') (a_tool_calls_made s') (a_messages s'), s')
      end
  end.
Proof.
  unfold process_with_tools. unfold bind at 1. unfold call_model at 1.
  destruct (llm (a_messages s)); [|reflexivity].
  unfold bind at 1. destruct (tool_loop _ _ _ _ _ _ _ _ _) as [[r|e] s']; reflexivity.
Qed.

Lemma process_with_tools_log (user_id : string) (s : agent_state) :
  let out := pwt user_id s in
  a_agent_calls out.2 = a_agent_calls s
  /\ (exists reqs, a_requests out.2 = a_requests s ++ reqs /\ no_retry out.1 reqs)
  /\ (exists new, a_executed out.2 = a_executed s ++ new
                  /\ Forall (injected user_id) new).
Proof.
  rewrite process_with_tools_unfold.
  destruct (llm (a_messages s)) as [response|e] eqn:Hq.
  2:{ simpl. split; [reflexivity|]. split.
      - exists [a_messages s]. split; [reflexivity|].
        right. exists [], (a_messages s). repeat split; [constructor | exact Hq].
      - exists []. rewrite app_nil_r. auto. }
  pose proof (tool_loop_log user_id max_iterations response (log_request s))
    as (G1 & (reqs & G2 & G3) & G4).
  destruct (loop max_iterations user_id response (log_request s)) as [[response'|e] s'];
    simpl in *.
  - split; [exact G1|]. split; [|exact G4].
    exists (a_messages s :: reqs). split.
    + rewrite G2, <- app_assoc. reflexivity.
    + destruct (validate _ _ _); simpl.
      * eapply answered_cons; eauto.
      * left. eapply answered_cons; eauto.
  - split; [exact G1|]. split; [|exact G4].
    exists (a_messages s :: reqs). split.
    + rewrite G2, <- app_assoc. reflexivity.
    + destruct G3 as [G3|(init & q & -> & G3 & G3')].
      * left. eapply answered_cons; eauto.
      * right. exists (a_messages s :: init), q.
        repeat split; [eapply answered_cons; eauto | exact G3'].
Qed.

(** The first message list of a turn. *)
Definition turn_messages (user_message : string) (history : list message)
  : list message :=
  [text_message "system" system_prompt] ++ last_n 10 history
  ++ [text_message "user" user_message].

Lemma process_message_unfold (user_id user_message : string)
    (history : list message) (s : agent_state) :
  pm user_id user_message history s =
  match pwt user_id (begin_turn (turn_messages user_message history) s) with
  | (Ok response, s') =>
      ({| tr_message := response; tr_error := None; tr_error_code := None;
          tr_tool_calls_made := length (a_tool_calls_made s');
          tr_tools_used := map fst (a_tool_calls_made s') |}, s')
  | (Raise e, s') => (error_result repr_other e, s')
  end.
Proof. reflexivity. Qed.

(** C8, as the code has it.  The requests a call of [process_message]
    sends to the model are all answered, or all but the last one, which
    raised: nothing is sent after a request that failed, the failed
    request included (no retry).  In that case the value returned is
    the dict of the [except] clause of the exception's class: the text
    of the exception under ["error"], no tool calls, a user-facing
    message (fixed for an authentication error, another OpenAI error
    and an unknown exception; holding the status code for an API
    error), and an ["error_code"] (the status code, 401 or ["N/A"] when
    there is none) for authentication and API errors only. *)
Theorem model_error_is_reported (user_id user_message : string)
    (history : list message) (s : agent_state) :
  let out := pm user_id user_message history s in
  exists reqs,
    a_requests out.2 = a_requests s ++ reqs
    /\ (Forall (fun q => exists r, llm q = Ok r) reqs
        \/ exists init q e,
             reqs = init ++ [q]
             /\ Forall (fun q' => exists r, llm q' = Ok r) init
             /\ llm q = Raise e
             /\ out.1 =
                match e with
                | AuthenticationError msg status =>
                    {| tr_message := "I apologize, but there's an authentication issue with the API. Please check your API key configuration in the .env file.";
                       tr_error := Some msg;
                       tr_error_code :=
                         Some (VInt (match status with Some c => c | None => 401%Z end));
                       tr_tool_calls_made := 0; tr_tools_used := [] |}
                | APIError msg (Some c) =>
                    {| tr_message := "I encountered an API error (code " +:+ str_of_Z c
                                     +:+ "). Please try again later.";
                       tr_error := Some msg;
                       tr_error_code := Some (VInt c);
                       tr_tool_calls_made := 0; tr_tools_used := [] |}
                | APIError msg None =>
                    {| tr_message := "I encountered an API error (code N/A). Please try again later.";
                       tr_error := Some msg;
                       tr_error_code := Some (VStr "N/A");
                       tr_tool_calls_made := 0; tr_tools_used := [] |}
                | OpenAIError msg =>
                    {| tr_message := "I encountered an error with the AI service. Please try again.";
                       tr_error := Some msg;
                       tr_error_code := None;
                       tr_tool_calls_made := 0; tr_tools_used := [] |}
                | OtherException _ msg =>
                    {| tr_message := "I apologize, but I encountered an error. Let's try that again.";
                       tr_error := Some msg;
                       tr_error_code := None;
                       tr_tool_calls_made := 0; tr_tools_used := [] |}
                end).
Proof.
  intros out. subst out. rewrite process_message_unfold.
  pose proof (process_with_tools_log user_id
                (begin_turn (turn_messages user_message history) s))
    as (_ & (reqs & G2 & G3) & _).
  assert (Hans : forall l, answered l -> Forall (fun q => exists r, llm q = Ok r) l).
  { intros l Hl. eapply Forall_impl; [exact Hl|].
    intros q Hq. simpl in Hq. destruct (llm q) as [r|]; [eauto | discriminate]. }
  destruct (pwt user_id _) as [[response|e0] s']; simpl in *.
  - exists reqs. split; [exact G2|]. left. apply Hans. exact G3.
  - exists reqs. split; [exact G2|].
    destruct G3 as [G3|(init & q0 & -> & G3 & G3')].
    + left. apply Hans. exact G3.
    + right. exists init, q0, e0. split; [reflexivity|].
      split; [apply Hans; exact G3|]. split; [exact G3'|].
      destruct e0 as [msg [c|]|msg [c|]|msg|cls msg]; reflexivity.
Qed.

(** ** The injected identity, for the declared tools *)

Lemma inject_declared (user_id function_name : string) (arguments : pyval)
    (kwargs : pydict) :
  "user_id" ∈ get_function_params tools function_name ->
  inject user_id function_name arguments = Ok (VDict kwargs) ->
  dict_lookup kwargs "user_id" = Some (VStr user_id).
Proof.
  intros Hd. unfold inject_user_id. rewrite bool_decide_eq_true_2 by exact Hd.
  destruct arguments as [| | | | t |l|d]; simpl; try discriminate.
  - destruct (contains "user_id" t); simpl; discriminate.
  - destruct (existsb _ l); simpl; discriminate.
  - unfold dict_has, dict_get.
    destruct (dict_lookup d "user_id") as [v|] eqn:E; simpl.
    + destruct (eq_str v user_id) eqn:Ev; simpl.
      * intros [= <-]. destruct v; simpl in Ev; try discriminate.
        apply String.eqb_eq in Ev. congruence.
      * intros [= <-]. rewrite dict_lookup_set. reflexivity.
    + intros [= <-]. rewrite dict_lookup_set. reflexivity.
Qed.

(** Every tool function run during a turn whose entry of [self.tools]
    declares a ["user_id"] property received the caller's [user_id]. *)
Theorem declared_tools_receive_caller_id (user_id user_message : string)
    (history : list message) (s : agent_state) :
  exists new,
    a_executed (pm user_id user_message history s).2 = a_executed s ++ new
    /\ Forall (fun entry : string * pydict =>
                 "user_id" ∈ get_function_params tools entry.1 ->
                 dict_lookup entry.2 "user_id" = Some (VStr user_id)) new.
Proof.
  rewrite process_message_unfold.
  pose proof (process_with_tools_log user_id
                (begin_turn (turn_messages user_message history) s))
    as (_ & _ & new & G1 & G2).
  exists new. split.
  - destruct (pwt user_id _) as [[response|e0] s']; exact G1.
  - eapply Forall_impl; [exact G2|].
    intros [n kw] (arguments & Hi) Hd. simpl in *.
    eapply inject_declared; eauto.
Qed.

(** ** The iteration ceiling *)

(** The arguments of the call are a JSON object, or no JSON at all (the
    loop then takes an empty dict). *)
Definition well_formed_call (tc : tool_call) : Prop :=
  exists d, parsed_arguments tc = VDict d.

(** The response asks for tool calls, all of them well formed. *)
Definition requests_tools (r : llm_response) : Prop :=
  finish_reason r = "tool_calls"
  /\ exists calls, resp_tool_calls r = Some calls /\ Forall well_formed_call calls.

(** The model answers every request by asking for tool calls. *)
Definition always_requests_tools : Prop :=
  forall msgs, exists r, llm msgs = Ok r /\ requests_tools r.

Lemma inject_dict (user_id function_name : string) (d : pydict) :
  exists d', inject user_id function_name (VDict d) = Ok (VDict d').
Proof.
  unfold inject_user_id. destruct (bool_decide _); [|eauto]. simpl.
  destruct (dict_has d "user_id"); simpl; [|eauto].
  destruct (eq_str _ _); simpl; eauto.
Qed.

Lemma process_tool_call_ok (user_id : string) (tc : tool_call) (s : agent_state) :
  well_formed_call tc -> (ptc user_id tc s).1 = Ok tt.
Proof.
  intros [d Hd]. rewrite process_tool_call_unfold, Hd.
  destruct (inject_dict user_id (tc_name tc) d) as [d' ->]. reflexivity.
Qed.

Lemma for_each_ok (user_id : string) (calls : list tool_call) (s : agent_state) :
  Forall well_formed_call calls -> (for_each calls (ptc user_id) s).1 = Ok tt.
Proof.
  intros H. revert s. induction H as [|tc calls Htc _ IH]; intros s; [reflexivity|].
  rewrite for_each_cons.
  pose proof (process_tool_call_ok user_id tc s Htc) as Hok.
  destruct (ptc user_id tc s) as [[[]|e] s1]; simpl in Hok; [apply IH | discriminate].
Qed.

Lemma loop_runs_to_ceiling (user_id : string) :
  always_requests_tools ->
  forall (fuel : nat) (response : llm_response) (s : agent_state),
    requests_tools response ->
    let out := loop fuel user_id response s in
    exists response',
      out.1 = Ok response'
      /\ requests_tools response'
      /\ a_iterations out.2 = a_iterations s + fuel
      /\ length (a_requests out.2) = length (a_requests s) + fuel.
Proof.
  intros Hall. induction fuel as [|fuel IH]; intros response s Hr.
  - exists response. simpl. repeat split; try apply Hr; lia.
  - rewrite tool_loop_step.
    destruct Hr as (Hf & calls & Hc & Hwf). rewrite Hf, Hc. simpl String.eqb. cbv iota.
    pose proof (for_each_ok user_id calls
                  (append_message (assistant_message response calls)
                     (next_iteration s)) Hwf) as Hok.
    pose proof (for_each_log user_id calls
                  (append_message (assistant_message response calls)
                     (next_iteration s))) as (H1 & H2 & _).
    destruct (for_each calls _ _) as [[[]|e] s2]; simpl in Hok, H1, H2; [|discriminate].
    destruct (Hall (a_messages s2)) as (response' & -> & Hr').
    destruct (IH response' (log_request s2) Hr') as (r & G1 & G2 & G3 & G4).
    exists r. repeat split; try assumption; try apply G2.
    + rewrite G3. simpl. rewrite H2. simpl. lia.
    + rewrite G4. simpl. rewrite length_app, H1. simpl. lia.
Qed.

Lemma validate_plain (text : string) (tcm : list (string * pyval))
    (messages : list message) :
  claimed_error text = false -> validate (Some text) tcm messages = Ok text.
Proof. intros H. unfold validate_response_against_tools. rewrite H. reflexivity. Qed.

(** Reaching the ceiling raises nothing of its own.  When the model
    answers every request by asking for (well-formed) tool calls, the
    loop runs exactly [max_iterations] = 5 rounds: the turn sends six
    requests in all, and the last response, still a tool-call request,
    goes to the post-processor as any final response does;
    [_process_with_tools] returns the text of that last response when
    it has one free of no-data phrases. *)
Lemma ceiling_is_reached_quietly (user_id : string) (s : agent_state) :
  always_requests_tools ->
  exists response,
    requests_tools response
    /\ (pwt user_id s).1
       = validate (resp_content response) (a_tool_calls_made (pwt user_id s).2)
           (a_messages (pwt user_id s).2)
    /\ a_iterations (pwt user_id s).2 = a_iterations s + max_iterations
    /\ length (a_requests (pwt user_id s).2) = length (a_requests s) + S max_iterations
    /\ (forall text, resp_content response = Some text ->
                     claimed_error text = false ->
                     (pwt user_id s).1 = Ok text).
Proof.
  intros Hall. rewrite process_with_tools_unfold.
  destruct (Hall (a_messages s)) as (response0 & -> & Hr0).
  destruct (loop_runs_to_ceiling user_id Hall max_iterations response0
              (log_request s) Hr0) as (response & G1 & G2 & G3 & G4).
  exists response.
  destruct (loop max_iterations user_id response0 (log_request s)) as [[r|e] s'];
    simpl in G1; [|discriminate].
  injection G1 as ->. simpl in *.
  split; [exact G2|]. split; [reflexivity|]. split; [exact G3|].
  split; [rewrite G4, length_app; simpl; lia|].
  intros text Ht Hc. rewrite Ht. apply validate_plain. exact Hc.
Qed.

(** The response the loop ends with is the one it started with or one
    the model gave during the loop. *)
Lemma loop_response_from_model (user_id : string) (fuel : nat) :
  forall (response r : llm_response) (s : agent_state),
    (loop fuel user_id response s).1 = Ok r ->
    r = response \/ exists msgs, llm msgs = Ok r.
Proof.
  induction fuel as [|fuel IH]; intros response r s.
  - simpl. intros [= <-]. left. reflexivity.
  - rewrite tool_loop_step.
    destruct (String.eqb _ _); [|simpl; intros [= <-]; left; reflexivity].
    destruct (resp_tool_calls response) as [calls|]; [|discriminate].
    destruct (for_each calls _ _) as [[[]|e] s2]; [|discriminate].
    destruct (llm (a_messages s2)) as [response'|e] eqn:Hq; [|discriminate].
    intros H. apply IH in H as [->|H]; right; eauto.
Qed.

(** C2.  The loop stops at the ceiling, but the turn then raises.  When
    the model answers every request by asking for (well-formed) tool
    calls in responses whose content is null, as the responses that ask
    for tool calls are, the loop runs exactly [max_iterations] = 5
    rounds and the turn sends six requests; the content of the last
    response, [None], is then handed to
    [_validate_response_against_tools], whose [response.lower()] raises
    [AttributeError]: [_process_with_tools] does not return, and
    [process_message] answers with its generic error. *)
Theorem ceiling_raises_on_null_content (user_id user_message : string)
    (history : list message) (s : agent_state) :
  always_requests_tools ->
  (forall msgs r, llm msgs = Ok r -> resp_content r = None) ->
  let turn := pwt user_id (begin_turn (turn_messages user_message history) s) in
  turn.1 = Raise (OtherException "AttributeError"
                    "'NoneType' object has no attribute 'lower'")
  /\ a_iterations turn.2 = max_iterations
  /\ length (a_requests turn.2) = length (a_requests s) + S max_iterations
  /\ (pm user_id user_message history s).1
     = {| tr_message := "I apologize, but I encountered an error. Let's try that again.";
          tr_error := Some "'NoneType' object has no attribute 'lower'";
          tr_error_code := None; tr_tool_calls_made := 0; tr_tools_used := [] |}.
Proof.
  intros Hall Hnull turn.
  assert (Hturn : turn.1 = Raise (OtherException "AttributeError"
                                    "'NoneType' object has no attribute 'lower'")
                  /\ a_iterations turn.2 = max_iterations
                  /\ length (a_requests turn.2)
                     = length (a_requests s) + S max_iterations).
  { subst turn. set (s0 := begin_turn (turn_messages user_message history) s).
    rewrite process_with_tools_unfold.
    destruct (Hall (a_messages s0)) as (response0 & Hq0 & Hr0). rewrite Hq0.
    destruct (loop_runs_to_ceiling user_id Hall max_iterations response0
                (log_request s0) Hr0) as (response & G1 & G2 & G3 & G4).
    pose proof (loop_response_from_model user_id max_iterations response0 response
                  (log_request s0)) as Hfrom.
    destruct (loop max_iterations user_id response0 (log_request s0)) as [[r|e] s'];
      simpl in G1; [|discriminate].
    injection G1 as ->. simpl in *.
    assert (Hc : resp_content response = None).
    { destruct (Hfrom eq_refl) as [->|(msgs & Hm)]; eapply Hnull; eauto. }
    rewrite Hc. split; [reflexivity|]. split; [rewrite G3; reflexivity|].
    rewrite G4, length_app. simpl. lia. }
  destruct Hturn as (H1 & H2 & H3). repeat split; try assumption.
  rewrite process_message_unfold. fold turn.
  destruct turn as [[response|e] s']; simpl in H1; [discriminate|].
  injection H1 as ->. reflexivity.
Qed.

(** ** The post-processor *)

Lemma last_success_snoc (tool_name field : string) (messages : list message)
    (m : message) :
  last_success json_loads tool_name field (messages ++ [m]) =
  match success_payload json_loads tool_name field m with
  | Some d => Some d
  | None => last_success json_loads tool_name field messages
  end.
Proof. unfold last_success. rewrite fold_left_app. reflexivity. Qed.

















End AgentFacts.

(** ** Concrete turns *)

Import UserProfileFacts.

(** A serializer, a text for containers and a clock that the examples do
    not depend on, and a body for the tool functions left abstract. *)
Definition dumps0 (v : pyval) : string := "{}".
Definition repr0 (v : pyval) : string := "<value>".
Definition days0 (d : string) : option Z := None.
Definition body0 (function_name : string) : tool := fun kwargs st => (Ok (VDict []), st).

(** [str.title] on ASCII letters. *)
Definition is_upper (c : ascii) : bool :=
  (65 <=? nat_of_ascii c)%nat && (nat_of_ascii c <=? 90)%nat.
Definition is_lower (c : ascii) : bool :=
  (97 <=? nat_of_ascii c)%nat && (nat_of_ascii c <=? 122)%nat.
Definition upper_char (c : ascii) : ascii :=
  if is_lower c then ascii_of_nat (nat_of_ascii c - 32) else c.

Fixpoint title_from (previous_is_cased : bool) (s : string) : string :=
  match s with
  | EmptyString => EmptyString
  | String c s' =>
      String (if previous_is_cased then lower_char c else upper_char c)
             (title_from (is_upper c || is_lower c) s')
  end.

Definition ascii_title (s : string) : string := title_from false s.

(** The agent as [__init__] builds it, over the store with two users. *)
Definition the_tool_map : gmap string tool := create_tool_map days0 body0.

Definition fresh_state : agent_state :=
  {| a_store := two_users; a_messages := []; a_tool_calls_made := [];
     a_iterations := 0; a_requests := []; a_executed := []; a_agent_calls := 0 |}.

(** *** C1: a call of a function that is mapped but not declared *)

(** The arguments the model sends, standing for the JSON object with a
    ["user_id"] of ["victim"] and ["updates"] holding a new name. *)
Definition hostile_arguments : pydict :=
  [ ("user_id", VStr "victim"); ("updates", VDict [("name", VStr "Mallory")]) ].

Definition loads_hostile (text : string) : option pyval :=
  if String.eqb text "{user_id: victim, updates: {name: Mallory}}"
  then Some (VDict hostile_arguments) else None.

(** The model first asks for [update_user_profile], a function of
    [tool_map] that [self.tools] does not declare, then answers. *)
Definition hostile_model (messages : list message) : result llm_response :=
  if (length messages <=? 2)%nat then
    Ok {| finish_reason := "tool_calls"; resp_content := None;
          resp_tool_calls :=
            Some [ {| tc_id := "call_1"; tc_name := "update_user_profile";
                      tc_arguments := "{user_id: victim, updates: {name: Mallory}}" |} ] |}
  else
    Ok {| finish_reason := "stop"; resp_content := Some "Your profile is updated.";
          resp_tool_calls := None |}.

Definition hostile_turn : turn_result * agent_state :=
  process_message "You are a coach." loads_hostile dumps0 repr0 ascii_title
    hostile_model define_tools the_tool_map "mock-user" "hello" [] fresh_state.

(** C1 fails on this turn.  [update_user_profile] takes a [user_id]; the
    caller is ["mock-user"]; yet the function runs with the ["user_id"]
    the model supplied, and it is the profile of ["victim"] that gets
    rewritten.  The injection looks the function up in [self.tools],
    where it is absent, and so skips it. *)
Theorem undeclared_tool_keeps_model_user_id :
  takes_user_id "update_user_profile" = true
  /\ get_function_params define_tools "update_user_profile" = []
  /\ a_executed hostile_turn.2 = [("update_user_profile", hostile_arguments)]
  /\ dict_lookup hostile_arguments "user_id" = Some (VStr "victim")
  /\ users (a_store hostile_turn.2) !! "victim"
     = Some [ ("user_id", VStr "victim"); ("email", VStr "alex@example.com");
              ("name", VStr "Mallory"); ("test_type", VStr "SAT") ]
  /\ users (a_store hostile_turn.2) !! "mock-user" = Some suzy
  /\ hostile_turn.1
     = {| tr_message := "Your profile is updated."; tr_error := None;
          tr_error_code := None; tr_tool_calls_made := 1;
          tr_tools_used := ["update_user_profile"] |}.
Proof. repeat split; vm_compute; reflexivity. Qed.

(** *** C2: the ceiling *)

Definition loads_nothing (text : string) : option pyval := None.

Definition profile_call : tool_call :=
  {| tc_id := "call_1"; tc_name := "get_user_profile"; tc_arguments := "{}" |}.

(** A model that asks for a tool call on every request; [text] is the
    content of its responses. *)
Definition insistent_model (text : option string) (messages : list message)
  : result llm_response :=
  Ok {| finish_reason := "tool_calls"; resp_content := text;
        resp_tool_calls := Some [profile_call] |}.

Definition first_messages : list message :=
  [text_message "system" "You are a coach."; text_message "user" "hello"].

(** The insistent model with null contents: the loop stops after five
    rounds and six requests, and [_process_with_tools] then raises, from
    [response.lower()]; [process_message] reports its generic error. *)
Lemma ceiling_with_null_content_raises :
  let out :=
    process_with_tools loads_nothing dumps0 repr0 ascii_title (insistent_model None)
      define_tools the_tool_map "mock-user" (begin_turn first_messages fresh_state) in
  out.1 = Raise (AttributeError "'NoneType' object has no attribute 'lower'")
  /\ a_iterations out.2 = 5
  /\ length (a_requests out.2) = 6
  /\ (process_message "You are a coach." loads_nothing dumps0 repr0 ascii_title
        (insistent_model None) define_tools the_tool_map "mock-user" "hello" []
        fresh_state).1
     = {| tr_message := "I apologize, but I encountered an error. Let's try that again.";
          tr_error := Some "'NoneType' object has no attribute 'lower'";
          tr_error_code := None; tr_tool_calls_made := 0; tr_tools_used := [] |}.
Proof. repeat split; vm_compute; reflexivity. Qed.

Lemma insistent_model_always (text : option string) :
  always_requests_tools loads_nothing (insistent_model text).
Proof.
  intros msgs. eexists. split; [reflexivity|].
  split; [reflexivity|]. eexists. split; [reflexivity|].
  constructor; [|constructor]. exists []. reflexivity.
Qed.

Lemma ceiling_is_reached_quietly_witness :
  always_requests_tools loads_nothing (insistent_model (Some "One moment."))
  /\ exists response,
       a_iterations
         (process_with_tools loads_nothing dumps0 repr0 ascii_title
            (insistent_model (Some "One moment.")) define_tools the_tool_map
            "mock-user" (begin_turn first_messages fresh_state)).2 = 5
       /\ resp_content response = Some "One moment.".
Proof.
  split; [apply insistent_model_always|].
  destruct (ceiling_is_reached_quietly loads_nothing dumps0 repr0 ascii_title
              (insistent_model (Some "One moment.")) define_tools the_tool_map
              "mock-user" (begin_turn first_messages fresh_state)
              (insistent_model_always (Some "One moment.")))
    as (response & _ & _ & Hi & _).
  exists {| finish_reason := "tool_calls"; resp_content := Some "One moment.";
            resp_tool_calls := Some [profile_call] |}.
  split; [exact Hi | reflexivity].
Defined.

Lemma ceiling_raises_on_null_content_witness :
  (process_message "You are a coach." loads_nothing dumps0 repr0 ascii_title
     (insistent_model None) define_tools the_tool_map "mock-user" "hello" []
     fresh_state).1
  = {| tr_message := "I apologize, but I encountered an error. Let's try that again.";
       tr_error := Some "'NoneType' object has no attribute 'lower'";
       tr_error_code := None; tr_tool_calls_made := 0; tr_tools_used := [] |}.
Proof.
  destruct (ceiling_raises_on_null_content "You are a coach." loads_nothing dumps0
              repr0 ascii_title (insistent_model None) define_tools the_tool_map
              "mock-user" "hello" [] fresh_state)
    as (_ & _ & _ & H).
  - apply insistent_model_always.
  - intros msgs r [= <-]. reflexivity.
  - exact H.
Defined.

(** *** C3: the post-processor *)

(** The payload of [get_latest_test_results] for the seeded test. *)
Definition seeded_test_payload : pydict :=
  [ ("success", VBool true); ("test_id", VStr "t-1"); ("test_type", VStr "SAT");
    ("total_score", VInt 800);
    ("sections",
     VDict [ ("reading", VDict [("score", VInt 240); ("percentile", VInt 85)]);
             ("writing", VDict [("score", VInt 220); ("percentile", VInt 74)]);
             ("algebra", VDict [("score", VInt 100); ("percentile", VInt 25)]) ]);
    ("message", VStr "Test results found successfully") ].

(** The payload of [generate_adaptive_quiz] when the model asked for the
    topic ["hiccup"]. *)
Definition hiccup_quiz_payload : pydict :=
  [ ("success", VBool true); ("quiz_id", VStr "q-1"); ("total_questions", VInt 5);
    ("section", VStr "mixed"); ("focus_areas", VList [VStr "hiccup"]) ].

Definition loads_payloads (text : string) : option pyval :=
  if String.eqb text "TEST" then Some (VDict seeded_test_payload)
  else if String.eqb text "QUIZ" then Some (VDict hiccup_quiz_payload)
  else None.

Definition tool_result (function_name text : string) : message :=
  {| role := "tool"; content := Some text; msg_tool_calls := None;
     tool_call_id := Some "call_1"; name := Some function_name |}.


(** With the seeded test payload alone, the replacement is the sentence
    of the test results, and it spells no such phrase. *)
Example seeded_test_summary :
  exists text,
    validate_response_against_tools loads_payloads repr0 ascii_title
      (Some "It looks like you haven't taken a practice test yet.") []
      [tool_result "get_latest_test_results" "TEST"] = Ok text
    /\ startswith "I found your latest test results! You scored 800 total. Here's your breakdown:" text = true
    /\ contains "Reading: 240 points (85th percentile)" text = true
    /\ claimed_error text = false.
Proof. eexists. split; [vm_compute; reflexivity|]. repeat split; vm_compute; reflexivity. Qed.


(** *** C7: a tool that raises *)

Definition exploding_tool : tool := fun kwargs st => (Raise (ValueError "boom"), st).

Definition exploding_map : gmap string tool := <["explode" := exploding_tool]> ∅.

Definition explode_call : tool_call :=
  {| tc_id := "call_9"; tc_name := "explode"; tc_arguments := "{}" |}.

Lemma tool_exception_is_fed_back_witness :
  exists s',
    process_tool_call loads_nothing dumps0 define_tools exploding_map "mock-user"
      explode_call fresh_state = (Ok tt, s')
    /\ a_messages s'
       = [ {| role := "tool";
              content := Some (dumps0 (VDict [("error", VStr "boom")]));
              msg_tool_calls := None;
              tool_call_id := Some "call_9";
              name := Some "explode" |} ].
Proof.
  destruct (tool_exception_is_fed_back loads_nothing dumps0 define_tools exploding_map
              "mock-user" explode_call [] exploding_tool (ValueError "boom")
              two_users fresh_state)
    as (_ & s' & H1 & H2 & _); [reflexivity | reflexivity | reflexivity |].
  exists s'. split; [exact H1 | exact H2].
Defined.

(** *** C8: a model service that fails *)

Definition failing_model (e : exn) (messages : list message) : result llm_response :=
  Raise e.

(** C8 as stated fails: an OpenAI error that is not an API error, and
    likewise any other exception, is answered without an error code. *)
Lemma openai_error_has_no_error_code :
  let out :=
    process_message "You are a coach." loads_nothing dumps0 repr0 ascii_title
      (failing_model (OpenAIError "Connection error.")) define_tools the_tool_map
      "mock-user" "hello" [] fresh_state in
  out.1 = {| tr_message := "I encountered an error with the AI service. Please try again.";
             tr_error := Some "Connection error.";
             tr_error_code := None; tr_tool_calls_made := 0; tr_tools_used := [] |}
  /\ tr_error_code out.1 = None
  /\ length (a_requests out.2) = 1.
Proof. repeat split; vm_compute; reflexivity. Qed.

End LlmClientFacts.

(** ** agents/orchestrator.py *)

Module OrchestratorFacts.
Import LlmClient Orchestrator.

Section SessionStart.
Set Default Proof Using "Type".

Variable system_prompt : string.
Variable json_loads : string -> option pyval.
Variable json_dumps : pyval -> string.
Variable repr_other : pyval -> string.
Variable str_title : string -> string.
Variable llm : list message -> result llm_response.
Variable tools : list tool_spec.
Variable tool_map : gmap string tool.
Variable debug : bool.
Variable fresh_session_id : string.
Variable now : string.
Variable days_until : string -> option Z.
Variable get_progress_summary : store -> string -> result pydict.
Variable create_welcome_message : store -> pydict -> pydict -> result string.
Variable create_welcome_ui_elements : store -> pydict -> pydict -> result pyval.
Variable identify_follow_ups : turn_result -> result (list string).
Variable create_structured_response :
  store -> string -> list string -> string -> result pyval.
Variable add_contextual_quick_replies :
  string -> pyval -> string -> list string -> list message -> result pyval.

Local Abbreviation handle :=
  (handle_message system_prompt json_loads json_dumps repr_other str_title llm tools
     tool_map debug fresh_session_id now days_until get_progress_summary
     create_welcome_message create_welcome_ui_elements identify_follow_ups
     create_structured_response add_contextual_quick_replies).

Local Abbreviation session_start :=
  (handle_session_start system_prompt json_loads json_dumps repr_other str_title llm
     tools tool_map now days_until get_progress_summary create_welcome_message
     create_welcome_ui_elements create_structured_response).

(** The welcome of a session: the message stored and the dict returned. *)
Definition welcome_saved (welcome_message : string) (st : store) : store :=
  add_conversation_message st fresh_session_id
    {| cm_message_type := "assistant"; cm_content := welcome_message;
       cm_tool_calls := None; cm_timestamp := now |}.

Definition welcome_response (welcome_message : string) (ui_elements : pyval)
  : chat_response :=
  {| cr_session_id := fresh_session_id;
     cr_response := welcome_message;
     cr_error := None;
     cr_follow_ups := ["What would you like to work on today?"];
     cr_tools_used := ["get_user_profile"; "get_progress_summary"];
     cr_ui_elements := Some ui_elements;
     cr_timestamp := now;
     cr_tool_calls_made := Some 2;
     cr_is_welcome := true;
     cr_error_flag := false |}.

Lemma profile_of_user_has_no_error (st : store) (user_id : string) (user : pydict) :
  users st !! user_id = Some user -> user <> [] ->
  truthy (dict_get (UserProfile.get_user_profile days_until st user_id) "error") = false.
Proof.
  intros Hu Hne. unfold UserProfile.get_user_profile, get_user. rewrite Hu.
  destruct user as [|kv user]; [contradiction|]. reflexivity.
Qed.

(** The welcome path of [_handle_session_start], step by step. *)
Lemma session_start_known_user (user_id session_id user_message : string)
    (user : pydict) (s : agent_state) :
  users (a_store s) !! user_id = Some user -> user <> [] ->
  let profile := UserProfile.get_user_profile days_until (a_store s) user_id in
  session_start user_id session_id user_message s =
  match get_progress_summary (a_store s) user_id with
  | Raise e => (Raise e, s)
  | Ok progress =>
      match create_welcome_message (a_store s) profile progress with
      | Raise e => (Raise e, s)
      | Ok welcome_message =>
          let s1 :=
            with_store s
              (add_conversation_message (a_store s) session_id
                 {| cm_message_type := "assistant"; cm_content := welcome_message;
                    cm_tool_calls := None; cm_timestamp := now |}) in
          match create_welcome_ui_elements (a_store s1) profile progress with
          | Raise e => (Raise e, s1)
          | Ok ui_elements =>
              (Ok {| cr_session_id := session_id;
                     cr_response := welcome_message;
                     cr_error := None;
                     cr_follow_ups := ["What would you like to work on today?"];
                     cr_tools_used := ["get_user_profile"; "get_progress_summary"];
                     cr_ui_elements := Some ui_elements;
                     cr_timestamp := now;
                     cr_tool_calls_made := Some 2;
                     cr_is_welcome := true;
                     cr_error_flag := false |}, s1)
          end
      end
  end.
Proof.
  intros Hu Hne profile.
  unfold handle_session_start. unfold bind at 1. unfold reading at 1.
  pose proof (profile_of_user_has_no_error _ _ _ Hu Hne) as Hp.
  fold profile in Hp |- *. rewrite Hp.
  unfold bind at 1. unfold reading at 1.
  destruct (get_progress_summary (a_store s) user_id) as [progress|e]; [|reflexivity].
  unfold bind at 1. unfold reading at 1.
  destruct (create_welcome_message (a_store s) profile progress) as [w|e]; [|reflexivity].
  unfold bind at 1. unfold save_message at 1. unfold modify at 1.
  unfold bind at 1. unfold reading at 1.
  destruct (create_welcome_ui_elements _ profile progress) as [ui|e]; reflexivity.
Qed.

Lemma handle_message_new_session (user_id user_message : string) (s : agent_state) :
  get_formatted_history (a_store s) fresh_session_id = [] ->
  handle user_id user_message None s =
  match session_start user_id fresh_session_id user_message s with
  | (Ok r, s') => (r, s')
  | (Raise e, s') =>
      ({| cr_session_id := fresh_session_id;
          cr_response := "I apologize, but I encountered an issue. Could you please rephrase your question?";
          cr_error := Some (if debug then exn_str e else "An error occurred");
          cr_follow_ups := [];
          cr_tools_used := [];
          cr_ui_elements := None;
          cr_timestamp := now;
          cr_tool_calls_made := None;
          cr_is_welcome := false;
          cr_error_flag := true |},
       with_store s'
         (add_conversation_message (a_store s') fresh_session_id
            {| cm_message_type := "system"; cm_content := "Error: " +:+ exn_str e;
               cm_tool_calls := None; cm_timestamp := now |}))
  end.
Proof.
  intros Hh. unfold handle_message, handle_message_body.
  unfold bind at 1. unfold reading at 1. rewrite Hh.
  rewrite !bool_decide_eq_true_2 by reflexivity. cbn [andb].
  destruct (handle_session_start _ _ _ _ _ _ _ _ _ _ _ _ _ _ _ _ _ s) as [[r|e] s'];
    reflexivity.
Qed.

(** C6, as the code has it.  For a call with [session_id = None], the
    new session having no history and the user having a profile, the
    model's path is not entered: [process_message] is not called and no
    request is sent, whatever else happens.  When the progress summary
    and the two builders of the welcome screen return, the response is
    the welcome: their message and UI elements, marked [is_welcome]. *)
Theorem new_session_is_welcomed (user_id user_message : string) (user : pydict)
    (s : agent_state) :
  users (a_store s) !! user_id = Some user -> user <> [] ->
  get_formatted_history (a_store s) fresh_session_id = [] ->
  let profile := UserProfile.get_user_profile days_until (a_store s) user_id in
  a_agent_calls (handle user_id user_message None s).2 = a_agent_calls s
  /\ a_requests (handle user_id user_message None s).2 = a_requests s
  /\ a_executed (handle user_id user_message None s).2 = a_executed s
  /\ forall progress welcome_message ui_elements,
       get_progress_summary (a_store s) user_id = Ok progress ->
       create_welcome_message (a_store s) profile progress = Ok welcome_message ->
       create_welcome_ui_elements (welcome_saved welcome_message (a_store s))
         profile progress = Ok ui_elements ->
       handle user_id user_message None s
       = (welcome_response welcome_message ui_elements,
          with_store s (welcome_saved welcome_message (a_store s))).
Proof.
  intros Hu Hne Hh profile.
  rewrite (handle_message_new_session _ _ _ Hh).
  rewrite (session_start_known_user _ _ _ _ _ Hu Hne). fold profile.
  split; [|split; [|split]].
  1-3: destruct (get_progress_summary (a_store s) user_id) as [progress|e1];
       [destruct (create_welcome_message (a_store s) profile progress) as [w|e2];
        [cbv zeta; destruct (create_welcome_ui_elements _ profile progress)|]|];
       reflexivity.
  intros progress welcome_message ui_elements Hp Hw Hui.
  rewrite Hp, Hw. cbv zeta. unfold welcome_saved in Hui.
  cbn [a_store with_store]. rewrite Hui. reflexivity.
Qed.

End SessionStart.

(** *** A new session of an unknown user *)

Import LlmClientFacts UserProfileFacts.

(** A model that answers at once. *)
Definition plain_model (messages : list message) : result llm_response :=
  Ok {| finish_reason := "stop"; resp_content := Some "Hello! How can I help?";
        resp_tool_calls := None |}.

(** Stand-ins for the functions left abstract. *)
Definition progress0 (st : store) (user_id : string) : result pydict :=
  Ok [("total_questions", VInt 0)].
Definition welcome0 (st : store) (profile progress : pydict) : result string :=
  Ok ("Hey " +:+ QuizManagement.py_str repr0 (dict_get profile "name") +:+ "!").
Definition welcome_ui0 (st : store) (profile progress : pydict) : result pyval :=
  Ok (VDict [("cards", VList []); ("quick_replies", VList []); ("charts", VList [])]).
Definition follow_ups0 (r : turn_result) : result (list string) := Ok [].
Definition structured0 (st : store) (text : string) (tools_used : list string)
    (user_id : string) : result pyval := Ok (VDict []).
Definition quick_replies0 (text : string) (ui : pyval) (user_message : string)
    (tools_used : list string) (history : list message) : result pyval := Ok ui.

Definition handle0 (user_id user_message : string) (session_id : option string)
    (s : agent_state) : chat_response * agent_state :=
  handle_message "You are a coach." loads_nothing dumps0 repr0 ascii_title plain_model
    define_tools the_tool_map true "session-1" "2025-01-01T00:00:00" days0
    progress0 welcome0 welcome_ui0 follow_ups0 structured0 quick_replies0
    user_id user_message session_id s.

(** C6 as stated fails: for a user without a profile the first message
    of a new session goes to [process_message], and the model's answer,
    not a welcome, is returned. *)
Lemma unknown_user_reaches_the_model :
  users (a_store fresh_state) !! "ghost" = None
  /\ a_agent_calls (handle0 "ghost" "hi" None fresh_state).2 = 1
  /\ length (a_requests (handle0 "ghost" "hi" None fresh_state).2) = 1
  /\ cr_response (handle0 "ghost" "hi" None fresh_state).1 = "Hello! How can I help?"
  /\ cr_is_welcome (handle0 "ghost" "hi" None fresh_state).1 = false.
Proof. repeat split; vm_compute; reflexivity. Qed.

Lemma new_session_is_welcomed_witness :
  a_agent_calls (handle0 "mock-user" "hi" None fresh_state).2 = 0
  /\ cr_response (handle0 "mock-user" "hi" None fresh_state).1 = "Hey Suzy!"
  /\ cr_is_welcome (handle0 "mock-user" "hi" None fresh_state).1 = true.
Proof.
  destruct (new_session_is_welcomed "You are a coach." loads_nothing dumps0 repr0
              ascii_title plain_model define_tools the_tool_map true "session-1"
              "2025-01-01T00:00:00" days0 progress0 welcome0 welcome_ui0 follow_ups0
              structured0 quick_replies0 "mock-user" "hi" suzy fresh_state)
    as (H1 & _ & _ & H4); [reflexivity | discriminate | reflexivity |].
  split; [exact H1|].
  unfold handle0.
  rewrite (H4 [("total_questions", VInt 0)] "Hey Suzy!"
             (VDict [("cards", VList []); ("quick_replies", VList []);
                     ("charts", VList [])]) eq_refl eq_refl eq_refl).
  split; reflexivity.
Defined.

End OrchestratorFacts.

(** ** Binary64 arithmetic *)

Module Float64Facts.
Local Open Scope Z_scope.

(** The literals of the source are the binary64 numbers Rocq's own
    parser reads them as. *)
Example literals_are_binary64 :
  Prim2SF 0.3%float = f0_3 /\ Prim2SF 0.5%float = f0_5 /\ Prim2SF 0.7%float = f0_7.
Proof. repeat split; vm_compute; reflexivity. Qed.

(** The rounded quotient and [round2] agree with the primitive floats on
    a few values. *)
Example float_of_ratio_samples :
  float_of_ratio 1 3 = Prim2SF (1 / 3)%float
  /\ float_of_ratio 2 3 = Prim2SF (2 / 3)%float
  /\ round2 (fmul (float_of_ratio 1 3) (Z2SF 100)) = Prim2SF 33.33%float
  /\ round2 (fmul (float_of_ratio 2 3) (Z2SF 100)) = Prim2SF 66.67%float
  /\ round2 (Prim2SF 3.125%float) = Prim2SF 3.12%float
  /\ round2 (Prim2SF 0.005%float) = Prim2SF 0.01%float.
Proof. repeat split; vm_compute; reflexivity. Qed.

Lemma digits2_pos_bounds (p : positive) :
  2 ^ (Zpos (digits2_pos p) - 1) <= Zpos p < 2 ^ Zpos (digits2_pos p).
Proof.
  induction p as [p IH|p IH|]; simpl digits2_pos.
  - rewrite Pos2Z.inj_succ.
    replace (Z.succ (Zpos (digits2_pos p)) - 1) with (Z.succ (Zpos (digits2_pos p) - 1)) by lia.
    rewrite !Z.pow_succ_r by lia. lia.
  - rewrite Pos2Z.inj_succ.
    replace (Z.succ (Zpos (digits2_pos p)) - 1) with (Z.succ (Zpos (digits2_pos p) - 1)) by lia.
    rewrite !Z.pow_succ_r by lia. lia.
  - simpl. lia.
Qed.

Lemma Zdigits2_nonneg (m : Z) : 0 <= Zdigits2 m.
Proof. destruct m; simpl; lia. Qed.

Lemma Zdigits2_upper (m k : Z) : 0 <= m < 2 ^ k -> 0 <= k -> Zdigits2 m <= k.
Proof.
  intros [H0 H1] Hk. destruct m as [|p|p]; simpl; [lia| |lia].
  pose proof (digits2_pos_bounds p) as [Hl _].
  destruct (Z_le_gt_dec (Zpos (digits2_pos p)) k) as [|Hgt]; [assumption|].
  assert (2 ^ k <= 2 ^ (Zpos (digits2_pos p) - 1)) by (apply Z.pow_le_mono_r; lia).
  lia.
Qed.

Lemma Zdigits2_lower (p : positive) (k : Z) : 2 ^ k <= Zpos p -> 0 <= k -> k + 1 <= Zpos (digits2_pos p).
Proof.
  intros H Hk. pose proof (digits2_pos_bounds p) as [_ Hu].
  destruct (Z_le_gt_dec (k + 1) (Zpos (digits2_pos p))) as [|Hgt]; [assumption|].
  assert (2 ^ Zpos (digits2_pos p) <= 2 ^ k) by (apply Z.pow_le_mono_r; lia).
  lia.
Qed.

(** shr_1 halves a non-negative mantissa. *)
Lemma shr_1_m (mrs : shr_record) :
  0 <= shr_m mrs -> shr_m (shr_1 mrs) = shr_m mrs / 2.
Proof.
  destruct mrs as [m r s]. cbn [shr_m]. intros Hm.
  destruct m as [|[p|p|]|p]; cbn [shr_1 shr_m]; try lia.
  - reflexivity.
  - apply Z.div_unique with (r := 1); lia.
  - apply Z.div_unique with (r := 0); lia.
  - reflexivity.
Qed.

Lemma iter_pos_shr_1 (p : positive) :
  forall mrs, 0 <= shr_m mrs ->
    shr_m (SpecFloat.iter_pos shr_1 p mrs) = shr_m mrs / 2 ^ Zpos p.
Proof.
  assert (Hnn : forall mrs, 0 <= shr_m mrs -> 0 <= shr_m (shr_1 mrs)).
  { intros mrs H. rewrite shr_1_m by assumption. apply Z.div_pos; lia. }
  induction p as [p IH|p IH|]; intros mrs Hm; simpl SpecFloat.iter_pos.
  - rewrite IH, IH, shr_1_m by (try rewrite IH; try apply Z.div_pos; auto; try lia;
                                 apply Z.pow_pos_nonneg; lia).
    rewrite Pos2Z.inj_xI.
    rewrite !Z.div_div by (try apply Z.pow_pos_nonneg; lia).
    f_equal. rewrite <- Z.pow_add_r by lia.
    replace (2 * Zpos p + 1) with (1 + (Zpos p + Zpos p)) by lia.
    rewrite (Z.pow_add_r 2 1) by lia. reflexivity.
  - rewrite IH, IH by (try rewrite IH; try apply Z.div_pos; auto; try lia;
                       apply Z.pow_pos_nonneg; lia).
    rewrite Pos2Z.inj_xO.
    rewrite !Z.div_div by (try apply Z.pow_pos_nonneg; lia).
    f_equal. rewrite <- Z.pow_add_r by lia. f_equal. lia.
  - rewrite shr_1_m by assumption. reflexivity.
Qed.

Lemma shr_record_of_loc_m (m : Z) (l : location) : shr_m (shr_record_of_loc m l) = m.
Proof. destruct l as [|[]]; reflexivity. Qed.

(** [shr] by [n] positions divides the mantissa by [2 ^ n]. *)
Lemma shr_spec (mrs mrs' : shr_record) (e n e' : Z) :
  0 <= shr_m mrs ->
  shr mrs e n = (mrs', e') ->
  e' = e + Z.max 0 n
  /\ shr_m mrs' = shr_m mrs / 2 ^ Z.max 0 n
  /\ (n <= 0 -> mrs' = mrs).
Proof.
  intros Hm. unfold shr. destruct n as [|p|p]; intros [= <- <-].
  - rewrite Z.max_l by lia. rewrite Z.div_1_r. repeat split; lia.
  - rewrite Z.max_r by lia. rewrite iter_pos_shr_1 by assumption.
    repeat split. lia.
  - rewrite Z.max_l by lia. rewrite Z.div_1_r. repeat split; lia.
Qed.

Lemma shr_fexp_spec (m e : Z) (l : location) (mrs' : shr_record) (e' : Z) :
  0 <= m ->
  shr_fexp prec emax m e l = (mrs', e') ->
  let n := fexp prec emax (Zdigits2 m + e) - e in
  e' = e + Z.max 0 n
  /\ shr_m mrs' = m / 2 ^ Z.max 0 n
  /\ (n <= 0 -> mrs' = shr_record_of_loc m l).
Proof.
  intros Hm H n. unfold shr_fexp in H. fold n in H.
  apply shr_spec in H; rewrite shr_record_of_loc_m in *; assumption.
Qed.

Lemma round_nearest_even_bounds (m : Z) (l : location) :
  m <= round_nearest_even m l <= m + 1.
Proof.
  unfold round_nearest_even. destruct l as [|[]]; try destruct (Z.even m); lia.
Qed.

Lemma div_pow2_nonneg (m k : Z) : 0 <= m -> 0 <= m / 2 ^ k.
Proof.
  intros Hm. destruct (Z_le_gt_dec 0 k).
  - apply Z.div_pos; [assumption | apply Z.pow_pos_nonneg; lia].
  - rewrite Z.pow_neg_r by lia. rewrite Z.div_0_r. lia.
Qed.

(** Rounding an exact product or integer whose mantissa has at least
    [prec] digits, in the normal range: the result exceeds the value by
    at most one part in [2 ^ 52]. *)
Lemma round_aux_upper (s s' : bool) (mx m2 : positive) (ex e2 : Z) :
  binary_round_aux prec emax s (Zpos mx) ex loc_Exact = S754_finite s' m2 e2 ->
  prec <= Zpos (digits2_pos mx) ->
  SpecFloat.emin prec emax <= Zpos (digits2_pos mx) + ex - prec ->
  s' = s /\ ex <= e2
  /\ 2 ^ 52 * Zpos m2 * 2 ^ (e2 - ex) <= Zpos mx * (2 ^ 52 + 1).
Proof.
  intros H Hd Hn. unfold binary_round_aux in H.
  destruct (shr_fexp prec emax (Zpos mx) ex loc_Exact) as [mrs1 e1] eqn:E1.
  destruct (shr_fexp prec emax _ e1 loc_Exact) as [mrs2 e2'] eqn:E2.
  apply shr_fexp_spec in E1; [|lia].
  pose proof (round_nearest_even_bounds (shr_m mrs1) (loc_of_shr_record mrs1)) as Hr.
  assert (Hm1 : 0 <= shr_m mrs1).
  { destruct E1 as (_ & -> & _). apply div_pow2_nonneg. lia. }
  apply shr_fexp_spec in E2; [|lia].
  destruct (shr_m mrs2) as [|q|q] eqn:Eq; try discriminate.
  destruct (e2' <=? emax - prec); [|discriminate].
  injection H as <- <- <-.
  split; [reflexivity|].
  simpl Zdigits2 in E1.
  replace (fexp prec emax (Zpos (digits2_pos mx) + ex) - ex)
    with (Zpos (digits2_pos mx) - prec) in E1
    by (unfold fexp; rewrite Z.max_l by lia; lia).
  destruct E1 as (He1 & Hq1 & Hx1).
  destruct E2 as (He2 & Hq2 & _).
  set (n1 := Z.max 0 (Zpos (digits2_pos mx) - prec)) in *.
  set (n2 := Z.max 0 _) in He2, Hq2.
  assert (0 <= n1) by (unfold n1; lia).
  assert (0 <= n2) by (unfold n2; lia).
  split; [lia|].
  replace (e2' - ex) with (n2 + n1) by lia.
  rewrite Z.pow_add_r by lia.
  assert (P1 : 0 < 2 ^ n1) by (apply Z.pow_pos_nonneg; lia).
  assert (P2 : 0 < 2 ^ n2) by (apply Z.pow_pos_nonneg; lia).
  assert (B2 : Zpos q * 2 ^ n2 <= round_nearest_even (shr_m mrs1) (loc_of_shr_record mrs1)).
  { rewrite Hq2. rewrite Z.mul_comm. apply Z.mul_div_le. exact P2. }
  assert (B1 : shr_m mrs1 * 2 ^ n1 <= Zpos mx).
  { rewrite Hq1. rewrite Z.mul_comm. apply Z.mul_div_le. exact P1. }
  assert (PK : 0 < 2 ^ 52) by lia.
  set (K := 2 ^ 52) in *. set (P1' := 2 ^ n1) in *. set (P2' := 2 ^ n2) in *.
  destruct (Z.eq_dec (Zpos (digits2_pos mx)) prec) as [Heq|Hne].
  - (* no digit is dropped: the rounding is exact *)
    assert (Hz : n1 = 0) by (unfold n1; lia).
    rewrite Hx1 in B2 by lia.
    cbn [round_nearest_even loc_of_shr_record shr_record_of_loc shr_m] in B2.
    assert (P1' = 1) by (unfold P1'; rewrite Hz; reflexivity).
    assert (K * (Zpos q * P2') <= K * Zpos mx)
      by (apply Z.mul_le_mono_nonneg_l; lia).
    nia.
  - assert (Hn1 : n1 = Zpos (digits2_pos mx) - prec) by (unfold n1; lia).
    pose proof (digits2_pos_bounds mx) as [Hlo _].
    replace (Zpos (digits2_pos mx) - 1) with (52 + n1) in Hlo by (unfold prec in *; lia).
    rewrite Z.pow_add_r in Hlo by lia. fold K P1' in Hlo.
    assert (Zpos q * P2' * P1' <= (shr_m mrs1 + 1) * P1')
      by (apply Z.mul_le_mono_nonneg_r; lia).
    assert (K * (Zpos q * P2' * P1') <= K * (Zpos mx + P1'))
      by (apply Z.mul_le_mono_nonneg_l; lia).
    lia.
Qed.

Lemma iter_xO_spec (d mx : positive) :
  Zpos (Pos.iter xO mx d) = Zpos mx * 2 ^ Zpos d
  /\ Zpos (digits2_pos (Pos.iter xO mx d)) = Zpos (digits2_pos mx) + Zpos d.
Proof.
  induction d as [|d [IH1 IH2]] using Pos.peano_ind.
  - simpl Pos.iter. simpl digits2_pos. rewrite Pos2Z.inj_succ. split; lia.
  - rewrite Pos.iter_succ. simpl digits2_pos.
    rewrite Pos2Z.inj_xO, !Pos2Z.inj_succ, IH1, IH2.
    rewrite Z.pow_succ_r by lia. split; lia.
Qed.

Lemma shl_align_spec (mx : positive) (ex ex' : Z) (mz : positive) (ez : Z) :
  shl_align mx ex ex' = (mz, ez) ->
  ez = Z.min ex ex'
  /\ Zpos mz = Zpos mx * 2 ^ (ex - ez)
  /\ Zpos (digits2_pos mz) = Zpos (digits2_pos mx) + (ex - ez).
Proof.
  unfold shl_align. destruct (ex' - ex) as [|d|d] eqn:E; intros [= <- <-].
  - replace (ex - ex) with 0 by lia. rewrite Z.pow_0_r. repeat split; lia.
  - replace (ex - ex) with 0 by lia. rewrite Z.pow_0_r. repeat split; lia.
  - destruct (iter_xO_spec d mx) as [H1 H2].
    replace (ex - ex') with (Zpos d) by lia. repeat split; try assumption; lia.
Qed.

(** A positive integer converted to binary64 exceeds the integer by at
    most one part in [2 ^ 52], and its exponent is at least -52. *)
Lemma Z2SF_upper (p mn : positive) (en : Z) (s : bool) :
  Z2SF (Zpos p) = S754_finite s mn en ->
  s = false /\ -52 <= en /\ Zpos mn * 2 ^ (en + 52) <= Zpos p * (2 ^ 52 + 1).
Proof.
  unfold Z2SF, binary_normalize, binary_round.
  destruct (shl_align p 0 _) as [mz ez] eqn:Ea. intros H.
  apply shl_align_spec in Ea as (Hez & Hmz & Hdz).
  pose proof (digits2_pos_bounds p) as _.
  assert (Hd1 : 1 <= Zpos (digits2_pos p)) by lia.
  replace (fexp prec emax (Zpos (digits2_pos p) + 0)) with (Zpos (digits2_pos p) - 53) in Hez
    by (unfold fexp, SpecFloat.emin, prec, emax; lia).
  apply round_aux_upper in H as (Hs & He & Hb); unfold prec, SpecFloat.emin, emax in *; try lia.
  split; [exact Hs|]. split; [lia|].
  assert (PK : 0 < 2 ^ 52) by lia. set (K := 2 ^ 52) in *.
  assert (Hsplit : en + 52 = (en - ez) + (ez + 52)) by lia.
  rewrite Hsplit, Z.pow_add_r by lia.
  assert (Hk : 2 ^ (0 - ez) * 2 ^ (ez + 52) = K).
  { rewrite <- Z.pow_add_r by lia. unfold K. f_equal. lia. }
  rewrite Hmz in Hb.
  assert (P1 : 0 < 2 ^ (ez + 52)) by (apply Z.pow_pos_nonneg; lia).
  assert (H1 : K * Zpos mn * 2 ^ (en - ez) * 2 ^ (ez + 52)
               <= Zpos p * 2 ^ (0 - ez) * (K + 1) * 2 ^ (ez + 52))
    by (apply Z.mul_le_mono_nonneg_r; lia).
  replace (Zpos p * 2 ^ (0 - ez) * (K + 1) * 2 ^ (ez + 52))
    with (K * (Zpos p * (K + 1))) in H1
    by (rewrite <- Hk; ring).
  replace (K * Zpos mn * 2 ^ (en - ez) * 2 ^ (ez + 52))
    with (K * (Zpos mn * (2 ^ (en - ez) * 2 ^ (ez + 52)))) in H1 by ring.
  apply Z.mul_le_mono_pos_l in H1; assumption.
Qed.

(** The product with a constant of full precision: again at most one
    part in [2 ^ 52] above the exact product. *)
Lemma fmul_upper (mn cm mp : positive) (en ce ep : Z) (s : bool) :
  fmul (S754_finite false mn en) (S754_finite false cm ce) = S754_finite s mp ep ->
  Zpos (digits2_pos cm) = 53 -> SpecFloat.emin prec emax <= en + ce ->
  s = false /\ en + ce <= ep
  /\ 2 ^ 52 * Zpos mp * 2 ^ (ep - (en + ce)) <= Zpos (mn * cm) * (2 ^ 52 + 1).
Proof.
  unfold fmul, SFmul. simpl xorb. intros H Hc Hmin.
  assert (Hd : 53 <= Zpos (digits2_pos (mn * cm))).
  { change 53 with (52 + 1). apply Zdigits2_lower; [|lia].
    pose proof (digits2_pos_bounds cm) as [Hlo _]. rewrite Hc in Hlo.
    change (53 - 1) with 52 in Hlo. rewrite Pos2Z.inj_mul. nia. }
  apply round_aux_upper in H; unfold prec in *; try lia. exact H.
Qed.

(** Truncation does not exceed the value. *)
Lemma int_of_float_upper (mp : positive) (ep K t : Z) :
  int_of_float (S754_finite false mp ep) = Ok t ->
  0 <= K -> 0 <= ep + K ->
  0 <= t /\ t * 2 ^ K <= Zpos mp * 2 ^ (ep + K).
Proof.
  unfold int_of_float. intros H HK HeK.
  destruct (Z.leb_spec 0 ep) as [Hep|Hep]; injection H as <-.
  - rewrite Z.shiftl_mul_pow2 by lia.
    assert (0 < 2 ^ ep) by (apply Z.pow_pos_nonneg; lia).
    split; [lia|]. rewrite Z.pow_add_r by lia. lia.
  - rewrite Z.shiftr_div_pow2 by lia.
    assert (P : 0 < 2 ^ (- ep)) by (apply Z.pow_pos_nonneg; lia).
    assert (P' : 0 < 2 ^ (ep + K)) by (apply Z.pow_pos_nonneg; lia).
    split; [apply Z.div_pos; lia|].
    replace K with (- ep + (ep + K)) at 1 by lia.
    rewrite Z.pow_add_r by lia.
    pose proof (Z.mul_div_le (Zpos mp) (2 ^ (- ep)) P) as Hle.
    rewrite Z.mul_assoc. apply Z.mul_le_mono_nonneg_r; lia.
Qed.

(** [int(n * c)] for a non-negative [int] [n] and a positive constant [c]
    of full precision: a non-negative integer, at most the exact product
    times [(1 + 2^-52)^2]. *)
Lemma int_times_float_upper (n : Z) (cm : positive) (ce t : Z) :
  0 <= n -> Zpos (digits2_pos cm) = 53 -> -1000 <= ce <= 0 ->
  rbind (int_times_float n (S754_finite false cm ce)) int_of_float = Ok t ->
  0 <= t /\ t * 2 ^ (104 - ce) <= n * ((2 ^ 52 + 1) * (2 ^ 52 + 1) * Zpos cm).
Proof.
  intros Hn Hc Hce. unfold int_times_float, float_of_int.
  destruct n as [|p|p]; [| |lia].
  - simpl. intros [= <-]. lia.
  - destruct (Z2SF (Zpos p)) as [s|s| |s mn en] eqn:En; cbn [rbind]; try discriminate.
    + unfold fmul, SFmul. cbn [int_of_float]. intros [= <-]; lia.
    + apply Z2SF_upper in En as (-> & Hen & Hbn).
      destruct (fmul (S754_finite false mn en) (S754_finite false cm ce))
        as [s'|s'| |s' mp ep] eqn:Em; cbn [int_of_float]; try discriminate.
      * intros [= <-]. lia.
      * apply fmul_upper in Em as (-> & Hep & Hbm);
          [|exact Hc|unfold SpecFloat.emin, prec, emax; lia].
        intros Ht. apply (int_of_float_upper mp ep (52 - ce)) in Ht as (Ht0 & Hbt);
          [|lia|lia].
        split; [exact Ht0|].
        assert (PK : 0 < 2 ^ 52) by lia. set (K := 2 ^ 52) in *.
        assert (PA : 0 < 2 ^ (ep - (en + ce))) by (apply Z.pow_pos_nonneg; lia).
        assert (PB : 0 < 2 ^ (en + 52)) by (apply Z.pow_pos_nonneg; lia).
        replace (ep + (52 - ce)) with ((ep - (en + ce)) + (en + 52)) in Hbt by lia.
        rewrite Z.pow_add_r in Hbt by lia.
        replace (104 - ce) with (52 + (52 - ce)) by lia.
        rewrite Z.pow_add_r by lia. fold K.
        rewrite Pos2Z.inj_mul in Hbm.
        set (A := 2 ^ (ep - (en + ce))) in *. set (B := 2 ^ (en + 52)) in *.
        set (T := t * 2 ^ (52 - ce)) in *.
        assert (S1 : K * T <= K * (Zpos mp * (A * B)))
          by (apply Z.mul_le_mono_nonneg_l; lia).
        assert (S2 : K * Zpos mp * A * B <= Zpos mn * Zpos cm * (K + 1) * B)
          by (apply Z.mul_le_mono_nonneg_r; lia).
        assert (S3 : Zpos mn * B * (Zpos cm * (K + 1)) <= Zpos p * (K + 1) * (Zpos cm * (K + 1)))
          by (apply Z.mul_le_mono_nonneg_r; lia).
        replace (t * (K * 2 ^ (52 - ce))) with (K * T) by (unfold T; ring).
        lia.
Qed.

(** The three parts of a quiz: the numbers of easy and medium questions
    are non-negative and leave a non-negative number of hard ones. *)
Lemma quiz_parts (n num_easy num_medium : Z) :
  0 <= n ->
  rbind (int_times_float n f0_3) int_of_float = Ok num_easy ->
  rbind (int_times_float n f0_5) int_of_float = Ok num_medium ->
  0 <= num_easy /\ 0 <= num_medium /\ num_easy + num_medium <= n.
Proof.
  intros Hn He Hm.
  apply int_times_float_upper in He as (He0 & He); [|lia|reflexivity|lia].
  apply int_times_float_upper in Hm as (Hm0 & Hm); [|lia|reflexivity|lia].
  split; [exact He0|]. split; [exact Hm0|].
  change (104 - -54) with 158 in He. change (104 - -53) with 157 in Hm.
  change (2 ^ 158) with (2 * 2 ^ 157) in He.
  assert (P : 0 < 2 ^ 157) by lia.
  set (W := 2 ^ 157) in *.
  assert (He' : 2 * W * num_easy <= n * (3 * W / 4)).
  { etransitivity; [|apply Z.mul_le_mono_nonneg_l; [exact Hn|]].
    - rewrite Z.mul_comm. exact He.
    - unfold W. vm_compute. discriminate. }
  assert (Hm' : W * num_medium <= n * (5 * W / 8)).
  { etransitivity; [|apply Z.mul_le_mono_nonneg_l; [exact Hn|]].
    - rewrite Z.mul_comm. exact Hm.
    - unfold W. vm_compute. discriminate. }
  assert (D1 : 3 * W / 4 * 4 = 3 * W) by (unfold W; vm_compute; reflexivity).
  assert (D2 : 5 * W / 8 * 8 = 5 * W) by (unfold W; vm_compute; reflexivity).
  set (X := 3 * W / 4) in *. set (Y := 5 * W / 8) in *.
  nia.
Qed.

(** ** Quotients that stay in range *)

(** Rounding a value below [2 ^ 1000] does not overflow. *)
Lemma round_aux_finite (s s' : bool) (q e : Z) (l : location) :
  0 <= q < 2 ^ (1000 - e) -> e <= 900 ->
  binary_round_aux prec emax s q e l <> S754_infinity s'.
Proof.
  intros [Hq0 Hq] He. unfold binary_round_aux.
  destruct (shr_fexp prec emax q e l) as [mrs1 e1] eqn:E1.
  destruct (shr_fexp prec emax _ e1 loc_Exact) as [mrs2 e2] eqn:E2.
  apply shr_fexp_spec in E1 as (He1 & Hm1 & _); [|exact Hq0].
  pose proof (round_nearest_even_bounds (shr_m mrs1) (loc_of_shr_record mrs1)) as Hr.
  assert (Hm1' : 0 <= shr_m mrs1) by (rewrite Hm1; apply div_pow2_nonneg; exact Hq0).
  apply shr_fexp_spec in E2 as (He2 & _ & _); [|lia].
  assert (Hdq : Zdigits2 q <= 1000 - e) by (apply Zdigits2_upper; lia).
  assert (He1' : e1 <= 947 /\ e <= e1).
  { unfold fexp, SpecFloat.emin, prec, emax in He1. lia. }
  assert (Hlt : shr_m mrs1 < 2 ^ (1000 - e1)).
  { rewrite Hm1. set (k := Z.max 0 _) in *.
    apply Z.div_lt_upper_bound; [apply Z.pow_pos_nonneg; lia|].
    rewrite <- Z.pow_add_r by lia. replace (k + (1000 - e1)) with (1000 - e) by lia.
    exact Hq. }
  assert (Hdr : Zdigits2 (round_nearest_even (shr_m mrs1) (loc_of_shr_record mrs1))
                <= 1001 - e1).
  { apply Zdigits2_upper; [|lia]. split; [lia|].
    replace (1001 - e1) with (Z.succ (1000 - e1)) by lia.
    rewrite Z.pow_succ_r by lia. lia. }
  assert (He2' : e2 <= 948).
  { unfold fexp, SpecFloat.emin, prec, emax in He2. lia. }
  destruct (shr_m mrs2); try discriminate.
  destruct (Z.leb_spec e2 (emax - prec)); [discriminate|].
  unfold emax, prec in *. lia.
Qed.

Lemma float_of_ratio_finite (a : Z) (b : positive) (s : bool) :
  Z.abs a < Zpos b * 2 ^ 1000 -> float_of_ratio a b <> S754_infinity s.
Proof.
  intros Ha.
  assert (Hcore : forall (p : positive) (sg : bool),
            Zpos p < Zpos b * 2 ^ 1000 ->
            (let '(q, e, l) := SFdiv_core_binary prec emax (Zpos p) 0 (Zpos b) 0 in
             binary_round_aux prec emax sg q e l) <> S754_infinity s).
  { intros p sg Hp. unfold SFdiv_core_binary.
    set (e' := Z.min _ _).
    assert (He' : e' <= 0) by (unfold e'; lia).
    set (m' := match 0 - 0 - e' with
               | Z0 => Zpos p
               | Zpos _ => Z.shiftl (Zpos p) (0 - 0 - e')
               | Zneg _ => 0
               end).
    assert (Hm' : m' = Zpos p * 2 ^ (- e')).
    { unfold m'. destruct (0 - 0 - e') as [|k|k] eqn:Ek.
      - replace (- e') with 0 by lia. rewrite Z.pow_0_r. lia.
      - rewrite Z.shiftl_mul_pow2 by lia. f_equal. f_equal. lia.
      - lia. }
    pose proof (Z_div_mod m' (Zpos b) eq_refl) as Hdm.
    destruct (Z.div_eucl m' (Zpos b)) as [q r]. destruct Hdm as [Hdm Hr].
    assert (P : 0 < 2 ^ (- e')) by (apply Z.pow_pos_nonneg; lia).
    apply round_aux_finite; [|lia].
    assert (Hq0 : 0 <= q) by nia.
    split; [exact Hq0|].
    replace (1000 - e') with (1000 + - e') by lia. rewrite Z.pow_add_r by lia.
    assert (Zpos b * q < Zpos b * (2 ^ 1000 * 2 ^ (- e'))) by nia.
    apply Z.mul_lt_mono_pos_l in H; [exact H | lia]. }
  unfold float_of_ratio. destruct a as [|p|p]; [discriminate | |];
    apply Hcore; simpl Z.abs in Ha; exact Ha.
Qed.

(** True division of an integer in range by a positive integer returns
    the rounded quotient. *)
Lemma int_truediv_pos (a : Z) (b : positive) :
  Z.abs a < Zpos b * 2 ^ 1000 ->
  int_truediv a (Zpos b) = Ok (float_of_ratio a b).
Proof.
  intros Ha. unfold int_truediv.
  pose proof (fun s => float_of_ratio_finite a b s Ha) as Hf.
  destruct (float_of_ratio a b) as [| s0 | |]; try reflexivity.
  exfalso. exact (Hf s0 eq_refl).
Qed.

End Float64Facts.

(** ** tools/quiz_management.py *)

Module QuizManagementFacts.
Import QuizManagement Float64Facts.

(** *** Sampling *)

Lemma pick_submseteq {A} (k : nat) :
  forall (draws : list nat) (pop : list A), pick draws pop k ⊆+ pop.
Proof.
  induction k as [|k IH]; intros draws pop; simpl.
  - apply submseteq_nil_l.
  - destruct (pop !! _) as [x|] eqn:E; [|apply submseteq_nil_l].
    etransitivity.
    + constructor. apply IH.
    + apply Permutation_submseteq. symmetry. apply delete_Permutation. exact E.
Qed.

Lemma pick_length {A} (k : nat) :
  forall (draws : list nat) (pop : list A), length (pick draws pop k) <= k.
Proof.
  induction k as [|k IH]; intros draws pop; simpl; [lia|].
  destruct (pop !! _); simpl; [|lia]. specialize (IH (tl draws) (delete
    (hd 0 draws mod length pop) pop)). lia.
Qed.

Lemma random_sample_ok {A} (draws : list nat) (pop picked : list A) (k : Z) :
  random_sample draws pop k = Ok picked ->
  picked ⊆+ pop /\ (Z.of_nat (length picked) <= k)%Z.
Proof.
  unfold random_sample.
  destruct (Z.ltb_spec k 0); simpl; [discriminate|].
  destruct (Z.ltb_spec (Z.of_nat (length pop)) k); [discriminate|].
  intros [= <-]. split; [apply pick_submseteq|].
  pose proof (pick_length (Z.to_nat k) draws pop). lia.
Qed.

Lemma random_shuffle_submseteq {A} (draws : list nat) (l : list A) :
  random_shuffle draws l ⊆+ l.
Proof. apply pick_submseteq. Qed.

(** *** Filtering *)

Lemma elem_of_filter_bool {A} (f : A -> bool) (l : list A) (x : A) :
  x ∈ List.filter f l <-> x ∈ l /\ f x = true.
Proof. rewrite !list_elem_of_In. apply filter_In. Qed.

Lemma filter_bool_sublist {A} (f : A -> bool) (l : list A) :
  List.filter f l `sublist_of` l.
Proof.
  induction l as [|x l IH]; simpl; [constructor|].
  destruct (f x); constructor; exact IH.
Qed.

Lemma get_questions_sublist (st : store) (filters : question_filters) (limit : nat) :
  get_questions st filters limit `sublist_of` questions st.
Proof.
  unfold get_questions.
  assert (Hf : forall flt keep qs, filter_by flt keep qs `sublist_of` qs).
  { intros [v|] keep qs; simpl; [apply filter_bool_sublist | reflexivity]. }
  etransitivity; [apply sublist_take|].
  repeat (etransitivity; [apply Hf|]). reflexivity.
Qed.

Lemma matching_questions_sublist (st : store) (test_type section : pyval) :
  matching_questions st test_type section `sublist_of` questions st.
Proof.
  unfold matching_questions.
  destruct (get_questions st _ 1000) eqn:E.
  - apply get_questions_sublist.
  - rewrite <- E. apply get_questions_sublist.
Qed.

Lemma unseen_questions_sublist (recent : list quiz_response) (all : list question)
    (quiz_size : Z) :
  unseen_questions recent all quiz_size `sublist_of` all.
Proof.
  unfold unseen_questions. destruct (_ && _); [reflexivity | apply filter_bool_sublist].
Qed.

Lemma prioritize_sublist (target_topics : list pyval) (available : list question) :
  prioritize target_topics available `sublist_of` available.
Proof.
  unfold prioritize. destruct target_topics; [reflexivity|].
  destruct (List.filter _ available) eqn:E; [reflexivity|].
  rewrite <- E. apply filter_bool_sublist.
Qed.

(** *** The selection *)

(** The ["question_id"] values of a list of questions. *)
Definition ids (qs : list question) : list (option string) := map q_question_id qs.

Lemma submseteq_NoDup {A} (l k : list A) : l ⊆+ k -> NoDup k -> NoDup l.
Proof.
  intros Hs Hk. apply submseteq_Permutation in Hs as [k' Hk'].
  rewrite Hk' in Hk. apply NoDup_app in Hk. tauto.
Qed.

Lemma extend_from_ok (draws : list nat) (bucket selected selected' : list question)
    (n : Z) :
  (0 <= n)%Z ->
  extend_from draws bucket n selected = Ok selected' ->
  exists picked, selected' = selected ++ picked
                 /\ picked ⊆+ bucket
                 /\ (Z.of_nat (length picked) <= n)%Z.
Proof.
  intros Hn. unfold extend_from. destruct bucket as [|b bucket].
  - intros [= <-]. exists []. rewrite app_nil_r. repeat split; [constructor | simpl; lia].
  - destruct (random_sample draws (b :: bucket) _) as [picked|e] eqn:E; simpl;
      [|discriminate].
    intros [= <-]. apply random_sample_ok in E as [H1 H2].
    exists picked. repeat split; [exact H1 | lia].
Qed.

Lemma of_difficulty_spec (d : string) (qs : list question) (q : question) :
  q ∈ of_difficulty d qs <-> q ∈ qs /\ q_difficulty q = Some d.
Proof.
  unfold of_difficulty. rewrite elem_of_filter_bool, bool_decide_eq_true. reflexivity.
Qed.

(** What [select_questions] returns, for a non-negative size: questions
    of [available], no more than asked for, none of them twice. *)
Lemma select_questions_ok (ent : quiz_entropy) (quiz_size : Z)
    (available selected : list question) :
  (0 <= quiz_size)%Z -> NoDup available ->
  select_questions ent quiz_size available = Ok selected ->
  (Z.of_nat (length selected) <= quiz_size)%Z
  /\ NoDup selected
  /\ (forall q, q ∈ selected -> q ∈ available).
Proof.
  intros Hn Hnd. unfold select_questions.
  destruct (rbind (int_times_float quiz_size f0_3) int_of_float) as [num_easy|] eqn:Ee;
    [|discriminate].
  destruct (rbind (int_times_float quiz_size f0_5) int_of_float) as [num_medium|] eqn:Em;
    [|discriminate].
  destruct (quiz_parts quiz_size num_easy num_medium Hn Ee Em) as (He0 & Hm0 & Hsum).
  cbn [rbind].
  destruct (extend_from (draws_easy ent) _ num_easy []) as [s1|] eqn:E1; [|discriminate].
  apply extend_from_ok in E1 as (p1 & -> & Hp1 & Hl1); [|exact He0].
  cbn [rbind app].
  destruct (extend_from (draws_medium ent) _ num_medium p1) as [s2|] eqn:E2; [|discriminate].
  apply extend_from_ok in E2 as (p2 & -> & Hp2 & Hl2); [|exact Hm0].
  cbn [rbind].
  destruct (extend_from (draws_hard ent) _ _ (p1 ++ p2)) as [s3|] eqn:E3; [|discriminate].
  apply extend_from_ok in E3 as (p3 & -> & Hp3 & Hl3); [|lia].
  cbn [rbind].
  set (sel := (p1 ++ p2) ++ p3) in *.
  assert (Hlen : (Z.of_nat (length sel) <= quiz_size)%Z).
  { unfold sel. rewrite !length_app. lia. }
  assert (Hin : forall q, q ∈ sel -> q ∈ available).
  { intros q. unfold sel. rewrite !elem_of_app. intros [[H|H]|H].
    - eapply elem_of_submseteq in H; [|exact Hp1]. apply of_difficulty_spec in H. tauto.
    - eapply elem_of_submseteq in H; [|exact Hp2]. apply of_difficulty_spec in H. tauto.
    - eapply elem_of_submseteq in H; [|exact Hp3]. apply of_difficulty_spec in H. tauto. }
  assert (Hbucket : forall d, NoDup (of_difficulty d available)).
  { intros d. eapply sublist_NoDup; [exact Hnd | apply filter_bool_sublist]. }
  assert (Hsel : NoDup sel).
  { unfold sel. apply NoDup_app. split; [apply NoDup_app; split; [|split]|split].
    - eapply submseteq_NoDup; [exact Hp1 | apply Hbucket].
    - intros q H1 H2.
      eapply elem_of_submseteq in H1; [|exact Hp1]. apply of_difficulty_spec in H1.
      eapply elem_of_submseteq in H2; [|exact Hp2]. apply of_difficulty_spec in H2.
      destruct H1 as [_ H1], H2 as [_ H2]. congruence.
    - eapply submseteq_NoDup; [exact Hp2 | apply Hbucket].
    - intros q H12 H3.
      eapply elem_of_submseteq in H3; [|exact Hp3]. apply of_difficulty_spec in H3.
      apply elem_of_app in H12 as [H1|H2].
      + eapply elem_of_submseteq in H1; [|exact Hp1]. apply of_difficulty_spec in H1.
        destruct H1 as [_ H1], H3 as [_ H3]. congruence.
      + eapply elem_of_submseteq in H2; [|exact Hp2]. apply of_difficulty_spec in H2.
        destruct H2 as [_ H2], H3 as [_ H3]. congruence.
    - eapply submseteq_NoDup; [exact Hp3 | apply Hbucket]. }
  assert (Hfinal : forall filled,
             (Z.of_nat (length filled) <= quiz_size)%Z -> NoDup filled ->
             (forall q, q ∈ filled -> q ∈ available) ->
             Ok (random_shuffle (draws_shuffle ent) filled) = Ok selected ->
             (Z.of_nat (length selected) <= quiz_size)%Z
             /\ NoDup selected /\ (forall q, q ∈ selected -> q ∈ available)).
  { intros filled F1 F2 F3 [= <-].
    pose proof (random_shuffle_submseteq (draws_shuffle ent) filled) as Hsh.
    split; [|split].
    - apply submseteq_length in Hsh. lia.
    - eapply submseteq_NoDup; eauto.
    - intros q Hq. apply F3. eapply elem_of_submseteq; eauto. }
  destruct (Z.ltb_spec (Z.of_nat (length sel)) quiz_size) as [Hlt|Hge].
  - cbv zeta.
    destruct (random_sample (draws_fill ent) _ _) as [p4|] eqn:E4; [|discriminate].
    apply random_sample_ok in E4 as [Hp4 Hl4]. cbn [rbind].
    apply Hfinal.
    + rewrite length_app. lia.
    + apply NoDup_app. split; [exact Hsel|]. split.
      * intros q H1 H2. eapply elem_of_submseteq in H2; [|exact Hp4].
        apply elem_of_filter_bool in H2 as [_ H2].
        apply negb_true_iff, bool_decide_eq_false in H2. contradiction.
      * eapply submseteq_NoDup; [exact Hp4|].
        eapply sublist_NoDup; [exact Hnd | apply filter_bool_sublist].
    + intros q. rewrite elem_of_app. intros [H|H]; [auto|].
      eapply elem_of_submseteq in H; [|exact Hp4].
      apply elem_of_filter_bool in H. tauto.
  - cbn [rbind]. apply Hfinal; assumption.
Qed.

(** *** The quiz *)

Lemma question_ids_of_quiz (selected : list question) :
  map qq_question_id (imap quiz_question_of selected) = ids selected.
Proof.
  change (map qq_question_id (imap quiz_question_of selected))
    with (qq_question_id <$> imap quiz_question_of selected).
  rewrite fmap_imap.
  rewrite (imap_ext _ (const q_question_id)) by reflexivity.
  apply imap_const.
Qed.

Lemma ids_injective_on (qs : list question) (x y : question) :
  NoDup (ids qs) -> x ∈ qs -> y ∈ qs -> q_question_id x = q_question_id y -> x = y.
Proof.
  induction qs as [|q qs IH]; simpl; intros Hnd Hx Hy Heq.
  - apply elem_of_nil in Hx. contradiction.
  - apply NoDup_cons in Hnd as [Hq Hnd].
    apply elem_of_cons in Hx as [->|Hx]; apply elem_of_cons in Hy as [->|Hy].
    + reflexivity.
    + exfalso. apply Hq. rewrite Heq. apply (list_elem_of_fmap_2 q_question_id). exact Hy.
    + exfalso. apply Hq. rewrite <- Heq. apply (list_elem_of_fmap_2 q_question_id). exact Hx.
    + apply IH; assumption.
Qed.

(** The size requested by a config: 20 when it names none. *)
Definition requested_size (config : quiz_config) : Z := default 20%Z (cfg_size config).

(** C4, as the code has it.  With a catalog whose question ids are
    pairwise distinct and a requested size [n] that is not negative, a
    quiz that [generate_adaptive_quiz] creates holds at most [n]
    questions, no ["question_id"] twice, and reports their number as
    ["total_questions"]. *)
Theorem quiz_size_and_distinct_ids (repr_other : pyval -> string) (ent : quiz_entropy)
    (st : store) (user_id : string) (config : quiz_config) (q : quiz_created) :
  (0 <= requested_size config)%Z ->
  NoDup (ids (questions st)) ->
  (generate_adaptive_quiz repr_other ent st user_id config).1 = Ok (QuizCreated q) ->
  (Z.of_nat (length (qc_questions q)) <= requested_size config)%Z
  /\ NoDup (map qq_question_id (qc_questions q))
  /\ qc_total_questions q = length (qc_questions q).
Proof.
  intros Hn Hids. unfold generate_adaptive_quiz, requested_size in *.
  destruct (get_user st user_id) as [[|kv user]|]; try discriminate.
  cbv zeta.
  set (test_type := default _ (cfg_test_type config)).
  set (recent := last_n 50 _).
  set (target := match cfg_topics config with [] => _ | _ => _ end).
  set (unseen := unseen_questions recent _ _).
  assert (Hsub : prioritize target unseen `sublist_of` questions st).
  { etransitivity; [apply prioritize_sublist|].
    etransitivity; [apply unseen_questions_sublist|].
    apply matching_questions_sublist. }
  destruct unseen as [|u unseen']; [discriminate|].
  destruct (select_questions ent _ _) as [selected|e] eqn:Es; [|discriminate].
  cbn [fst]. intros [= <-]. cbn [qc_questions qc_total_questions].
  assert (Hnd : NoDup (questions st)) by (eapply NoDup_fmap_1; exact Hids).
  apply select_questions_ok in Es as (Hlen & Hsel & Hin);
    [|exact Hn|eapply sublist_NoDup; eauto].
  rewrite length_imap, question_ids_of_quiz.
  split; [exact Hlen|]. split; [|reflexivity].
  apply NoDup_fmap_2_strong; [|exact Hsel].
  intros x y Hx Hy. apply (ids_injective_on (questions st)); [exact Hids| |].
  - eapply elem_of_sublist; [apply Hin; exact Hx | exact Hsub].
  - eapply elem_of_sublist; [apply Hin; exact Hy | exact Hsub].
Qed.

(** *** Two catalogs *)

Import UserProfileFacts.
Import LlmClientFacts.

Definition make_question (id difficulty topic answer : string) : question :=
  {| q_question_id := Some id; q_test_type := Some "ABC Certification";
     q_section := Some "math"; q_topic := Some topic; q_subtopic := None;
     q_difficulty := Some difficulty; q_correct_answer := Some answer;
     q_explanation := Some "See the worked solution."; q_content := Some "2 + 2 = ?";
     q_options := Some ["A"; "B"; "C"; "D"]; q_average_time := Some 90%Z |}.

Definition small_catalog : list question :=
  [ make_question "q1" "easy" "algebra" "A";
    make_question "q2" "medium" "algebra" "B";
    make_question "q3" "hard" "geometry" "C";
    make_question "q4" "medium" "geometry" "D";
    make_question "q5" "easy" "geometry" "A" ].

Definition with_questions (qs : list question) : store :=
  {| users := users two_users; questions := qs; test_results := ∅;
     quiz_responses := ∅; conversation_history := ∅; study_sessions := ∅;
     quizzes := ∅ |}.

Definition some_entropy : quiz_entropy :=
  {| draws_easy := [1; 0]; draws_medium := [0; 1]; draws_hard := [2];
     draws_fill := [3; 1; 4]; draws_shuffle := [2; 0; 1; 5];
     fresh_quiz_id := "quiz-1"; now_saved := "2025-01-01T10:00:00";
     now_returned := "2025-01-01T10:00:01" |}.

Definition config_of_size (n : Z) : quiz_config :=
  {| cfg_size := Some n; cfg_test_type := None; cfg_section := VNone; cfg_topics := [] |}.

(** C4 as stated fails for a negative size: over a catalog of easy
    questions a quiz of size -1 is created, with no question in it, and
    zero is more than the size asked for. *)
Lemma negative_size_quiz_is_created :
  exists q,
    (generate_adaptive_quiz repr0 some_entropy
       (with_questions [make_question "q1" "easy" "algebra" "A"])
       "mock-user" (config_of_size (-1))).1 = Ok (QuizCreated q)
    /\ qc_questions q = []
    /\ qc_total_questions q = 0
    /\ ~ (Z.of_nat (length (qc_questions q)) <= -1)%Z.
Proof.
  eexists. split; [vm_compute; reflexivity|].
  split; [reflexivity|]. split; [reflexivity|]. simpl. lia.
Qed.

(** A quiz of size 3 over the small catalog: no easy question is due
    ([int(3 * 0.3)] is 0), one medium and two hard ones are; the only hard
    question and a medium one are drawn, one more is filled in. *)
Example quiz_of_three :
  exists q,
    (generate_adaptive_quiz repr0 some_entropy (with_questions small_catalog)
       "mock-user" (config_of_size 3)).1 = Ok (QuizCreated q)
    /\ map qq_question_id (qc_questions q) = [Some "q1"; Some "q2"; Some "q3"].
Proof. eexists. split; vm_compute; reflexivity. Qed.

Lemma quiz_size_and_distinct_ids_witness :
  exists q,
    (generate_adaptive_quiz repr0 some_entropy (with_questions small_catalog)
       "mock-user" (config_of_size 3)).1 = Ok (QuizCreated q)
    /\ (Z.of_nat (length (qc_questions q)) <= 3)%Z
    /\ NoDup (map qq_question_id (qc_questions q)).
Proof.
  destruct quiz_of_three as (q & Hq & _).
  exists q. split; [exact Hq|].
  destruct (quiz_size_and_distinct_ids repr0 some_entropy (with_questions small_catalog)
              "mock-user" (config_of_size 3) q) as (H1 & H2 & _).
  - vm_compute. discriminate.
  - vm_compute. repeat constructor; rewrite ?elem_of_cons, ?elem_of_nil; intuition discriminate.
  - exact Hq.
  - split; [exact H1 | exact H2].
Defined.

(** *** Submitting answers *)

(** The response's answer equals the stored correct answer of the
    question it references. *)
Definition answered_correctly (st : store) (r : submitted_response) : bool :=
  match find_question st (sr_question_id r) with
  | Some question => bool_decide (sr_answer r = q_correct_answer question)
  | None => false
  end.

(** The number [k] of such responses. *)
Definition correct_count (st : store) (responses : list submitted_response) : Z :=
  Z.of_nat (length (List.filter (answered_correctly st) responses)).

(** The time spent is a number a [float] can hold. *)
Definition time_in_range (r : submitted_response) : Prop :=
  (Z.abs (default 0 (sr_time_spent r)) < 2 ^ 1000)%Z.

Lemma find_question_same_catalog (st st' : store) (question_id : option string) :
  questions st' = questions st ->
  find_question st' question_id = find_question st question_id.
Proof. intros H. unfold find_question. rewrite H. reflexivity. Qed.

Lemma answered_correctly_same_catalog (st st' : store) (r : submitted_response) :
  questions st' = questions st ->
  answered_correctly st' r = answered_correctly st r.
Proof.
  intros H. unfold answered_correctly.
  rewrite (find_question_same_catalog st st' _ H). reflexivity.
Qed.

(** One round of the loop: the catalog is not touched, the counter of
    correct answers goes up by one exactly for a correct answer, and the
    total time moves by at most the time of the response. *)
Lemma submit_step_spec (ent : submit_entropy) (user_id quiz_id : string)
    (s : submit_state) (r : submitted_response) :
  let s' := submit_step ent user_id quiz_id s r in
  questions (ss_store s') = questions (ss_store s)
  /\ ss_total_correct s' =
     (ss_total_correct s + if answered_correctly (ss_store s) r then 1 else 0)%Z
  /\ (Z.abs (ss_total_time s' - ss_total_time s)
      <= Z.abs (default 0 (sr_time_spent r)))%Z.
Proof.
  unfold submit_step, answered_correctly.
  destruct (find_question (ss_store s) (sr_question_id r)) as [question|]; simpl.
  - repeat split; [|lia]. destruct (bool_decide _); lia.
  - repeat split; lia.
Qed.

Lemma submit_loop_spec (ent : submit_entropy) (user_id quiz_id : string)
    (responses : list submitted_response) :
  forall s : submit_state,
    Forall time_in_range responses ->
    let s' := fold_left (submit_step ent user_id quiz_id) responses s in
    questions (ss_store s') = questions (ss_store s)
    /\ ss_total_correct s' = (ss_total_correct s + correct_count (ss_store s) responses)%Z
    /\ (Z.abs (ss_total_time s' - ss_total_time s)
        <= Z.of_nat (length responses) * (2 ^ 1000 - 1))%Z.
Proof.
  induction responses as [|r responses IH]; intros s Hr.
  - simpl. unfold correct_count. simpl. repeat split; lia.
  - apply Forall_cons in Hr as [Hr Hrs]. cbn [fold_left].
    pose proof (submit_step_spec ent user_id quiz_id s r) as (H1 & H2 & H3).
    destruct (IH (submit_step ent user_id quiz_id s r) Hrs) as (G1 & G2 & G3).
    split; [congruence|]. split.
    + rewrite G2, H2. unfold correct_count. cbn [List.filter].
      rewrite (List.filter_ext _ _ (fun x => answered_correctly_same_catalog _ _ x H1)).
      destruct (answered_correctly (ss_store s) r); cbn [length]; lia.
    + unfold time_in_range in Hr. cbn [length]. lia.
Qed.

(** C5.  For a non-empty list of [N] responses (with times a float can
    hold), [k] of them answered correctly, [submit_quiz_response] returns
    [k] as ["correct_answers"], [N] as ["total_questions"], and as
    ["accuracy"] the binary64 value of [k / N * 100] rounded to two
    decimals by [round]. *)
Theorem submit_accuracy (ent : submit_entropy) (st : store) (user_id quiz_id : string)
    (responses : list submitted_response) :
  responses <> [] ->
  Forall time_in_range responses ->
  exists feedback,
    (submit_quiz_response ent st user_id quiz_id responses).1 = Ok feedback
    /\ fb_correct_answers feedback = correct_count st responses
    /\ fb_total_questions feedback = length responses
    /\ fb_accuracy feedback
       = VFloat (round2 (fmul (float_of_ratio (correct_count st responses)
                                 (Pos.of_nat (length responses)))
                              (Z2SF 100))).
Proof.
  intros Hne Hr. unfold submit_quiz_response.
  pose proof (submit_loop_spec ent user_id quiz_id responses
                {| ss_results := []; ss_total_correct := 0; ss_total_time := 0;
                   ss_saved := 0; ss_store := st |} Hr) as (_ & Hk & Ht).
  cbn [ss_total_correct ss_total_time ss_store] in Hk, Ht.
  set (s := fold_left _ responses _) in *.
  destruct responses as [|r responses]; [contradiction|].
  set (N := length (r :: responses)) in *.
  assert (HN : Z.of_nat N = Zpos (Pos.of_nat N)).
  { rewrite <- (Nat2Pos.id N) at 1 by (unfold N; simpl; lia). apply positive_nat_Z. }
  assert (Hk0 : (0 <= correct_count st (r :: responses) <= Z.of_nat N)%Z).
  { unfold correct_count, N. split; [lia|].
    apply inj_le. apply List.filter_length_le. }
  rewrite HN.
  rewrite (int_truediv_pos (ss_total_correct s)) by (rewrite Hk, <- HN; lia).
  rewrite (int_truediv_pos (ss_total_time s)) by (rewrite <- HN; lia).
  cbn [rbind fst]. eexists. split; [reflexivity|].
  cbn [fb_correct_answers fb_total_questions fb_accuracy round2_value].
  rewrite Hk. repeat split; reflexivity.
Qed.

(** *** A submission *)

Definition submission (question_id answer : string) : submitted_response :=
  {| sr_question_id := Some question_id; sr_answer := Some answer;
     sr_time_spent := Some 90%Z |}.

(** Two right answers, a wrong one. *)
Definition three_answers : list submitted_response :=
  [ submission "q1" "A"; submission "q2" "A"; submission "q3" "C" ].

Definition clock_and_ids : submit_entropy :=
  {| fresh_response_id := fun i => "response-" +:+ str_of_nat i;
     now_at := fun i => "2025-01-01T10:00:00" |}.

Lemma submit_accuracy_witness :
  exists feedback,
    (submit_quiz_response clock_and_ids (with_questions small_catalog)
       "mock-user" "quiz-1" three_answers).1 = Ok feedback
    /\ fb_correct_answers feedback = 2%Z
    /\ fb_accuracy feedback = VFloat (Prim2SF 66.67%float).
Proof.
  destruct (submit_accuracy clock_and_ids (with_questions small_catalog)
              "mock-user" "quiz-1" three_answers)
    as (feedback & H1 & H2 & _ & H4).
  - discriminate.
  - repeat constructor; vm_compute; reflexivity.
  - exists feedback. split; [exact H1|]. split.
    + rewrite H2. vm_compute. reflexivity.
    + rewrite H4. vm_compute. reflexivity.
Defined.

(** C5 as stated fails: one right answer out of one, with a time spent
    that no float can hold.  The accuracy would be 100.0, but the average
    time of the same [return] statement is an integer division whose
    result is too large, and [submit_quiz_response] raises instead of
    returning (the answer has been recorded by then). *)
Lemma huge_time_spent_raises :
  let out :=
    submit_quiz_response clock_and_ids (with_questions small_catalog) "mock-user"
      "quiz-1"
      [ {| sr_question_id := Some "q1"; sr_answer := Some "A";
           sr_time_spent := Some (2 ^ 1100)%Z |} ] in
  correct_count (with_questions small_catalog)
    [ {| sr_question_id := Some "q1"; sr_answer := Some "A";
         sr_time_spent := Some (2 ^ 1100)%Z |} ] = 1%Z
  /\ out.1 = Raise (OtherException "OverflowError"
                      "integer division result too large for a float")
  /\ length (get_quiz_responses out.2 "mock-user") = 1.
Proof. repeat split; vm_compute; reflexivity. Qed.

(** A response that references no question of the catalog counts in [N]
    and not in [k]: one right answer out of two responses is 50.0. *)
Example unknown_question_counts_in_total :
  exists feedback,
    (submit_quiz_response clock_and_ids (with_questions small_catalog)
       "mock-user" "quiz-1" [submission "q1" "A"; submission "nowhere" "A"]).1
    = Ok feedback
    /\ fb_total_questions feedback = 2
    /\ fb_correct_answers feedback = 1%Z
    /\ fb_accuracy feedback = VFloat (Prim2SF 50%float)
    /\ fb_performance_level feedback = "needs_improvement".
Proof. eexists. split; [vm_compute; reflexivity|]. repeat split; vm_compute; reflexivity. Qed.

(** The topics a config names come back as the quiz's ["focus_areas"],
    whether or not a question has them. *)
Example requested_topics_are_reported :
  exists q,
    (generate_adaptive_quiz repr0 some_entropy (with_questions small_catalog)
       "mock-user"
       {| cfg_size := Some 3%Z; cfg_test_type := None; cfg_section := VNone;
          cfg_topics := [VStr "hiccup"] |}).1 = Ok (QuizCreated q)
    /\ qc_focus_areas q = [VStr "hiccup"]
    /\ qc_section q = VStr "mixed".
Proof. eexists. split; [vm_compute; reflexivity|]. split; reflexivity. Qed.

End QuizManagementFacts.

(** ** storage/memory_store.py *)

Module MemoryStoreFacts.
Import QuizManagementFacts.

(** The whole history of a session, as stored. *)
Definition stored_history (st : store) (session_id : string) : list conversation_message :=
  default [] (conversation_history st !! session_id).

Lemma last_n_suffix {A} (n : nat) (l : list A) : l = take (length l - n) l ++ last_n n l.
Proof. unfold last_n. symmetry. apply take_drop. Qed.

Lemma last_n_length {A} (n : nat) (l : list A) : length (last_n n l) = n `min` length l.
Proof. unfold last_n. rewrite length_drop. lia. Qed.

Lemma last_n_snoc {A} (n : nat) (l : list A) (x : A) :
  0 < n -> last (last_n n (l ++ [x])) = Some x.
Proof.
  intros Hn. unfold last_n. rewrite length_app. simpl.
  rewrite drop_app_le by lia. apply last_snoc.
Qed.

(** X1.  After [add_conversation_message], [get_conversation_history]
    with a positive [limit] returns the last [limit] messages of the
    session, the new one last; the histories of the other sessions are
    as before. *)
Theorem history_window (st : store) (session_id : string) (m : conversation_message)
    (limit : nat) :
  0 < limit ->
  let st' := add_conversation_message st session_id m in
  let window := get_conversation_history st' session_id limit in
  last window = Some m
  /\ length window = limit `min` S (length (stored_history st session_id))
  /\ (exists older, stored_history st session_id ++ [m] = older ++ window)
  /\ (forall other limit', other <> session_id ->
        get_conversation_history st' other limit'
        = get_conversation_history st other limit').
Proof.
  intros Hl st' window. subst st' window.
  unfold get_conversation_history, add_conversation_message, stored_history. simpl.
  rewrite lookup_insert_eq. simpl.
  split; [apply last_n_snoc; exact Hl|].
  split; [rewrite last_n_length, length_app; simpl; f_equal; lia|].
  split.
  - eexists. apply last_n_suffix.
  - intros other limit' Hne. rewrite lookup_insert_ne by congruence. reflexivity.
Qed.

Definition hello : conversation_message :=
  {| cm_message_type := "user"; cm_content := "hello"; cm_tool_calls := None;
     cm_timestamp := "2024-05-01T10:00:00" |}.

Lemma history_window_witness :
  0 < 10
  /\ last (get_conversation_history
             (add_conversation_message UserProfileFacts.two_users "s1" hello) "s1" 10)
     = Some hello.
Proof.
  split; [lia|].
  apply (history_window UserProfileFacts.two_users "s1" hello 10). lia.
Defined.

(** A question passes the filters: each key present in [filters] holds
    the question's value, or, for a list under ["difficulty"], one of
    its items does. *)
Definition passes (filters : question_filters) (q : question) : bool :=
  match f_test_type filters with
  | Some v => eq_opt_str (q_test_type q) v | None => true end
  && match f_section filters with
     | Some v => eq_opt_str (q_section q) v | None => true end
  && match f_topic filters with
     | Some v => eq_opt_str (q_topic q) v | None => true end
  && match f_difficulty filters with
     | Some (VList l) => existsb (eq_opt_str (q_difficulty q)) l
     | Some v => eq_opt_str (q_difficulty q) v
     | None => true
     end.

Lemma filter_filter {A} (f g : A -> bool) (l : list A) :
  List.filter g (List.filter f l) = List.filter (fun x => f x && g x) l.
Proof.
  induction l as [|x l IH]; simpl; [reflexivity|].
  destruct (f x); simpl; [|exact IH].
  destruct (g x); simpl; [f_equal|]; exact IH.
Qed.

Lemma filter_by_filter (flt : option pyval) (keep : pyval -> question -> bool)
    (qs : list question) :
  filter_by flt keep qs
  = List.filter (fun q => match flt with Some v => keep v q | None => true end) qs.
Proof.
  destruct flt; simpl; [reflexivity|].
  induction qs as [|q qs IH]; simpl; [reflexivity | f_equal; exact IH].
Qed.

Lemma get_questions_filter (st : store) (filters : question_filters) (limit : nat) :
  get_questions st filters limit
  = take limit (List.filter (passes filters) (questions st)).
Proof.
  unfold get_questions. f_equal.
  rewrite !filter_by_filter, !filter_filter.
  apply List.filter_ext. intros q. unfold passes.
  destruct (f_difficulty filters) as [[]|]; rewrite ?andb_assoc; reflexivity.
Qed.

Lemma get_questions_pass (st : store) (filters : question_filters) (limit : nat)
    (q : question) :
  q ∈ get_questions st filters limit -> q ∈ questions st /\ passes filters q = true.
Proof.
  rewrite get_questions_filter. intros Hq.
  apply elem_of_take in Hq as (i & Hq & _).
  apply list_elem_of_lookup_2 in Hq.
  apply elem_of_filter_bool in Hq. exact Hq.
Qed.

(** X2.  [get_questions] returns the first [limit] catalog questions
    that pass every filter given, in catalog order: the successive
    filtering steps amount to one test per question. *)
Theorem get_questions_spec (st : store) (filters : question_filters) (limit : nat) :
  get_questions st filters limit
  = take limit (List.filter (passes filters) (questions st))
  /\ length (get_questions st filters limit) <= limit
  /\ Forall (fun q => q ∈ questions st /\ passes filters q = true)
            (get_questions st filters limit).
Proof.
  split; [apply get_questions_filter|]. split.
  - rewrite get_questions_filter, length_take. lia.
  - apply Forall_forall. intros q. apply get_questions_pass.
Qed.

End MemoryStoreFacts.

(** ** The profile after an update *)

Module ProfileFacts.
Import UserProfile UserProfileFacts DictFacts.

(** The profile fields read with a plain [user.get]. *)
Definition plain_fields : list string :=
  [ "name"; "test_type"; "target_score"; "test_date"; "baseline_score";
    "current_level"; "study_hours_per_week" ].

Lemma dict_set_nonempty (d : pydict) (k : string) (v : pyval) : dict_set d k v <> [].
Proof. destruct d as [|[k0 v0] d]; simpl; [|destruct (String.eqb k0 k)]; discriminate. Qed.

Lemma dict_update_nonempty (u d : pydict) : d <> [] -> dict_update d u <> [].
Proof.
  unfold dict_update. revert d. induction u as [|[k v] u IH]; intros d Hd; simpl.
  - exact Hd.
  - apply IH. apply dict_set_nonempty.
Qed.

Lemma profile_field (days_until : string -> option Z) (st : store)
    (user_id field : string) (user : pydict) :
  users st !! user_id = Some user -> user <> [] ->
  field ∈ "user_id" :: "email" :: plain_fields ->
  dict_get (get_user_profile days_until st user_id) field = dict_get user field.
Proof.
  intros Hu Hne Hf. unfold get_user_profile, get_user. rewrite Hu.
  destruct user as [|kv user]; [contradiction|].
  unfold plain_fields in Hf. rewrite !elem_of_cons, elem_of_nil in Hf.
  destruct Hf as [->|[->|[->|[->|[->|[->|[->|[->|[->|[]]]]]]]]]]; reflexivity.
Qed.

(** X3.  After [update_user_profile] on an existing user,
    [get_user_profile] shows the supplied value under every updated
    field it reads with a plain [get], the old value under the fields
    not updated, and the old ["user_id"] and ["email"] whatever the
    update holds. *)
Theorem profile_reflects_update (days_until : string -> option Z) (st : store)
    (user_id : string) (user updates : pydict) :
  users st !! user_id = Some user -> user <> [] ->
  let before := get_user_profile days_until st user_id in
  let after :=
    get_user_profile days_until (update_user_profile st user_id updates).2 user_id in
  dict_get after "user_id" = dict_get before "user_id"
  /\ dict_get after "email" = dict_get before "email"
  /\ forall field, field ∈ plain_fields ->
       dict_get after field =
       match dict_lookup (rev updates) field with
       | Some v => v
       | None => dict_get before field
       end.
Proof.
  intros Hu Hne before after.
  assert (Hu' : users (update_user_profile st user_id updates).2 !! user_id
                = Some (dict_update user (safe_updates_of updates))).
  { unfold update_user_profile, update_user. rewrite Hu. simpl. apply lookup_insert_eq. }
  assert (Hne' : dict_update user (safe_updates_of updates) <> [])
    by (apply dict_update_nonempty; exact Hne).
  assert (Hb : forall field, field ∈ "user_id" :: "email" :: plain_fields ->
                 dict_get before field = dict_get user field).
  { intros field Hf. eapply profile_field; eauto. }
  assert (Ha : forall field, field ∈ "user_id" :: "email" :: plain_fields ->
                 dict_get after field
                 = dict_get (dict_update user (safe_updates_of updates)) field).
  { intros field Hf. eapply profile_field; eauto. }
  split; [|split].
  - rewrite Ha, Hb by (rewrite !elem_of_cons; auto).
    unfold dict_get. rewrite dict_lookup_update, safe_updates_protected; reflexivity.
  - rewrite Ha, Hb by (rewrite !elem_of_cons; auto).
    unfold dict_get. rewrite dict_lookup_update, safe_updates_protected; reflexivity.
  - intros field Hf.
    rewrite Ha, Hb by (rewrite !elem_of_cons; auto).
    unfold dict_get. rewrite dict_lookup_update, safe_updates_other.
    + destruct (dict_lookup (rev updates) field); reflexivity.
    + unfold plain_fields in Hf. rewrite !elem_of_cons, elem_of_nil in Hf.
      destruct Hf as [->|[->|[->|[->|[->|[->|[->|[]]]]]]]]; reflexivity.
Qed.

Lemma profile_reflects_update_witness :
  users two_users !! "mock-user" = Some suzy /\ suzy <> []
  /\ dict_get (get_user_profile LlmClientFacts.days0
                 (update_user_profile two_users "mock-user" hostile_updates).2
                 "mock-user") "target_score" = VInt 1500
  /\ dict_get (get_user_profile LlmClientFacts.days0
                 (update_user_profile two_users "mock-user" hostile_updates).2
                 "mock-user") "email" = VStr "student@example.com".
Proof.
  split; [reflexivity|]. split; [discriminate|].
  destruct (profile_reflects_update LlmClientFacts.days0 two_users "mock-user" suzy
              hostile_updates) as (_ & H2 & H3); [reflexivity | discriminate |].
  split.
  - rewrite H3 by (unfold plain_fields; rewrite !elem_of_cons; auto). reflexivity.
  - rewrite H2. reflexivity.
Defined.

End ProfileFacts.

(** ** tools/performance_analysis.py *)

Module PerformanceAnalysisFacts.
Import PerformanceAnalysis LlmClient.

(** The sections of a stored test have a length. *)
Definition sized_sections (test : pydict) : Prop :=
  is_ok (py_len (dict_get_default test "sections" (VDict []))) = true.

Lemma report_sections (test : pydict) :
  dict_get_default (test_report test) "sections" (VDict [])
  = dict_get_default test "sections" (VDict []).
Proof. reflexivity. Qed.

Lemma last_snoc_default {A} (l : list A) (x d : A) : List.last (l ++ [x]) d = x.
Proof. apply List.last_last. Qed.

(** X4.  The test that [get_latest_test_results] reports when no
    [test_id] is given is the one added last by [add_test_result]: the
    dict returned holds its id, type, total score, date, sections and
    status, marked as a success.  The results of the other users are
    not touched. *)
Theorem latest_test_is_last_added (st : store) (user_id : string) (r : pydict) :
  sized_sections r ->
  get_latest_test_results (add_test_result st user_id r) user_id None
  = Ok [ ("success", VBool true);
         ("test_id", dict_get r "test_id");
         ("test_type", dict_get r "test_type");
         ("total_score", dict_get r "total_score");
         ("date_taken", dict_get r "date_taken");
         ("sections", dict_get_default r "sections" (VDict []));
         ("completion_status", dict_get r "completion_status");
         ("message", VStr "Test results found successfully") ]
  /\ get_test_results (add_test_result st user_id r) user_id
     = get_test_results st user_id ++ [r]
  /\ forall other, other <> user_id ->
       get_test_results (add_test_result st user_id r) other
       = get_test_results st other.
Proof.
  intros Hs.
  assert (E : get_test_results (add_test_result st user_id r) user_id
              = get_test_results st user_id ++ [r]).
  { unfold get_test_results, add_test_result. simpl. rewrite lookup_insert_eq.
    reflexivity. }
  split; [|split; [exact E|]].
  - unfold get_latest_test_results. rewrite E.
    destruct (get_test_results st user_id ++ [r]) as [|t0 rest] eqn:El.
    + destruct (get_test_results st user_id); discriminate.
    + rewrite <- El, last_snoc_default, report_sections.
      unfold sized_sections in Hs.
      destruct (py_len _); [reflexivity | discriminate].
  - intros other Hne. unfold get_test_results, add_test_result. simpl.
    rewrite lookup_insert_ne by congruence. reflexivity.
Qed.

Definition practice_test : pydict :=
  [ ("test_id", VStr "t-2"); ("test_type", VStr "SAT"); ("total_score", VInt 800);
    ("sections", VDict [ ("reading", VDict [ ("score", VInt 240);
                                             ("percentile", VInt 85) ]) ]);
    ("completion_status", VStr "completed") ].

Lemma latest_test_is_last_added_witness :
  sized_sections practice_test
  /\ get_latest_test_results
       (add_test_result UserProfileFacts.two_users "mock-user" practice_test)
       "mock-user" None
     = Ok [ ("success", VBool true);
            ("test_id", VStr "t-2");
            ("test_type", VStr "SAT");
            ("total_score", VInt 800);
            ("date_taken", VNone);
            ("sections",
             VDict [ ("reading", VDict [ ("score", VInt 240);
                                         ("percentile", VInt 85) ]) ]);
            ("completion_status", VStr "completed");
            ("message", VStr "Test results found successfully") ].
Proof.
  split; [reflexivity|].
  apply (latest_test_is_last_added UserProfileFacts.two_users "mock-user" practice_test).
  reflexivity.
Defined.

(** What [get_latest_test_results] returns is an error dict or the
    report of some test. *)
Lemma latest_test_shape (st : store) (user_id : string) (test_id : option string)
    (d : pydict) :
  get_latest_test_results st user_id test_id = Ok d ->
  (truthy (dict_get d "error") = true /\ dict_has d "success" = false)
  \/ (exists test, d = test_report test).
Proof.
  unfold get_latest_test_results.
  destruct (get_test_results st user_id) as [|t0 rest].
  { intros [= <-]. left. split; reflexivity. }
  assert (Hr : forall test,
             rbind (py_len (dict_get_default (test_report test) "sections" (VDict [])))
                   (fun _ => Ok (test_report test)) = Ok d ->
             exists test, d = test_report test).
  { intros test H. destruct (py_len _); [|discriminate].
    injection H as <-. eauto. }
  destruct test_id as [[|c tid]|]; try (intros H; right; eapply Hr; exact H).
  destruct (List.find _ (t0 :: rest)) as [[|kv test]|].
  - intros [= <-]. left. split; reflexivity.
  - intros H. right. eapply Hr. exact H.
  - intros [= <-]. left. split; reflexivity.
Qed.

(** X5.  Whatever [get_latest_test_results] returns is either an error
    dict (no ["success"] key) or the report of one of the user's own
    stored tests: the most recent one when no [test_id] is given, one
    with the requested id otherwise.  With no stored result it is an
    error dict. *)
Theorem test_report_is_of_a_stored_test (st : store) (user_id : string)
    (test_id : option string) (d : pydict) :
  get_latest_test_results st user_id test_id = Ok d ->
  (truthy (dict_get d "error") = true /\ dict_has d "success" = false)
  \/ (exists test,
        test ∈ get_test_results st user_id
        /\ d = test_report test
        /\ dict_has d "error" = false
        /\ match test_id with
           | Some ((String _ _) as tid) => dict_get test "test_id" = VStr tid
           | _ => last (get_test_results st user_id) = Some test
           end).
Proof.
  unfold get_latest_test_results.
  destruct (get_test_results st user_id) as [|t0 rest] eqn:E.
  { intros [= <-]. left. split; reflexivity. }
  assert (Hlast : last (t0 :: rest) = Some (List.last (t0 :: rest) [])).
  { clear. revert t0. induction rest as [|t1 rest IH]; intros t0; [reflexivity|].
    specialize (IH t1). simpl in *. exact IH. }
  assert (Hr : forall test,
             rbind (py_len (dict_get_default (test_report test) "sections" (VDict [])))
                   (fun _ => Ok (test_report test)) = Ok d ->
             d = test_report test /\ dict_has d "error" = false).
  { intros test H. destruct (py_len _); [|discriminate].
    injection H as <-. split; reflexivity. }
  destruct test_id as [[|c tid]|].
  - intros H. apply Hr in H as [H1 H2]. right.
    exists (List.last (t0 :: rest) []). repeat split; try assumption.
    apply list_elem_of_lookup. rewrite last_lookup in Hlast. eauto.
  - destruct (List.find _ (t0 :: rest)) as [[|kv test]|] eqn:F.
    + intros [= <-]. left. split; reflexivity.
    + intros H. apply Hr in H as [H1 H2]. right.
      exists (kv :: test). apply find_some in F as [F1 F2].
      repeat split; try assumption.
      * apply list_elem_of_In. exact F1.
      * destruct (dict_get (kv :: test) "test_id"); simpl in F2; try discriminate.
        apply String.eqb_eq in F2. congruence.
    + intros [= <-]. left. split; reflexivity.
  - intros H. apply Hr in H as [H1 H2]. right.
    exists (List.last (t0 :: rest) []). repeat split; try assumption.
    apply list_elem_of_lookup. rewrite last_lookup in Hlast. eauto.
Qed.

Lemma test_report_is_of_a_stored_test_witness :
  exists test,
    test ∈ get_test_results
             (add_test_result UserProfileFacts.two_users "mock-user" practice_test)
             "mock-user"
    /\ test_report practice_test = test_report test
    /\ dict_get test "test_id" = VStr "t-2".
Proof.
  destruct (test_report_is_of_a_stored_test
              (add_test_result UserProfileFacts.two_users "mock-user" practice_test)
              "mock-user" (Some "t-2") (test_report practice_test) eq_refl)
    as [[H _]|(test & H1 & H2 & _ & H4)].
  - discriminate.
  - exists test. split; [exact H1|]. split; [exact H2|exact H4].
Defined.

Section Validator.

Variable json_loads : string -> option pyval.
Variable json_dumps : pyval -> string.

(** The tool message the loop builds from what the function returned. *)
Definition test_results_message (tool_call_id_ : string) (d : pydict) : message :=
  {| role := "tool"; content := Some (json_dumps (VDict d)); msg_tool_calls := None;
     tool_call_id := Some tool_call_id_; name := Some "get_latest_test_results" |}.

(** X6.  The post-processor takes the tool message of
    [get_latest_test_results] for a success payload exactly when the
    function reported a test whose total score is truthy: an error dict
    is never taken for data.  (The serialized dict is assumed to parse
    back to itself.) *)
Theorem reported_test_is_a_success_payload (st : store) (user_id call_id : string)
    (test_id : option string) (d : pydict) :
  get_latest_test_results st user_id test_id = Ok d ->
  json_loads (json_dumps (VDict d)) = Some (VDict d) ->
  success_payload json_loads "get_latest_test_results" "total_score"
    (test_results_message call_id d)
  = if negb (dict_has d "error") && truthy (dict_get d "total_score")
    then Some d else None.
Proof.
  intros Hd Hj. unfold success_payload, test_results_message. simpl.
  rewrite Hj.
  apply latest_test_shape in Hd as [[H1 H2]|(test & ->)].
  - unfold dict_has, dict_get in *.
    destruct (dict_lookup d "success"); [discriminate|]. simpl.
    destruct (dict_lookup d "error"); [reflexivity | simpl in H1; discriminate].
  - reflexivity.
Qed.

End Validator.

Lemma reported_test_is_a_success_payload_witness :
  success_payload (fun _ => Some (VDict (test_report practice_test)))
    "get_latest_test_results" "total_score"
    (test_results_message LlmClientFacts.dumps0 "call-1" (test_report practice_test))
  = Some (test_report practice_test).
Proof.
  rewrite (reported_test_is_a_success_payload
             (fun _ => Some (VDict (test_report practice_test))) LlmClientFacts.dumps0
             (add_test_result UserProfileFacts.two_users "mock-user" practice_test)
             "mock-user" "call-1" None (test_report practice_test));
    reflexivity.
Defined.

End PerformanceAnalysisFacts.

(** ** agents/llm_client.py: more on the loop *)

Module LoopFacts.
Import LlmClient DictFacts LlmClientFacts.

Section Loop.
Set Default Proof Using "Type".

Variable system_prompt : string.
Variable json_loads : string -> option pyval.
Variable json_dumps : pyval -> string.
Variable repr_other : pyval -> string.
Variable str_title : string -> string.
Variable llm : list message -> result llm_response.
Variable tools : list tool_spec.
Variable tool_map : gmap string tool.

Local Abbreviation exec := (execute_tool tool_map).
Local Abbreviation ptc := (process_tool_call json_loads json_dumps tools tool_map).
Local Abbreviation loop := (tool_loop json_loads json_dumps llm tools tool_map).
Local Abbreviation validate :=
  (validate_response_against_tools json_loads repr_other str_title).
Local Abbreviation pwt :=
  (process_with_tools json_loads json_dumps repr_other str_title llm tools tool_map).
Local Abbreviation pm :=
  (process_message system_prompt json_loads json_dumps repr_other str_title
     llm tools tool_map).

(** *** How many requests a turn sends *)

Lemma tool_loop_bound (user_id : string) (fuel : nat) :
  forall (response : llm_response) (s : agent_state),
    let out := loop fuel user_id response s in
    length (a_requests s) <= length (a_requests out.2) <= length (a_requests s) + fuel
    /\ a_iterations s <= a_iterations out.2 <= a_iterations s + fuel.
Proof.
  induction fuel as [|fuel IH]; intros response s.
  - simpl. lia.
  - rewrite tool_loop_step.
    destruct (String.eqb _ _); [|simpl; lia].
    destruct (resp_tool_calls response) as [calls|]; [|simpl; lia].
    pose proof (for_each_log json_loads json_dumps tools tool_map user_id calls
                  (append_message (assistant_message response calls)
                     (next_iteration s))) as (H1 & H2 & _).
    destruct (for_each calls _ _) as [[[]|e] s2]; simpl in H1, H2.
    2:{ simpl. rewrite H1, H2. lia. }
    destruct (llm (a_messages s2)) as [response'|e].
    2:{ simpl. rewrite length_app, H1, H2. simpl. lia. }
    specialize (IH response' (log_request s2)). simpl in IH.
    rewrite length_app, H1, H2 in IH. simpl in IH. simpl. lia.
Qed.

(** X7.  Whatever the model answers and whatever the tools do, a call
    of [process_message] sends at least one and at most six requests to
    the model ([max_iterations] + 1), and runs at most [max_iterations]
    rounds of tool calls. *)
Theorem requests_per_turn_are_bounded (user_id user_message : string)
    (history : list message) (s : agent_state) :
  let out := pm user_id user_message history s in
  length (a_requests s) < length (a_requests out.2)
  /\ length (a_requests out.2) <= length (a_requests s) + S max_iterations
  /\ a_iterations out.2 <= max_iterations.
Proof.
  rewrite process_message_unfold, process_with_tools_unfold.
  set (s0 := begin_turn _ s).
  destruct (llm (a_messages s0)) as [response|e].
  2:{ simpl. rewrite length_app. simpl. unfold max_iterations. lia. }
  pose proof (tool_loop_bound user_id max_iterations response (log_request s0))
    as (H1 & H2).
  destruct (loop max_iterations user_id response (log_request s0)) as [[r|e] s'];
    simpl in H1, H2; rewrite length_app in H1; simpl in H1.
  - destruct (validate _ _ _); simpl; lia.
  - simpl; lia.
Qed.

(** *** Every tool call gets its answer *)

(** The message answers the tool call: a tool message carrying the id
    and the function name of the call, with some content. *)
Definition answers (tc : tool_call) (m : message) : Prop :=
  role m = "tool" /\ tool_call_id m = Some (tc_id tc) /\ name m = Some (tc_name tc)
  /\ is_Some (content m) /\ msg_tool_calls m = None.

Lemma process_tool_call_messages (user_id : string) (tc : tool_call) (s : agent_state) :
  match ptc user_id tc s with
  | (Ok _, s') =>
      exists m, answers tc m /\ a_messages s' = a_messages s ++ [m]
                /\ length (a_tool_calls_made s') = S (length (a_tool_calls_made s))
  | (Raise _, s') => s' = s
  end.
Proof.
  rewrite process_tool_call_unfold.
  destruct (inject_user_id tools user_id (tc_name tc) _) as [arguments|e]; [|reflexivity].
  pose proof (execute_tool_state tool_map (tc_name tc) arguments s) as (H1 & H2 & _).
  exists (tool_message json_dumps tc (exec (tc_name tc) arguments s).1).
  split; [|split].
  - unfold answers, tool_message. simpl. repeat split. eexists. reflexivity.
  - simpl. rewrite H1. reflexivity.
  - simpl. rewrite length_app, H2. simpl. lia.
Qed.

(** X8.  The loop over the tool calls of a response appends one tool
    message per call, in the order of the calls, each carrying the id
    and the function name of its call; when the loop completes, every
    call has its message.  (It stops early only on an exception of the
    injection step, having answered the calls before.) *)
Theorem tool_calls_are_answered_in_order (user_id : string) (calls : list tool_call)
    (s : agent_state) :
  let out := for_each calls (ptc user_id) s in
  exists replies,
    a_messages out.2 = a_messages s ++ replies
    /\ Forall2 answers (take (length replies) calls) replies
    /\ (out.1 = Ok tt -> length replies = length calls)
    /\ length (a_tool_calls_made out.2)
       = length (a_tool_calls_made s) + length replies.
Proof.
  revert s. induction calls as [|tc calls IH]; intros s.
  - exists []. simpl. rewrite app_nil_r. repeat split; try lia. constructor.
  - rewrite for_each_cons.
    pose proof (process_tool_call_messages user_id tc s) as H.
    destruct (ptc user_id tc s) as [[[]|e] s1].
    + destruct H as (m & Hm & H1 & H2).
      destruct (IH s1) as (replies & G1 & G2 & G3 & G4).
      exists (m :: replies). split; [|split; [|split]].
      * rewrite G1, H1, <- app_assoc. reflexivity.
      * simpl. constructor; assumption.
      * intros Hok. simpl. f_equal. apply G3. exact Hok.
      * rewrite G4, H2. simpl. lia.
    + subst s1. exists []. simpl. rewrite app_nil_r.
      repeat split; try lia; [constructor | discriminate].
Qed.

(** *** A response that asks for no tool *)

Lemma no_payload_without_name (tool_name field : string) (messages : list message) :
  Forall (fun m => name m = None) messages ->
  last_success json_loads tool_name field messages = None.
Proof.
  intros H. induction messages as [|m messages IH] using rev_ind.
  - reflexivity.
  - apply Forall_app in H as [H1 Hm]. apply Forall_inv in Hm. simpl in Hm.
    rewrite last_success_snoc, IH by exact H1. unfold success_payload. rewrite Hm.
    rewrite bool_decide_eq_false_2 by discriminate.
    rewrite andb_false_r. reflexivity.
Qed.

Lemma last_n_Forall {A} (P : A -> Prop) (n : nat) (l : list A) :
  Forall P l -> Forall P (last_n n l).
Proof. intros H. unfold last_n. apply Forall_drop. exact H. Qed.

(** X9.  When the first response of the model does not ask for tool
    calls and carries a text, [process_message] returns that text
    unchanged, whether or not it holds a no-data phrase (the history
    being made of plain role/content messages, as the orchestrator
    builds it): one request was sent, no tool was run, and the store is
    as before. *)
Theorem plain_answer_is_returned (user_id user_message text : string)
    (history : list message) (response : llm_response) (s : agent_state) :
  llm (turn_messages system_prompt user_message history) = Ok response ->
  finish_reason response <> "tool_calls" ->
  resp_content response = Some text ->
  Forall (fun m => name m = None) history ->
  let out := pm user_id user_message history s in
  out.1 = {| tr_message := text; tr_error := None; tr_error_code := None;
             tr_tool_calls_made := 0; tr_tools_used := [] |}
  /\ a_requests out.2
     = a_requests s ++ [turn_messages system_prompt user_message history]
  /\ a_executed out.2 = a_executed s
  /\ a_store out.2 = a_store s.
Proof.
  intros Hq Hf Ht Hh.
  rewrite process_message_unfold, process_with_tools_unfold.
  cbn [begin_turn a_messages]. rewrite Hq.
  unfold max_iterations. rewrite tool_loop_step.
  apply String.eqb_neq in Hf. rewrite Hf, Ht.
  assert (Hnone : forall tool_name field,
             last_success json_loads tool_name field
               (turn_messages system_prompt user_message history) = None).
  { intros tool_name field. apply no_payload_without_name.
    unfold turn_messages. apply Forall_app. split; [repeat constructor|].
    apply Forall_app. split; [apply last_n_Forall; exact Hh | repeat constructor]. }
  unfold validate_response_against_tools. cbn [log_request a_messages].
  rewrite !Hnone.
  destruct (claimed_error text); simpl; repeat split.
Qed.

End Loop.

(** A model that answers in plain text, with a no-data phrase. *)
Definition chatty_model (messages : list message) : result llm_response :=
  Ok {| finish_reason := "stop";
        resp_content := Some "You haven't taken a test yet.";
        resp_tool_calls := None |}.

Lemma plain_answer_is_returned_witness :
  claimed_error "You haven't taken a test yet." = true
  /\ tr_message
       (process_message "prompt" loads_nothing dumps0 repr0 ascii_title chatty_model
          define_tools the_tool_map "mock-user" "how am I doing?" [] fresh_state).1
     = "You haven't taken a test yet.".
Proof.
  split; [vm_compute; reflexivity|].
  destruct (plain_answer_is_returned "prompt" loads_nothing dumps0 repr0 ascii_title
              chatty_model define_tools the_tool_map "mock-user" "how am I doing?"
              "You haven't taken a test yet." []
              {| finish_reason := "stop";
                 resp_content := Some "You haven't taken a test yet.";
                 resp_tool_calls := None |} fresh_state) as [H _];
    [reflexivity | discriminate | reflexivity | constructor |].
  rewrite H. reflexivity.
Defined.

(** *** A function the agent does not have *)

Lemma undeclared_params (function_name : string) :
  function_name ∉ map fst signatures ->
  get_function_params define_tools function_name = []
  /\ function_name ∉ map fst signatures.
Proof.
  intros Hn. split; [|exact Hn].
  unfold get_function_params, define_tools. cbn [List.find ts_name].
  repeat match goal with
         | |- context [String.eqb ?a function_name] =>
             destruct (String.eqb_spec a function_name) as [E|_];
             [exfalso; apply Hn; rewrite <- E;
              apply (bool_decide_unpack _); vm_compute; reflexivity|]
         end.
  reflexivity.
Qed.

(** X10.  A tool call naming a function that is not in the tool map is
    answered, whatever its arguments, by a tool message whose content
    is the serialized dict [{"error": "Unknown function: <name>"}]: the
    loop body returns normally, the call is recorded among the tool
    calls made, no tool function runs and the store is as before. *)
Theorem unknown_function_is_reported (days_until : string -> option Z)
    (body : string -> tool) (json_loads : string -> option pyval)
    (json_dumps : pyval -> string) (user_id : string) (tc : tool_call)
    (s : agent_state) :
  tc_name tc ∉ map fst signatures ->
  let out :=
    process_tool_call json_loads json_dumps define_tools
      (create_tool_map days_until body) user_id tc s in
  out.1 = Ok tt
  /\ a_messages out.2
     = a_messages s
       ++ [ {| role := "tool";
               content :=
                 Some (json_dumps
                         (VDict [("error", VStr ("Unknown function: " +:+ tc_name tc))]));
               msg_tool_calls := None;
               tool_call_id := Some (tc_id tc);
               name := Some (tc_name tc) |} ]
  /\ a_tool_calls_made out.2
     = a_tool_calls_made s
       ++ [(tc_name tc, default (VDict []) (json_loads (tc_arguments tc)))]
  /\ a_executed out.2 = a_executed s
  /\ a_store out.2 = a_store s
  /\ a_requests out.2 = a_requests s.
Proof.
  intros Hn out. subst out. rewrite process_tool_call_unfold.
  unfold inject_user_id.
  destruct (undeclared_params (tc_name tc) Hn) as [-> _].
  rewrite bool_decide_eq_false_2 by apply not_elem_of_nil.
  unfold execute_tool, create_tool_map.
  rewrite (not_elem_of_list_to_map_1 _ (tc_name tc)) by exact Hn.
  repeat split.
Qed.

Definition stray_call : tool_call :=
  {| tc_id := "call-9"; tc_name := "delete_user"; tc_arguments := "{}" |}.

Lemma unknown_function_is_reported_witness :
  a_messages (process_tool_call loads_nothing dumps0 define_tools the_tool_map
                "mock-user" stray_call fresh_state).2
  = [ {| role := "tool";
         content :=
           Some (dumps0 (VDict [("error", VStr "Unknown function: delete_user")]));
         msg_tool_calls := None;
         tool_call_id := Some "call-9";
         name := Some "delete_user" |} ]
  /\ a_store (process_tool_call loads_nothing dumps0 define_tools the_tool_map
                "mock-user" stray_call fresh_state).2
     = a_store fresh_state.
Proof.
  destruct (unknown_function_is_reported days0 body0 loads_nothing dumps0
              "mock-user" stray_call fresh_state)
    as (_ & H2 & _ & _ & H5 & _).
  - apply (bool_decide_unpack _). vm_compute. reflexivity.
  - split; [exact H2 | exact H5].
Defined.

End LoopFacts.

(** ** The key, from the settings to the client *)

Module TestPrepAgentFacts.
Import Config TestPrepAgent ConfigFacts.

Lemma lstrip_head (s : string) :
  lstrip s = "" \/ exists c t, lstrip s = String c t /\ is_space c = false.
Proof.
  induction s as [|c s IH]; simpl; [left; reflexivity|].
  destruct (is_space c) eqn:E; [exact IH|]. right. eauto.
Qed.

Lemma rstrip_head (c : ascii) (t : string) :
  is_space c = false -> exists t', rstrip (String c t) = String c t'.
Proof.
  intros E. simpl. destruct (rstrip t); [rewrite E|]; eauto.
Qed.

Lemma rstrip_idem (s : string) : rstrip (rstrip s) = rstrip s.
Proof.
  induction s as [|c s IH]; simpl; [reflexivity|].
  destruct (rstrip s) as [|d r] eqn:E.
  - destruct (is_space c) eqn:Ec; simpl; [reflexivity|]. rewrite Ec. reflexivity.
  - change (rstrip (String c (String d r))) with
      (match rstrip (String d r) with
       | EmptyString => if is_space c then EmptyString else String c EmptyString
       | r' => String c r'
       end).
    rewrite IH. reflexivity.
Qed.

(** [strip] leaves a stripped string as it is. *)
Lemma strip_idem (s : string) : strip (strip s) = strip s.
Proof.
  unfold strip.
  destruct (lstrip_head s) as [->|(c & t & -> & Ec)]; [reflexivity|].
  destruct (rstrip_head c t Ec) as [t' E].
  rewrite E. simpl. rewrite Ec, <- E. apply rstrip_idem.
Qed.

(** X11.  The settings that [get_settings] returns start the agent:
    [__init__] does not raise on them, hands the client the very key of
    the settings (stripping it again changes nothing), and never prints
    the warning about a short key; the warning about the prefix is
    printed exactly for a key that does not start with ["sk-"]. *)
Theorem validated_key_starts_the_agent (v environment : string) (debug : bool)
    (settings : Settings) :
  get_settings (Some v) environment debug = Ok settings ->
  (init settings).2 = Ok (OPENAI_API_KEY settings)
  /\ OPENAI_API_KEY settings = strip v
  /\ (forall n, WarnTooShort n ∉ (init settings).1)
  /\ (WarnNoSkPrefix ∈ (init settings).1 <-> startswith "sk-" (strip v) = false).
Proof.
  unfold get_settings, Settings_new.
  destruct ((validate_and_strip_api_key v).2) as [k|e] eqn:E; [|discriminate].
  apply validate_ok_iff in E as (Hv & Hl & ->). cbn [rbind OPENAI_API_KEY].
  destruct (String.eqb_spec (strip v) ""); [discriminate|].
  intros [= <-]. unfold init. cbn [OPENAI_API_KEY].
  destruct (String.eqb_spec (strip v) ""); [contradiction|].
  rewrite strip_idem.
  destruct (strip v) as [|c t] eqn:Es; [contradiction|].
  cbn [snd fst]. split; [reflexivity|]. split; [reflexivity|].
  apply Nat.ltb_ge in Hl. rewrite Hl.
  split.
  - intros m Hin. rewrite app_nil_r in Hin.
    apply elem_of_cons in Hin as [Hin|Hin]; [discriminate|].
    destruct (startswith "sk-" (String c t)).
    + apply elem_of_nil in Hin. contradiction.
    + apply list_elem_of_singleton in Hin. discriminate.
  - rewrite app_nil_r.
    destruct (startswith "sk-" (String c t)); split; intros H; try discriminate.
    + apply elem_of_cons in H as [H|H]; [discriminate|].
      apply elem_of_nil in H. contradiction.
    + reflexivity.
    + apply elem_of_cons. right. apply list_elem_of_singleton. reflexivity.
Qed.

Definition padded_key : string := "  sk-0123456789abcdefghij  ".

Lemma validated_key_starts_the_agent_witness :
  exists settings,
    get_settings (Some padded_key) "development" true = Ok settings
    /\ (init settings).2 = Ok "sk-0123456789abcdefghij".
Proof.
  eexists. split; [reflexivity|].
  destruct (validated_key_starts_the_agent padded_key "development" true _ eq_refl)
    as (H & _).
  rewrite H. reflexivity.
Defined.

End TestPrepAgentFacts.

(** ** tools/progress_tracking.py *)

Module ProgressTrackingFacts.
Import ProgressTracking.
Local Open Scope Z_scope.

(** Strictly decreasing. *)
Fixpoint descending (l : list Z) : Prop :=
  match l with
  | [] => True
  | x :: rest => Forall (fun y => y < x) rest /\ descending rest
  end.

Lemma add_date_spec (d : Z) (l : list Z) :
  descending l ->
  descending (add_date d l) /\ forall x, x ∈ add_date d l <-> x = d \/ x ∈ l.
Proof.
  induction l as [|y l IH]; simpl; intros H.
  - split; [split; [constructor | exact I]|].
    intros x. rewrite list_elem_of_singleton, elem_of_nil. tauto.
  - destruct H as [H1 H2].
    destruct (Z.ltb_spec y d) as [Hlt|Hge].
    + split.
      * simpl. split; [|split; assumption].
        constructor; [exact Hlt|].
        eapply Forall_impl; [exact H1|]. simpl. intros; lia.
      * intros x. rewrite !elem_of_cons. tauto.
    + destruct (Z.eqb_spec y d) as [->|Hne].
      * split; [simpl; auto|]. intros x. rewrite !elem_of_cons. tauto.
      * destruct (IH H2) as [G1 G2]. split.
        -- simpl. split; [|exact G1].
           apply Forall_forall. intros x Hx. apply G2 in Hx as [->|Hx]; [lia|].
           rewrite Forall_forall in H1. auto.
        -- intros x. rewrite !elem_of_cons, G2. tauto.
Qed.

Lemma count_streak_bounds (sorted_dates : list Z) :
  forall expected_date,
    0 <= count_streak expected_date sorted_dates <= Z.of_nat (length sorted_dates).
Proof.
  induction sorted_dates as [|d l IH]; intros e; simpl; [lia|].
  destruct (_ || _); [|lia]. specialize (IH d). lia.
Qed.

Section Clock.
Set Default Proof Using "Type".

Variable date_of : string -> option Z.
Variable today : Z.

(** Some response carries a timestamp of day [d]. *)
Definition active (responses : list quiz_response) (d : Z) : Prop :=
  exists r, r ∈ responses /\ date_of (qr_timestamp r) = Some d.

Lemma activity_dates_spec (responses : list quiz_response) :
  descending (activity_dates date_of responses)
  /\ forall d, d ∈ activity_dates date_of responses <-> active responses d.
Proof.
  unfold activity_dates, active.
  assert (G : forall dates,
             descending dates ->
             let out := fold_left
                          (fun dates r =>
                             match date_of (qr_timestamp r) with
                             | Some d => add_date d dates
                             | None => dates
                             end) responses dates in
             descending out
             /\ forall d, d ∈ out <->
                  d ∈ dates
                  \/ exists r, r ∈ responses /\ date_of (qr_timestamp r) = Some d).
  { induction responses as [|r responses IH]; intros dates Hd; simpl.
    - split; [exact Hd|]. intros d. split; [auto|].
      intros [H|(r & Hr & _)]; [exact H|]. apply elem_of_nil in Hr. contradiction.
    - destruct (date_of (qr_timestamp r)) as [d0|] eqn:E.
      + destruct (add_date_spec d0 dates Hd) as [A1 A2].
        destruct (IH _ A1) as [G1 G2]. split; [exact G1|].
        intros d. rewrite G2, A2. split.
        * intros [[->|H]|(r' & Hr' & H)]; [right|left; exact H|right].
          -- exists r. split; [left | exact E].
          -- exists r'. split; [right; exact Hr' | exact H].
        * intros [H|(r' & Hr' & H)]; [auto|].
          apply elem_of_cons in Hr' as [->|Hr'].
          -- left. left. congruence.
          -- right. eauto.
      + destruct (IH _ Hd) as [G1 G2]. split; [exact G1|].
        intros d. rewrite G2. split.
        * intros [H|(r' & Hr' & H)]; [auto|]. right. exists r'. split; [right|]; auto.
        * intros [H|(r' & Hr' & H)]; [auto|].
          apply elem_of_cons in Hr' as [->|Hr']; [congruence|]. right. eauto. }
  destruct (G [] I) as [G1 G2]. split; [exact G1|].
  intros d. rewrite G2, elem_of_nil. tauto.
Qed.

Lemma calculate_streak_unfold (responses : list quiz_response) :
  calculate_streak date_of today responses
  = count_streak today (activity_dates date_of responses).
Proof.
  unfold calculate_streak. destruct responses as [|r responses]; [reflexivity|].
  destruct (activity_dates date_of (r :: responses)); reflexivity.
Qed.

(** X12.  The streak that [track_study_streak] reports is never
    negative and never more than the number of distinct study days it
    reports; it is zero, with the invitation to start a streak, when
    there is no activity dated today or yesterday (or later). *)
Theorem streak_is_bounded_by_study_days (st : store) (user_id : string) :
  let report := track_study_streak date_of today st user_id in
  0 <= sk_current_streak report <= Z.of_nat (sk_total_study_days report)
  /\ ((forall d, active (get_quiz_responses st user_id) d -> d < today - 1) ->
      sk_current_streak report = 0
      /\ sk_streak_status report = "Start your streak today!"
      /\ sk_message report = "Start your study streak today! Even 10 minutes counts.").
Proof.
  unfold track_study_streak. cbn [sk_current_streak sk_total_study_days
                                  sk_streak_status sk_message].
  rewrite calculate_streak_unfold. split; [apply count_streak_bounds|].
  intros Hstale.
  assert (E : count_streak today
                (activity_dates date_of (get_quiz_responses st user_id)) = 0).
  { destruct (activity_dates_spec (get_quiz_responses st user_id)) as [_ Hm].
    destruct (activity_dates date_of (get_quiz_responses st user_id)) as [|d l];
      [reflexivity|].
    assert (Hd : d < today - 1) by (apply Hstale, Hm; left).
    simpl. destruct (Z.eqb_spec d today); [lia|].
    destruct (Z.leb_spec (today - d) 1); [lia|]. reflexivity. }
  rewrite E. repeat split.
Qed.

Lemma descending_head (l : list Z) (e : Z) :
  descending l -> (forall y, y ∈ l -> y <= e) -> e ∈ l ->
  exists rest, l = e :: rest /\ descending rest /\ forall y, y ∈ rest -> y <= e - 1.
Proof.
  destruct l as [|x rest]; simpl; intros Hd Hmax Hin.
  - apply elem_of_nil in Hin. contradiction.
  - destruct Hd as [H1 H2]. rewrite Forall_forall in H1.
    apply elem_of_cons in Hin as [->|Hin].
    + exists rest. repeat split; [exact H2|]. intros y Hy. specialize (H1 y Hy). lia.
    + specialize (H1 e Hin). specialize (Hmax x ltac:(left)). lia.
Qed.

Lemma run_count (k : nat) :
  forall (l : list Z) (e : Z),
    descending l -> (forall y, y ∈ l -> y <= e) ->
    (forall i : nat, (i < k)%nat -> e - Z.of_nat i ∈ l) ->
    e - Z.of_nat k ∉ l ->
    count_streak (e + 1) l = Z.of_nat k.
Proof.
  induction k as [|k IH]; intros l e Hd Hmax Hrun Hend.
  - destruct l as [|y l]; [reflexivity|]. simpl.
    assert (y <= e) by (apply Hmax; left).
    assert (y <> e).
    { intros ->. apply Hend. rewrite Z.sub_0_r. left. }
    destruct (Z.eqb_spec y (e + 1)); [lia|].
    destruct (Z.leb_spec (e + 1 - y) 1); [lia|]. reflexivity.
  - destruct (descending_head l e Hd Hmax) as (rest & -> & Hd' & Hmax').
    { specialize (Hrun 0%nat ltac:(lia)). rewrite Z.sub_0_r in Hrun. exact Hrun. }
    simpl. destruct (Z.eqb_spec e (e + 1)); [lia|].
    destruct (Z.leb_spec (e + 1 - e) 1); [|lia]. simpl.
    replace e with (e - 1 + 1) at 1 by lia.
    rewrite (IH rest (e - 1) Hd' Hmax'); [lia| |].
    + intros i Hi. specialize (Hrun (S i) ltac:(lia)).
      apply elem_of_cons in Hrun as [Hrun|Hrun]; [lia|].
      replace (e - 1 - Z.of_nat i) with (e - Z.of_nat (S i)) by lia. exact Hrun.
    + intros Hin. apply Hend.
      replace (e - Z.of_nat (S k)) with (e - 1 - Z.of_nat k) by lia. right. exact Hin.
Qed.

(** X13.  With no activity dated in the future, the streak is the
    length of the run of consecutive active days that ends at the
    latest active day, provided that day is today or yesterday. *)
Theorem streak_counts_consecutive_days (responses : list quiz_response)
    (latest k : Z) :
  (forall d, active responses d -> d <= latest) ->
  today - 1 <= latest <= today ->
  1 <= k ->
  (forall i, 0 <= i < k -> active responses (latest - i)) ->
  ~ active responses (latest - k) ->
  calculate_streak date_of today responses = k.
Proof.
  intros Hmax Hnear Hk Hrun Hend.
  rewrite calculate_streak_unfold.
  destruct (activity_dates_spec responses) as [Hd Hm].
  destruct (descending_head (activity_dates date_of responses) latest Hd)
    as (rest & E & Hd' & Hmax').
  { intros y Hy. apply Hmax, Hm, Hy. }
  { apply Hm. replace latest with (latest - 0) by lia. apply Hrun. lia. }
  rewrite E. simpl.
  assert (Hc : ((latest =? today) || (today - latest <=? 1)) = true).
  { apply orb_true_iff. right. apply Z.leb_le. lia. }
  rewrite Hc.
  replace latest with (latest - 1 + 1) at 1 by lia.
  rewrite (run_count (Z.to_nat (k - 1)) rest (latest - 1) Hd' Hmax'); [lia| |].
  - intros i Hi.
    assert (Hin : latest - (Z.of_nat i + 1) ∈ activity_dates date_of responses)
      by (apply Hm, Hrun; lia).
    rewrite E in Hin. apply elem_of_cons in Hin as [Hin|Hin]; [lia|].
    replace (latest - 1 - Z.of_nat i) with (latest - (Z.of_nat i + 1)) by lia.
    exact Hin.
  - intros Hin. apply Hend, Hm. rewrite E. right.
    replace (latest - k) with (latest - 1 - Z.of_nat (Z.to_nat (k - 1))) by lia.
    exact Hin.
Qed.

End Clock.

(** Three responses, on days 98, 100 and 99; day 100 is today. *)
Definition day_of (timestamp : string) : option Z :=
  if String.eqb timestamp "d98" then Some 98
  else if String.eqb timestamp "d99" then Some 99
  else if String.eqb timestamp "d100" then Some 100
  else None.

Definition response_on (timestamp : string) : quiz_response :=
  {| qr_response_id := "r"; qr_quiz_id := "q"; qr_question_id := Some "q1";
     qr_user_answer := Some "A"; qr_is_correct := true; qr_time_spent := 30;
     qr_timestamp := timestamp; qr_topic := None; qr_difficulty := None |}.

Definition three_days : list quiz_response :=
  [ response_on "d98"; response_on "d100"; response_on "d99"; response_on "d100" ].

Lemma streak_counts_consecutive_days_witness :
  calculate_streak day_of 100 three_days = 3.
Proof.
  assert (Hact : forall d, active day_of three_days d -> d = 98 \/ d = 99 \/ d = 100).
  { intros d (r & Hr & Hd). unfold three_days in Hr.
    rewrite !elem_of_cons, elem_of_nil in Hr.
    destruct Hr as [-> | [-> | [-> | [-> | []]]]]; vm_compute in Hd; injection Hd as Hd; lia. }
  apply (streak_counts_consecutive_days day_of 100 three_days 100 3).
  - intros d Hd. apply Hact in Hd. lia.
  - lia.
  - lia.
  - intros i Hi.
    assert (E : i = 0 \/ i = 1 \/ i = 2) by lia.
    destruct E as [-> | [-> | ->]].
    + exists (response_on "d100"). split; [|reflexivity].
      unfold three_days. rewrite !elem_of_cons. auto.
    + exists (response_on "d99"). split; [|reflexivity].
      unfold three_days. rewrite !elem_of_cons. auto.
    + exists (response_on "d98"). split; [|reflexivity].
      unfold three_days. rewrite !elem_of_cons. auto.
  - intros Hd. apply Hact in Hd. lia.
Defined.

End ProgressTrackingFacts.

(** ** tools/explanations.py *)

Module ExplanationsFacts.
Import Explanations QuizManagement.

Lemma lower_char_idem (c : ascii) : lower_char (lower_char c) = lower_char c.
Proof. destruct c as [[] [] [] [] [] [] [] []]; reflexivity. Qed.

Lemma lower_idem (s : string) : lower (lower s) = lower s.
Proof.
  induction s as [|c s IH]; simpl; [reflexivity|].
  rewrite lower_char_idem, IH. reflexivity.
Qed.

(** X14.  The learning tips depend on the topic up to letter case only:
    each of the five topics that have tips of their own gets its three
    tips, and every other topic the four general ones. *)
Theorem learning_tips_ignore_case (topic : string) :
  generate_learning_tips (lower topic) = generate_learning_tips topic
  /\ (lower topic = "algebra" ->
      generate_learning_tips topic
      = [ "Master FOIL and factoring techniques";
          "Draw diagrams for word problems";
          "Check your work by substituting answers back" ])
  /\ (lower topic = "geometry" ->
      generate_learning_tips topic
      = [ "Memorize key formulas for area and volume";
          "Draw and label diagrams";
          "Look for similar triangles and parallel lines" ])
  /\ (lower topic = "reading_comprehension" ->
      generate_learning_tips topic
      = [ "Read the questions before the passage";
          "Underline key phrases";
          "Eliminate obviously wrong answers first" ])
  /\ (lower topic = "vocabulary" ->
      generate_learning_tips topic
      = [ "Learn word roots and prefixes";
          "Use flashcards for daily practice";
          "Read widely to see words in context" ])
  /\ (lower topic = "probability" ->
      generate_learning_tips topic
      = [ "Draw tree diagrams for complex problems";
          "Remember: P(A and B) = P(A) × P(B) for independent events";
          "Count carefully and check your work" ])
  /\ (lower topic ∉ [ "algebra"; "geometry"; "reading_comprehension"; "vocabulary";
                      "probability" ] ->
      generate_learning_tips topic
      = [ "Practice regularly to build familiarity";
          "Review incorrect answers carefully";
          "Time yourself to improve speed";
          "Identify patterns in question types" ]).
Proof.
  split; [unfold generate_learning_tips; rewrite lower_idem; reflexivity|].
  unfold generate_learning_tips.
  repeat split; try (intros ->; reflexivity).
  intros Hn. unfold topic_tips. cbn [List.find fst snd].
  repeat match goal with
         | |- context [String.eqb ?a (lower topic)] =>
             destruct (String.eqb_spec a (lower topic)) as [E|_];
             [exfalso; apply Hn; rewrite <- E; rewrite !elem_of_cons; auto 10|]
         end.
  reflexivity.
Qed.

(** X15.  For a question of the catalog, [get_question_explanation]
    without the tips always returns, with the id asked for and the
    stored answer and explanation; with the tips (the default) it
    returns exactly when the question has a topic, and raises
    otherwise.  For an id that is not in the catalog it returns the
    error dict. *)
Theorem detailed_explanation_needs_a_topic (st : store) (question_id : string) :
  match find_question st (Some question_id) with
  | None =>
      forall detailed,
        get_question_explanation st question_id detailed
        = Ok [("error", VStr "Question not found")]
  | Some q =>
      (exists d,
          get_question_explanation st question_id false = Ok d
          /\ dict_get d "question_id" = VStr question_id
          /\ dict_get d "correct_answer" = opt_str (q_correct_answer q)
          /\ dict_get d "explanation" = opt_str (q_explanation q)
          /\ dict_has d "learning_tips" = false)
      /\ (is_ok (get_question_explanation st question_id true) = true
          <-> is_Some (q_topic q))
      /\ (forall t, q_topic q = Some t ->
            exists d,
              get_question_explanation st question_id true = Ok d
              /\ dict_get d "learning_tips"
                 = VList (map VStr (generate_learning_tips t)))
  end.
Proof.
  unfold get_question_explanation.
  destruct (find_question st (Some question_id)) as [q|] eqn:F; [|reflexivity].
  assert (Hid : q_question_id q = Some question_id).
  { unfold find_question in F. apply find_some in F as [_ F].
    apply bool_decide_eq_true in F. exact F. }
  rewrite Hid. split; [|split].
  - eexists. split; [reflexivity|]. repeat split.
  - destruct (q_topic q); simpl; split; intros H; try reflexivity; try discriminate.
    + eauto.
    + destruct H as [x H]. discriminate.
  - intros t ->. eexists. split; reflexivity.
Qed.

End ExplanationsFacts.

(** ** agents/orchestrator.py: what a response is built from *)

Module PresentationFacts.
Import LlmClient Presentation Orchestrator.

(** X16.  [_identify_follow_ups] goes through its four tools in a fixed
    order and suggests the follow-ups of the first two that were used:
    at most two follow-ups, and none exactly when none of the four tools
    was used. *)
Theorem follow_ups_are_at_most_two (response : turn_result) :
  let table :=
    [ ("analyze_performance_by_topic",
       "Would you like me to create a practice quiz focused on your weak areas?");
      ("generate_adaptive_quiz", "Ready to start the quiz whenever you are!");
      ("get_latest_test_results",
       "Want to see how this compares to your previous attempts?");
      ("get_progress_summary",
       "Would you like specific recommendations to improve further?") ] in
  identify_follow_ups response
  = take 2 (map snd
              (List.filter
                 (fun entry : string * string =>
                    bool_decide (entry.1 ∈ tr_tools_used response)) table))
  /\ length (identify_follow_ups response) <= 2
  /\ (identify_follow_ups response = [] <->
      Forall (fun tool_name => tool_name ∉ tr_tools_used response)
        [ "analyze_performance_by_topic"; "generate_adaptive_quiz";
          "get_latest_test_results"; "get_progress_summary" ]).
Proof.
  intros table. subst table. unfold identify_follow_ups. cbn [List.filter fst snd].
  destruct (decide ("analyze_performance_by_topic" ∈ tr_tools_used response)) as [A|A];
  destruct (decide ("generate_adaptive_quiz" ∈ tr_tools_used response)) as [B|B];
  destruct (decide ("get_latest_test_results" ∈ tr_tools_used response)) as [C|C];
  destruct (decide ("get_progress_summary" ∈ tr_tools_used response)) as [D|D];
    repeat rewrite (bool_decide_eq_true_2 _ A);
    repeat rewrite (bool_decide_eq_false_2 _ A);
    repeat rewrite (bool_decide_eq_true_2 _ B);
    repeat rewrite (bool_decide_eq_false_2 _ B);
    repeat rewrite (bool_decide_eq_true_2 _ C);
    repeat rewrite (bool_decide_eq_false_2 _ C);
    repeat rewrite (bool_decide_eq_true_2 _ D);
    repeat rewrite (bool_decide_eq_false_2 _ D);
    cbn [app take length map snd];
    (split; [reflexivity|]); (split; [lia|]);
    rewrite !Forall_cons, Forall_nil;
    split; intros H; try discriminate; try reflexivity; try tauto.
Qed.

(** *** The session summary *)

Lemma count_of_set (counts : list (string * Z)) (k k' : string) (n : Z) :
  count_of (set_count counts k n) k'
  = if String.eqb k k' then n else count_of counts k'.
Proof.
  induction counts as [|[k0 m] counts IH]; simpl; [reflexivity|].
  destruct (String.eqb_spec k0 k) as [->|Hne]; simpl.
  - destruct (String.eqb k k'); reflexivity.
  - rewrite IH. destruct (String.eqb_spec k0 k') as [->|Hne'].
    + destruct (String.eqb_spec k k'); [congruence | reflexivity].
    + reflexivity.
Qed.

(** The messages of [history] sent in the role [role_]. *)
Definition sent_as (role_ : string) (history : list conversation_message) : nat :=
  length (List.filter (fun m => String.eqb (cm_message_type m) role_) history).

Lemma counting_loop (history : list conversation_message) (role_ : string) :
  forall counts,
    count_of
      (fold_left
         (fun counts msg =>
            set_count counts (cm_message_type msg)
              (count_of counts (cm_message_type msg) + 1)%Z)
         history counts) role_
    = (count_of counts role_ + Z.of_nat (sent_as role_ history))%Z.
Proof.
  unfold sent_as.
  induction history as [|m history IH]; intros counts; simpl; [lia|].
  rewrite IH, count_of_set.
  destruct (String.eqb_spec (cm_message_type m) role_) as [->|Hne]; simpl; lia.
Qed.

(** X17.  [get_session_summary] looks at the last hundred messages of
    the session: for every role it reports how many of them were sent
    in that role, its ["total_turns"] is the number sent by the user,
    and the two dates are those of the first and the last of them. *)
Theorem session_summary_counts (st : store) (session_id : string) :
  let window := get_conversation_history st session_id 100 in
  let summary := get_session_summary st session_id in
  length window <= 100
  /\ (forall role_,
        count_of (sm_message_counts summary) role_ = Z.of_nat (sent_as role_ window))
  /\ sm_total_turns summary = Z.of_nat (sent_as "user" window)
  /\ sm_started_at summary = cm_timestamp <$> head window
  /\ sm_last_activity summary = cm_timestamp <$> last window.
Proof.
  intros window summary. subst summary. unfold get_session_summary.
  fold window. cbn [sm_message_counts sm_total_turns sm_started_at sm_last_activity].
  split.
  - unfold window, get_conversation_history, last_n. rewrite length_drop.
    lia.
  - split; [|split; [|split; reflexivity]].
    + intros role_. rewrite counting_loop. cbn [count_of].
      repeat destruct (String.eqb _ role_); lia.
    + rewrite counting_loop. reflexivity.
Qed.

(** *** The structured response *)

Section StructuredResponse.
Set Default Proof Using "Type".

Variable repr_other : pyval -> string.
Variable get_progress_summary : store -> string -> result pydict.
Variable generate_bar_chart_data : store -> string -> result pydict.
Variable analyze_performance_by_topic :
  store -> string -> string -> string -> result pydict.

Local Abbreviation build :=
  (create_structured_response repr_other get_progress_summary
     generate_bar_chart_data analyze_performance_by_topic).

(** What the lists of [ui] owe to the tools used. *)
Definition justified (tools_used : list string) (ui : ui_elements) : Prop :=
  (ui_charts ui <> [] ->
   "get_progress_summary" ∈ tools_used \/ "generate_bar_chart_data" ∈ tools_used)
  /\ (ui_quick_replies ui <> [] -> "generate_adaptive_quiz" ∈ tools_used)
  /\ (ui_cards ui <> [] ->
      "get_progress_summary" ∈ tools_used \/ "generate_adaptive_quiz" ∈ tools_used
      \/ "analyze_performance_by_topic" ∈ tools_used)
  /\ length (ui_charts ui) <= 2 /\ length (ui_cards ui) <= 3.

Lemma progress_step_spec (st : store) (tools_used : list string) (user_id : string)
    (ui ui' : ui_elements) :
  progress_step repr_other get_progress_summary st tools_used user_id ui = Ok ui' ->
  ui' = ui
  \/ ("get_progress_summary" ∈ tools_used
      /\ exists card chart, ui' = add_card card (add_chart chart ui)).
Proof.
  unfold progress_step. destruct (decide ("get_progress_summary" ∈ tools_used)) as [H|H].
  - rewrite (bool_decide_eq_true_2 _ H).
    destruct (get_progress_summary st user_id) as [progress|]; [|discriminate].
    simpl. destruct (negb _); intros [= <-]; [right|left]; eauto.
  - rewrite (bool_decide_eq_false_2 _ H). intros [= <-]. auto.
Qed.

Lemma quiz_step_spec (tools_used : list string) (ui : ui_elements) :
  quiz_step tools_used ui = ui
  \/ ("generate_adaptive_quiz" ∈ tools_used
      /\ exists card replies,
           quiz_step tools_used ui = add_card card (extend_quick_replies replies ui)).
Proof.
  unfold quiz_step. destruct (decide ("generate_adaptive_quiz" ∈ tools_used)) as [H|H].
  - rewrite (bool_decide_eq_true_2 _ H). right. eauto.
  - rewrite (bool_decide_eq_false_2 _ H). auto.
Qed.

Lemma bar_chart_step_spec (st : store) (tools_used : list string) (user_id : string)
    (ui ui' : ui_elements) :
  bar_chart_step generate_bar_chart_data st tools_used user_id ui = Ok ui' ->
  ui' = ui
  \/ ("generate_bar_chart_data" ∈ tools_used /\ exists chart, ui' = add_chart chart ui).
Proof.
  unfold bar_chart_step.
  destruct (decide ("generate_bar_chart_data" ∈ tools_used)) as [H|H].
  - rewrite (bool_decide_eq_true_2 _ H).
    destruct (generate_bar_chart_data st user_id) as [data|]; [|discriminate].
    simpl. destruct (_ && _); [|intros [= <-]; auto].
    destruct (PerformanceAnalysis.py_len _); [|discriminate].
    simpl. intros [= <-]. right. eauto.
  - rewrite (bool_decide_eq_false_2 _ H). intros [= <-]. auto.
Qed.

Lemma performance_step_spec (st : store) (tools_used : list string) (user_id : string)
    (ui ui' : ui_elements) :
  performance_step analyze_performance_by_topic st tools_used user_id ui = Ok ui' ->
  ui' = ui
  \/ ("analyze_performance_by_topic" ∈ tools_used
      /\ exists card, ui' = add_card card ui).
Proof.
  unfold performance_step.
  destruct (decide ("analyze_performance_by_topic" ∈ tools_used)) as [H|H].
  - rewrite (bool_decide_eq_true_2 _ H).
    destruct (analyze_performance_by_topic st user_id "math" "all") as [perf|];
      [|discriminate].
    simpl. destruct (_ && _); intros [= <-]; [right|left]; eauto.
  - rewrite (bool_decide_eq_false_2 _ H). intros [= <-]. auto.
Qed.

(** X18.  In what [_create_structured_response] returns, a chart is
    there only if [get_progress_summary] or [generate_bar_chart_data]
    was among the tools used, a quick reply only if
    [generate_adaptive_quiz] was, and a card only if one of
    [get_progress_summary], [generate_adaptive_quiz] and
    [analyze_performance_by_topic] was; there are at most two charts
    and three cards.  With no tool used the three lists are empty. *)
Theorem charts_and_cards_need_their_tools (st : store) (text : string)
    (tools_used : list string) (user_id : string) (ui : ui_elements) :
  build st text tools_used user_id = Ok ui ->
  justified tools_used ui
  /\ (tools_used = [] ->
      ui = {| ui_cards := []; ui_quick_replies := []; ui_charts := [] |}).
Proof.
  unfold create_structured_response.
  destruct tools_used as [|t0 rest] eqn:Et.
  { intros [= <-]. split; [|reflexivity].
    unfold justified. simpl. repeat split; try (intros H; contradiction); lia. }
  rewrite <- Et. clear Et.
  destruct (progress_step _ _ _ _ _ _) as [ui1|] eqn:E1; [|discriminate].
  cbn [rbind].
  destruct (bar_chart_step _ _ _ _ _) as [ui3|] eqn:E3; [|discriminate].
  cbn [rbind]. intros E4.
  apply progress_step_spec in E1. apply bar_chart_step_spec in E3.
  apply performance_step_spec in E4.
  pose proof (quiz_step_spec tools_used ui1) as E2.
  split; [|intros ->; discriminate || idtac].
  2:{ destruct E1 as [->|[H _]]; [|apply elem_of_nil in H; contradiction].
      destruct E2 as [E2|[H _]]; [|apply elem_of_nil in H; contradiction].
      rewrite E2 in E3.
      destruct E3 as [->|[H _]]; [|apply elem_of_nil in H; contradiction].
      destruct E4 as [->|[H _]]; [|apply elem_of_nil in H; contradiction].
      reflexivity. }
  unfold justified.
  destruct E1 as [->|(H1 & card1 & chart1 & ->)];
  destruct E2 as [E2|(H2 & card2 & replies2 & E2)]; rewrite E2 in E3;
  destruct E3 as [->|(H3 & chart3 & ->)];
  destruct E4 as [->|(H4 & card4 & ->)];
    cbn [ui_charts ui_cards ui_quick_replies add_card add_chart extend_quick_replies
         app length];
    repeat split; intros; try tauto; try contradiction; try lia.
Qed.

End StructuredResponse.

(** A turn in which the model had a quiz generated; the tool functions
    the builder calls return empty dicts. *)
Definition bars0 (st : store) (user_id : string) : result pydict := Ok [].
Definition perf0 (st : store) (user_id section timeframe : string) : result pydict :=
  Ok [].

Lemma charts_and_cards_need_their_tools_witness :
  exists ui,
    create_structured_response LlmClientFacts.repr0 OrchestratorFacts.progress0 bars0
      perf0 UserProfileFacts.two_users "Your quiz is ready." ["generate_adaptive_quiz"]
      "mock-user" = Ok ui
    /\ justified ["generate_adaptive_quiz"] ui.
Proof.
  eexists. split; [reflexivity|].
  destruct (charts_and_cards_need_their_tools LlmClientFacts.repr0
              OrchestratorFacts.progress0 bars0 perf0 UserProfileFacts.two_users
              "Your quiz is ready." ["generate_adaptive_quiz"] "mock-user" _ eq_refl)
    as [H _].
  exact H.
Defined.

(** *** The history sent to the model *)

(** X19.  [_get_formatted_history] gives the model every user and
    assistant message among the last ten stored for the session, in
    their order, each as a plain role/content pair, and nothing else:
    a message stored in another role (the errors logged as system
    messages) is never sent. *)
Theorem formatted_history_is_user_and_assistant (st : store) (session_id : string) :
  let history := get_formatted_history st session_id in
  let window := get_conversation_history st session_id 10 in
  history
  = map (fun m =>
           {| role := cm_message_type m; content := Some (cm_content m);
              msg_tool_calls := None; tool_call_id := None; name := None |})
        (List.filter
           (fun m => String.eqb (cm_message_type m) "user"
                     || String.eqb (cm_message_type m) "assistant") window)
  /\ length history <= 10
  /\ (forall m, m ∈ window ->
        cm_message_type m = "user" \/ cm_message_type m = "assistant" ->
        {| role := cm_message_type m; content := Some (cm_content m);
           msg_tool_calls := None; tool_call_id := None; name := None |} ∈ history)
  /\ Forall (fun m => role m = "user" \/ role m = "assistant") history.
Proof.
  intros history window. subst history. unfold get_formatted_history.
  change (get_conversation_history st session_id max_context_turns) with window.
  assert (Hw : length window <= 10).
  { unfold window, get_conversation_history, last_n. rewrite length_drop. lia. }
  clearbody window.
  assert (G : omap (fun msg =>
                      if bool_decide (cm_message_type msg ∈ ["user"; "assistant"])
                      then Some (text_message (cm_message_type msg) (cm_content msg))
                      else None) window
              = map (fun m =>
                       {| role := cm_message_type m; content := Some (cm_content m);
                          msg_tool_calls := None; tool_call_id := None;
                          name := None |})
                    (List.filter
                       (fun m => String.eqb (cm_message_type m) "user"
                                 || String.eqb (cm_message_type m) "assistant")
                       window)).
  { clear Hw. induction window as [|m window IH]; [reflexivity|].
    cbn [omap list_omap List.filter].
    destruct (String.eqb_spec (cm_message_type m) "user") as [Hu|Hu];
      [|destruct (String.eqb_spec (cm_message_type m) "assistant") as [Ha|Ha]];
      cbn [orb].
    - rewrite bool_decide_eq_true_2 by (rewrite Hu; left).
      cbn [map]. f_equal. exact IH.
    - rewrite bool_decide_eq_true_2 by (rewrite Ha; right; left).
      cbn [map]. f_equal. exact IH.
    - rewrite bool_decide_eq_false_2; [exact IH|].
      rewrite !elem_of_cons, elem_of_nil. tauto. }
  rewrite G. split; [reflexivity|]. split; [|split].
  - rewrite length_map. pose proof (List.filter_length_le
                                     (fun m => String.eqb (cm_message_type m) "user"
                                               || String.eqb (cm_message_type m)
                                                    "assistant") window). lia.
  - intros m Hin Hrole.
    apply (list_elem_of_fmap_2
             (fun m => {| role := cm_message_type m; content := Some (cm_content m);
                          msg_tool_calls := None; tool_call_id := None;
                          name := None |})).
    apply list_elem_of_In, List.filter_In. split; [apply list_elem_of_In; exact Hin|].
    destruct Hrole as [-> | ->]; reflexivity.
  - apply Forall_fmap, Forall_forall. intros m Hm.
    apply list_elem_of_In, List.filter_In in Hm as [_ Hm]. simpl.
    apply orb_true_iff in Hm as [Hm|Hm]; apply String.eqb_eq in Hm; auto.
Qed.

End PresentationFacts.

(** ** tools/quiz_management.py: the quiz and the store *)

Module QuizStoreFacts.
Import QuizManagement QuizManagementFacts MemoryStoreFacts.

Lemma extend_from_subset (draws : list nat) (bucket selected selected' : list question)
    (n : Z) :
  extend_from draws bucket n selected = Ok selected' ->
  exists picked, selected' = selected ++ picked /\ picked ⊆+ bucket.
Proof.
  unfold extend_from. destruct bucket as [|b bucket].
  - intros [= <-]. exists []. rewrite app_nil_r. split; [reflexivity | constructor].
  - destruct (random_sample draws (b :: bucket) _) as [picked|e] eqn:E; simpl;
      [|discriminate].
    intros [= <-]. apply random_sample_ok in E as [H1 _]. eauto.
Qed.

(** Whatever the size asked for, [select_questions] selects among the
    questions it is given. *)
Lemma select_questions_subset (ent : quiz_entropy) (quiz_size : Z)
    (available selected : list question) :
  select_questions ent quiz_size available = Ok selected ->
  forall q, q ∈ selected -> q ∈ available.
Proof.
  unfold select_questions.
  destruct (rbind (int_times_float quiz_size f0_3) int_of_float) as [num_easy|];
    [|discriminate].
  destruct (rbind (int_times_float quiz_size f0_5) int_of_float) as [num_medium|];
    [|discriminate].
  cbn [rbind].
  destruct (extend_from (draws_easy ent) _ num_easy []) as [s1|] eqn:E1; [|discriminate].
  apply extend_from_subset in E1 as (p1 & -> & Hp1). cbn [rbind app].
  destruct (extend_from (draws_medium ent) _ num_medium p1) as [s2|] eqn:E2;
    [|discriminate].
  apply extend_from_subset in E2 as (p2 & -> & Hp2). cbn [rbind].
  destruct (extend_from (draws_hard ent) _ _ (p1 ++ p2)) as [s3|] eqn:E3; [|discriminate].
  apply extend_from_subset in E3 as (p3 & -> & Hp3). cbn [rbind].
  set (sel := (p1 ++ p2) ++ p3) in *.
  assert (Hin : forall q, q ∈ sel -> q ∈ available).
  { intros q. unfold sel. rewrite !elem_of_app. intros [[H|H]|H].
    - eapply elem_of_submseteq in H; [|exact Hp1]. apply of_difficulty_spec in H. tauto.
    - eapply elem_of_submseteq in H; [|exact Hp2]. apply of_difficulty_spec in H. tauto.
    - eapply elem_of_submseteq in H; [|exact Hp3]. apply of_difficulty_spec in H. tauto. }
  assert (Hfinal : forall filled,
             (forall q, q ∈ filled -> q ∈ available) ->
             Ok (random_shuffle (draws_shuffle ent) filled) = Ok selected ->
             forall q, q ∈ selected -> q ∈ available).
  { intros filled F [= <-] q Hq. apply F.
    eapply elem_of_submseteq; [exact Hq | apply random_shuffle_submseteq]. }
  destruct (Z.of_nat (length sel) <? quiz_size)%Z.
  - cbv zeta.
    destruct (random_sample (draws_fill ent) _ _) as [p4|] eqn:E4; [|discriminate].
    apply random_sample_ok in E4 as [Hp4 _]. cbn [rbind].
    apply Hfinal. intros q. rewrite elem_of_app. intros [H|H]; [auto|].
    eapply elem_of_submseteq in H; [|exact Hp4].
    apply elem_of_filter_bool in H. tauto.
  - cbn [rbind]. apply Hfinal. exact Hin.
Qed.

(** What [generate_adaptive_quiz] does when it creates a quiz. *)
Lemma quiz_created_inv (repr_other : pyval -> string) (ent : quiz_entropy)
    (st st' : store) (user_id : string) (config : quiz_config) (q : quiz_created) :
  generate_adaptive_quiz repr_other ent st user_id config = (Ok (QuizCreated q), st') ->
  exists (user : pydict) (selected : list question),
    let quiz_size := default 20%Z (cfg_size config) in
    let test_type := default (dict_get user "test_type") (cfg_test_type config) in
    let recent := last_n 50 (get_quiz_responses st user_id) in
    let target :=
      match cfg_topics config with
      | [] => weak_topics_of (topic_performance_of st recent)
      | _ => cfg_topics config
      end in
    let pool :=
      unseen_questions recent (matching_questions st test_type (cfg_section config))
        quiz_size in
    select_questions ent quiz_size (prioritize target pool) = Ok selected
    /\ st' = save_quiz st (fresh_quiz_id ent)
               {| quiz_quiz_id := fresh_quiz_id ent; quiz_user_id := user_id;
                  quiz_created_at := now_saved ent; quiz_questions := selected |}
    /\ qc_quiz_id q = fresh_quiz_id ent
    /\ qc_user_id q = user_id
    /\ qc_questions q = imap quiz_question_of selected.
Proof.
  unfold generate_adaptive_quiz.
  destruct (get_user st user_id) as [[|kv user]|]; try discriminate.
  cbv zeta.
  destruct (unseen_questions _ _ _) as [|u pool] eqn:Eu; [discriminate|].
  destruct (select_questions ent _ _) as [selected|e] eqn:Es; [|discriminate].
  intros [= <- <-]. exists (kv :: user), selected. cbv zeta. rewrite Eu.
  repeat split. exact Es.
Qed.

(** X20.  A quiz that [generate_adaptive_quiz] returns has been saved
    under its id: [get_quiz] finds it there, for the same user, with the
    questions of the returned quiz in the same order, all of them from
    the catalog.  Nothing else in the store has changed; and when no
    quiz is returned (an error dict or an exception) the store is as
    before. *)
Theorem created_quiz_is_stored (repr_other : pyval -> string) (ent : quiz_entropy)
    (st : store) (user_id : string) (config : quiz_config) :
  match generate_adaptive_quiz repr_other ent st user_id config with
  | (Ok (QuizCreated q), st') =>
      exists selected,
        get_quiz st' (qc_quiz_id q)
        = Some {| quiz_quiz_id := qc_quiz_id q; quiz_user_id := qc_user_id q;
                  quiz_created_at := now_saved ent; quiz_questions := selected |}
        /\ qc_user_id q = user_id
        /\ qc_questions q = imap quiz_question_of selected
        /\ Forall (fun x => x ∈ questions st) selected
        /\ (forall other, other <> qc_quiz_id q -> get_quiz st' other = get_quiz st other)
        /\ users st' = users st /\ questions st' = questions st
        /\ test_results st' = test_results st
        /\ quiz_responses st' = quiz_responses st
        /\ conversation_history st' = conversation_history st
        /\ study_sessions st' = study_sessions st
  | (_, st') => st' = st
  end.
Proof.
  destruct (generate_adaptive_quiz repr_other ent st user_id config)
    as [[[error text|q]|e] st'] eqn:E.
  - unfold generate_adaptive_quiz in E.
    destruct (get_user st user_id) as [[|kv user]|]; try (inversion E; subst; reflexivity).
    cbv zeta in E.
    destruct (unseen_questions _ _ _); [inversion E; subst; reflexivity|].
    destruct (select_questions ent _ _); [discriminate|].
    inversion E; subst; reflexivity.
  - apply quiz_created_inv in E as (user & selected & Es & -> & Hid & Hu & Hq).
    exists selected. rewrite Hid, Hu.
    split; [unfold get_quiz, save_quiz; simpl; apply lookup_insert_eq|].
    split; [reflexivity|]. split; [exact Hq|]. split.
    + apply Forall_forall. intros x Hx.
      eapply select_questions_subset in Hx; [|exact Es].
      eapply elem_of_sublist; [exact Hx|].
      etransitivity; [apply prioritize_sublist|].
      etransitivity; [apply unseen_questions_sublist|].
      apply matching_questions_sublist.
    + split; [|repeat split].
      intros other Hne. unfold get_quiz, save_quiz. simpl.
      apply lookup_insert_ne. congruence.
  - unfold generate_adaptive_quiz in E.
    destruct (get_user st user_id) as [[|kv user]|]; try discriminate.
    cbv zeta in E.
    destruct (unseen_questions _ _ _); [discriminate|].
    destruct (select_questions ent _ _); [discriminate|].
    inversion E; subst; reflexivity.
Qed.

Lemma matching_questions_section (st : store) (test_type section : pyval) (q : question) :
  truthy section = true ->
  q ∈ matching_questions st test_type section ->
  eq_opt_str (q_section q) section = true.
Proof.
  intros Hs. unfold matching_questions. rewrite Hs.
  destruct (get_questions st _ 1000) as [|q0 qs] eqn:E.
  - intros Hq. apply get_questions_pass in Hq as [_ Hq].
    unfold passes in Hq. simpl in Hq. rewrite !andb_true_r in Hq. exact Hq.
  - rewrite <- E. intros Hq. apply get_questions_pass in Hq as [_ Hq].
    unfold passes in Hq. simpl in Hq. rewrite !andb_true_r in Hq.
    apply andb_true_iff in Hq as [_ Hq]. exact Hq.
Qed.

(** The question has one of the topics. *)
Definition on_topic (topics : list pyval) (topic : option string) : bool :=
  existsb (eq_opt_str topic) topics.

Lemma prioritize_topics (topics : list pyval) (pool : list question) :
  topics <> [] ->
  Forall (fun x => on_topic topics (q_topic x) = true) (prioritize topics pool)
  \/ Forall (fun x => on_topic topics (q_topic x) = false) (prioritize topics pool).
Proof.
  intros Ht. unfold prioritize. destruct topics as [|t topics]; [contradiction|].
  destruct (List.filter _ pool) as [|x xs] eqn:E.
  - right. apply Forall_forall. intros x Hx.
    destruct (on_topic (t :: topics) (q_topic x)) eqn:Ex; [|reflexivity].
    assert (Hin : x ∈ List.filter
                        (fun q => existsb (eq_opt_str (q_topic q)) (t :: topics)) pool)
      by (apply elem_of_filter_bool; auto).
    rewrite E in Hin. apply elem_of_nil in Hin. contradiction.
  - left. rewrite <- E. apply Forall_forall. intros y Hy.
    apply elem_of_filter_bool in Hy as [_ Hy]. exact Hy.
Qed.

(** X21.  The questions of a created quiz all belong to the section
    asked for, when one is; and when topics are asked for, either every
    question of the quiz is on one of them, or none is (no eligible
    question was on any of them): a quiz never mixes the two. *)
Theorem quiz_honours_section_and_topics (repr_other : pyval -> string)
    (ent : quiz_entropy) (st st' : store) (user_id : string) (config : quiz_config)
    (q : quiz_created) :
  generate_adaptive_quiz repr_other ent st user_id config = (Ok (QuizCreated q), st') ->
  (truthy (cfg_section config) = true ->
   exists quiz,
     get_quiz st' (qc_quiz_id q) = Some quiz
     /\ length (quiz_questions quiz) = length (qc_questions q)
     /\ Forall (fun x => eq_opt_str (q_section x) (cfg_section config) = true)
          (quiz_questions quiz))
  /\ (cfg_topics config <> [] ->
      Forall (fun x => on_topic (cfg_topics config) (qq_topic x) = true) (qc_questions q)
      \/ Forall (fun x => on_topic (cfg_topics config) (qq_topic x) = false)
           (qc_questions q)).
Proof.
  intros E. apply quiz_created_inv in E as (user & selected & Es & -> & Hid & Hu & Hq).
  cbv zeta in Es. split.
  - intros Hs. eexists. split; [|split].
    + rewrite Hid. unfold get_quiz, save_quiz. simpl. apply lookup_insert_eq.
    + simpl. rewrite Hq, length_imap. reflexivity.
    + simpl. apply Forall_forall. intros x Hx.
      eapply select_questions_subset in Hx; [|exact Es].
      eapply matching_questions_section; [exact Hs|].
      eapply elem_of_sublist; [exact Hx|].
      etransitivity; [apply prioritize_sublist|].
      apply unseen_questions_sublist.
  - intros Ht.
    destruct (cfg_topics config) as [|t topics] eqn:Et; [contradiction|].
    rewrite <- Et in *.
    assert (Himap : forall b,
               Forall (fun x => on_topic (cfg_topics config) (q_topic x) = b) selected ->
               Forall (fun x => on_topic (cfg_topics config) (qq_topic x) = b)
                 (qc_questions q)).
    { intros b H. rewrite Hq. apply Forall_forall. intros x Hx.
      apply elem_of_lookup_imap in Hx as (i & y & -> & Hy).
      apply list_elem_of_lookup_2 in Hy. rewrite Forall_forall in H.
      exact (H y Hy). }
    match type of Es with
    | select_questions _ _ (prioritize _ ?pool) = _ =>
        destruct (prioritize_topics (cfg_topics config) pool Ht) as [H|H]
    end; [left|right]; apply Himap; apply Forall_forall; intros x Hx;
      rewrite Forall_forall in H; apply H;
      eapply select_questions_subset; eauto.
Qed.

Definition geometry_quiz : quiz_config :=
  {| cfg_size := Some 2%Z; cfg_test_type := None; cfg_section := VStr "math";
     cfg_topics := [VStr "geometry"] |}.

Lemma quiz_honours_section_and_topics_witness :
  exists q,
    (generate_adaptive_quiz LlmClientFacts.repr0 some_entropy
       (with_questions small_catalog) "mock-user" geometry_quiz).1
    = Ok (QuizCreated q)
    /\ Forall (fun x => qq_topic x = Some "geometry") (qc_questions q).
Proof.
  destruct (generate_adaptive_quiz LlmClientFacts.repr0 some_entropy
              (with_questions small_catalog) "mock-user" geometry_quiz)
    as [r st'] eqn:E.
  assert (Hr : exists q, r = Ok (QuizCreated q)
                         /\ map qq_topic (qc_questions q)
                            = [Some "geometry"; Some "geometry"]).
  { apply (f_equal fst) in E. simpl in E. subst r. eexists.
    split; vm_compute; reflexivity. }
  destruct Hr as (q & -> & Ht). exists q. split; [reflexivity|].
  destruct (quiz_honours_section_and_topics _ _ _ _ _ _ _ E) as [_ H].
  destruct H as [H|H]; [discriminate| |].
  - eapply Forall_impl; [exact H|]. intros x Hx. simpl in Hx.
    destruct (qq_topic x) as [t|]; simpl in Hx; [|discriminate].
    rewrite orb_false_r in Hx. apply String.eqb_eq in Hx. congruence.
  - exfalso. destruct (qc_questions q) as [|x xs]; [discriminate|].
    injection Ht as Ht _. apply Forall_inv in H. rewrite Ht in H. discriminate.
Defined.

(** *** Submitting answers *)

(** The response references a question of the catalog. *)
Definition recognised (st : store) (r : submitted_response) : bool :=
  match find_question st (sr_question_id r) with Some _ => true | None => false end.

(** One round of the loop of [submit_quiz_response]: an answer that
    references a catalog question is recorded, any other is skipped. *)
Lemma submit_step_store (ent : submit_entropy) (user_id quiz_id : string)
    (s : submit_state) (r : submitted_response) :
  let s1 := submit_step ent user_id quiz_id s r in
  if recognised (ss_store s) r then
    exists entry,
      ss_store s1 = add_quiz_response (ss_store s) user_id entry
      /\ qr_question_id entry = sr_question_id r
      /\ qr_user_answer entry = sr_answer r
      /\ qr_is_correct entry = answered_correctly (ss_store s) r
      /\ qr_quiz_id entry = quiz_id
      /\ map ar_is_correct (ss_results s1)
         = map ar_is_correct (ss_results s) ++ [qr_is_correct entry]
  else s1 = s.
Proof.
  unfold recognised, submit_step, answered_correctly.
  destruct (find_question (ss_store s) (sr_question_id r)) as [question|];
    [|reflexivity].
  eexists. cbn [ss_store ss_results]. split; [reflexivity|].
  rewrite map_app. repeat split.
Qed.

(** What the loop of [submit_quiz_response] has done after a list of
    responses. *)
Lemma submit_loop_store (ent : submit_entropy) (user_id quiz_id : string)
    (responses : list submitted_response) :
  forall s : submit_state,
    let s' := fold_left (submit_step ent user_id quiz_id) responses s in
    let known := List.filter (recognised (ss_store s)) responses in
    exists saved,
      get_quiz_responses (ss_store s') user_id
      = get_quiz_responses (ss_store s) user_id ++ saved
      /\ map qr_question_id saved = map sr_question_id known
      /\ map qr_user_answer saved = map sr_answer known
      /\ map qr_is_correct saved = map (answered_correctly (ss_store s)) known
      /\ Forall (fun r => qr_quiz_id r = quiz_id) saved
      /\ map ar_is_correct (ss_results s')
         = map ar_is_correct (ss_results s) ++ map qr_is_correct saved
      /\ (forall other, other <> user_id ->
            get_quiz_responses (ss_store s') other
            = get_quiz_responses (ss_store s) other)
      /\ questions (ss_store s') = questions (ss_store s)
      /\ users (ss_store s') = users (ss_store s)
      /\ quizzes (ss_store s') = quizzes (ss_store s)
      /\ test_results (ss_store s') = test_results (ss_store s)
      /\ conversation_history (ss_store s') = conversation_history (ss_store s)
      /\ study_sessions (ss_store s') = study_sessions (ss_store s).
Proof.
  induction responses as [|r responses IH]; intros s.
  - exists []. simpl. rewrite !app_nil_r. repeat split. constructor.
  - cbn [fold_left]. cbv zeta.
    pose proof (submit_step_store ent user_id quiz_id s r) as Hstep. cbv zeta in Hstep.
    set (s1 := submit_step ent user_id quiz_id s r) in *.
    destruct (IH s1)
      as (saved & G1 & G2 & G3 & G4 & G5 & G6 & G7 & G8 & G9 & G10 & G11 & G12 & G13).
    assert (Hq : questions (ss_store s1) = questions (ss_store s))
      by apply (submit_step_spec ent user_id quiz_id s r).
    assert (Hrec : forall x, recognised (ss_store s1) x = recognised (ss_store s) x).
    { intros x. unfold recognised.
      rewrite (find_question_same_catalog _ _ _ Hq). reflexivity. }
    assert (Hans : forall x,
               answered_correctly (ss_store s1) x = answered_correctly (ss_store s) x).
    { intros x. apply answered_correctly_same_catalog. exact Hq. }
    rewrite (List.filter_ext _ _ Hrec) in G2, G3, G4.
    rewrite (map_ext _ _ Hans) in G4.
    cbn [List.filter].
    destruct (recognised (ss_store s) r).
    + destruct Hstep as (entry & E1 & E2 & E3 & E4 & E5 & E6).
      exists (entry :: saved). rewrite E1 in *.
      split; [|split; [|split; [|split; [|split; [|split;
        [|split; [|split; [|split; [|split; [|split; [|split]]]]]]]]]]].
      * rewrite G1. unfold get_quiz_responses, add_quiz_response. simpl.
        rewrite lookup_insert_eq. simpl. rewrite <- app_assoc. reflexivity.
      * simpl. f_equal; assumption.
      * simpl. f_equal; assumption.
      * simpl. f_equal; assumption.
      * constructor; assumption.
      * rewrite G6, E6. simpl. rewrite <- app_assoc. reflexivity.
      * intros other Hne. rewrite (G7 other Hne).
        unfold get_quiz_responses, add_quiz_response. simpl.
        rewrite lookup_insert_ne by congruence. reflexivity.
      * rewrite G8. reflexivity.
      * rewrite G9. reflexivity.
      * rewrite G10. reflexivity.
      * rewrite G11. reflexivity.
      * rewrite G12. reflexivity.
      * rewrite G13. reflexivity.
    + rewrite Hstep in *. exists saved. repeat split; assumption.
Qed.

(** X22.  [submit_quiz_response] appends to the user's stored responses
    one entry per submitted answer that references a catalog question,
    in the order submitted, with the quiz id, the answer given and
    whether it was correct; the answers referencing no catalog question
    are not recorded, though they count in ["total_questions"].  The
    ["results"] of the feedback match the recorded entries one for one.
    Nothing else in the store changes, and the entries are recorded
    even when the final computation of the feedback raises. *)
Theorem submitted_answers_are_recorded (ent : submit_entropy) (st : store)
    (user_id quiz_id : string) (responses : list submitted_response) :
  let out := submit_quiz_response ent st user_id quiz_id responses in
  let known := List.filter (recognised st) responses in
  exists saved,
    get_quiz_responses out.2 user_id = get_quiz_responses st user_id ++ saved
    /\ map qr_question_id saved = map sr_question_id known
    /\ map qr_user_answer saved = map sr_answer known
    /\ map qr_is_correct saved = map (answered_correctly st) known
    /\ Forall (fun r => qr_quiz_id r = quiz_id) saved
    /\ (forall other, other <> user_id ->
          get_quiz_responses out.2 other = get_quiz_responses st other)
    /\ questions out.2 = questions st /\ users out.2 = users st
    /\ quizzes out.2 = quizzes st /\ test_results out.2 = test_results st
    /\ conversation_history out.2 = conversation_history st
    /\ study_sessions out.2 = study_sessions st
    /\ (forall feedback, out.1 = Ok feedback ->
          map ar_is_correct (fb_results feedback) = map qr_is_correct saved
          /\ fb_total_questions feedback = length responses).
Proof.
  intros out known. subst out known. unfold submit_quiz_response. cbn [fst snd].
  destruct (submit_loop_store ent user_id quiz_id responses
              {| ss_results := []; ss_total_correct := 0; ss_total_time := 0;
                 ss_saved := 0; ss_store := st |})
    as (saved & G1 & G2 & G3 & G4 & G5 & G6 & G7 & G8 & G9 & G10 & G11 & G12 & G13).
  cbn [ss_store ss_results map app] in *.
  exists saved. repeat split; try assumption.
  - set (s := fold_left _ responses _) in *.
    destruct (rbind (match responses with [] => _ | _ => _ end) _)
      as [fb|] eqn:E in H; [|discriminate].
    injection H as <-.
    destruct (match responses with [] => Ok (VInt 0) | _ :: _ => _ end) as [acc|];
      [|discriminate].
    cbn [rbind] in E.
    destruct (match responses with [] => Ok (VInt 0) | _ :: _ => _ end) as [avg|];
      [|discriminate].
    cbn [rbind] in E. injection E as <-. exact G6.
  - set (s := fold_left _ responses _) in *.
    destruct (match responses with [] => Ok (VInt 0) | _ :: _ => _ end) as [acc|];
      [|discriminate].
    cbn [rbind] in H.
    destruct (match responses with [] => Ok (VInt 0) | _ :: _ => _ end) as [avg|];
      [|discriminate].
    cbn [rbind] in H. injection H as <-. reflexivity.
Qed.

End QuizStoreFacts.

(** ** agents/orchestrator.py: a turn, from the message to the log *)

Module TurnFacts.
Import LlmClient Orchestrator LlmClientFacts OrchestratorFacts MemoryStoreFacts.

(** No tool function writes the conversation history. *)
Definition keeps_history (tool_map : gmap string tool) : Prop :=
  forall function_name func kwargs st,
    tool_map !! function_name = Some func ->
    conversation_history (func kwargs st).2 = conversation_history st.

Section Turn.
Set Default Proof Using "Type".

Variable system_prompt : string.
Variable json_loads : string -> option pyval.
Variable json_dumps : pyval -> string.
Variable repr_other : pyval -> string.
Variable str_title : string -> string.
Variable llm : list message -> result llm_response.
Variable tools : list tool_spec.
Variable tool_map : gmap string tool.
Variable debug : bool.
Variable fresh_session_id : string.
Variable now : string.
Variable days_until : string -> option Z.
Variable get_progress_summary : store -> string -> result pydict.
Variable create_welcome_message : store -> pydict -> pydict -> result string.
Variable create_welcome_ui_elements : store -> pydict -> pydict -> result pyval.
Variable identify_follow_ups : turn_result -> result (list string).
Variable create_structured_response :
  store -> string -> list string -> string -> result pyval.
Variable add_contextual_quick_replies :
  string -> pyval -> string -> list string -> list message -> result pyval.

Local Abbreviation exec := (execute_tool tool_map).
Local Abbreviation ptc := (process_tool_call json_loads json_dumps tools tool_map).
Local Abbreviation loop := (tool_loop json_loads json_dumps llm tools tool_map).
Local Abbreviation pwt :=
  (process_with_tools json_loads json_dumps repr_other str_title llm tools tool_map).
Local Abbreviation pm :=
  (process_message system_prompt json_loads json_dumps repr_other str_title
     llm tools tool_map).
Local Abbreviation handle :=
  (handle_message system_prompt json_loads json_dumps repr_other str_title llm tools
     tool_map debug fresh_session_id now days_until get_progress_summary
     create_welcome_message create_welcome_ui_elements identify_follow_ups
     create_structured_response add_contextual_quick_replies).

Local Abbreviation log_of s := (conversation_history (a_store s)).

Lemma execute_tool_history (function_name : string) (arguments : pyval)
    (s : agent_state) :
  keeps_history tool_map ->
  log_of (exec function_name arguments s).2 = log_of s.
Proof.
  intros Hk. unfold execute_tool.
  destruct (tool_map !! function_name) as [func|] eqn:F; [|reflexivity].
  destruct arguments as [| | | | | |d]; try reflexivity.
  pose proof (Hk function_name func d (a_store s) F) as H.
  destruct (func d (a_store s)) as [[v|e] st']; simpl in *; exact H.
Qed.

Lemma process_tool_call_history (user_id : string) (tc : tool_call) (s : agent_state) :
  keeps_history tool_map -> log_of (ptc user_id tc s).2 = log_of s.
Proof.
  intros Hk. rewrite process_tool_call_unfold.
  destruct (inject_user_id tools user_id (tc_name tc) _) as [arguments|e];
    [|reflexivity].
  simpl. apply execute_tool_history. exact Hk.
Qed.

Lemma for_each_history (user_id : string) (calls : list tool_call) (s : agent_state) :
  keeps_history tool_map -> log_of (for_each calls (ptc user_id) s).2 = log_of s.
Proof.
  intros Hk. revert s. induction calls as [|tc calls IH]; intros s; [reflexivity|].
  rewrite for_each_cons.
  pose proof (process_tool_call_history user_id tc s Hk) as H.
  destruct (ptc user_id tc s) as [[[]|e] s1]; simpl in H.
  - rewrite IH. exact H.
  - exact H.
Qed.

Lemma tool_loop_history (user_id : string) (fuel : nat) :
  keeps_history tool_map ->
  forall (response : llm_response) (s : agent_state),
    log_of (loop fuel user_id response s).2 = log_of s.
Proof.
  intros Hk. induction fuel as [|fuel IH]; intros response s; [reflexivity|].
  rewrite tool_loop_step.
  destruct (String.eqb _ _); [|reflexivity].
  destruct (resp_tool_calls response) as [calls|]; [|reflexivity].
  pose proof (for_each_history user_id calls
                (append_message (assistant_message response calls)
                   (next_iteration s)) Hk) as H.
  destruct (for_each calls _ _) as [[[]|e] s2]; simpl in H; [|exact H].
  destruct (llm (a_messages s2)) as [response'|e]; [|exact H].
  rewrite IH. exact H.
Qed.

(** What [process_message] does to the log of requests and to the
    conversation history: the first request of the turn is the system
    prompt, the last ten messages of the history and the message. *)
Lemma process_message_first_request (user_id user_message : string)
    (history : list message) (s : agent_state) :
  (exists more,
      a_requests (pm user_id user_message history s).2
      = a_requests s ++ turn_messages system_prompt user_message history :: more)
  /\ (keeps_history tool_map -> log_of (pm user_id user_message history s).2 = log_of s).
Proof.
  rewrite process_message_unfold, process_with_tools_unfold.
  set (s0 := begin_turn _ s).
  destruct (llm (a_messages s0)) as [response|e].
  2:{ split; [exists []|]; reflexivity. }
  pose proof (tool_loop_log json_loads json_dumps llm tools tool_map user_id
                max_iterations response (log_request s0)) as (_ & (reqs & G & _) & _).
  pose proof (tool_loop_history user_id max_iterations) as H.
  destruct (loop max_iterations user_id response (log_request s0)) as [[r|e] s'] eqn:E.
  - split.
    + exists reqs. simpl in G. destruct (validate_response_against_tools _ _ _ _ _ _);
        simpl; rewrite G, <- app_assoc; reflexivity.
    + intros Hk. specialize (H Hk response (log_request s0)). rewrite E in H.
      destruct (validate_response_against_tools _ _ _ _ _ _); exact H.
  - split.
    + exists reqs. simpl in G. simpl. rewrite G, <- app_assoc. reflexivity.
    + intros Hk. specialize (H Hk response (log_request s0)). rewrite E in H. exact H.
Qed.

(** An entry of the stored history. *)
Definition entry (role_ text : string) (tool_calls : option (list string))
  : conversation_message :=
  {| cm_message_type := role_; cm_content := text; cm_tool_calls := tool_calls;
     cm_timestamp := now |}.

(** The message handed to the agent: with the instruction block when the
    user's message holds an analysis keyword. *)
Definition message_for_agent (user_id user_message : string) : string :=
  if existsb (fun keyword => contains keyword (lower user_message)) analysis_keywords
  then force_tool_usage_message user_id user_message
  else user_message.

Definition apology (session_id : string) (e : exn) : chat_response :=
  {| cr_session_id := session_id;
     cr_response := "I apologize, but I encountered an issue. Could you please rephrase your question?";
     cr_error := Some (if debug then exn_str e else "An error occurred");
     cr_follow_ups := [];
     cr_tools_used := [];
     cr_ui_elements := None;
     cr_timestamp := now;
     cr_tool_calls_made := None;
     cr_is_welcome := false;
     cr_error_flag := true |}.

Definition logged (session_id : string) (m : conversation_message) (s : agent_state)
  : agent_state :=
  with_store s (add_conversation_message (a_store s) session_id m).

(** A turn of an existing session, step by step. *)
Lemma handle_message_ordinary (user_id user_message session_id : string)
    (s : agent_state) :
  session_id <> "" ->
  handle user_id user_message (Some session_id) s =
  let history := get_formatted_history (a_store s) session_id in
  let s1 := logged session_id (entry "user" user_message None) s in
  let '(reply, s2) := pm user_id (message_for_agent user_id user_message) history s1 in
  let s3 :=
    logged session_id
      (entry "assistant" (tr_message reply) (Some (tr_tools_used reply))) s2 in
  let failed e :=
    (apology session_id e,
     logged session_id (entry "system" ("Error: " +:+ exn_str e) None) s3) in
  match identify_follow_ups reply with
  | Raise e => failed e
  | Ok follow_ups =>
      match create_structured_response (a_store s3) (tr_message reply)
              (tr_tools_used reply) user_id with
      | Raise e => failed e
      | Ok structured =>
          match add_contextual_quick_replies (tr_message reply) structured
                  user_message (tr_tools_used reply) history with
          | Raise e => failed e
          | Ok structured' =>
              ({| cr_session_id := session_id;
                  cr_response := tr_message reply;
                  cr_error := None;
                  cr_follow_ups := follow_ups;
                  cr_tools_used := tr_tools_used reply;
                  cr_ui_elements := Some structured';
                  cr_timestamp := now;
                  cr_tool_calls_made := Some (tr_tool_calls_made reply);
                  cr_is_welcome := false;
                  cr_error_flag := false |}, s3)
          end
      end
  end.
Proof.
  intros Hsid. unfold handle_message, handle_message_body.
  apply String.eqb_neq in Hsid. rewrite Hsid.
  rewrite bool_decide_eq_false_2 by discriminate. cbn [andb].
  unfold bind at 1. unfold reading at 1.
  unfold bind at 1. unfold save_message at 1. unfold modify at 1.
  unfold bind at 1. unfold agent_process_message at 1.
  cbv zeta. fold (message_for_agent user_id user_message).
  unfold logged, entry.
  destruct (process_message _ _ _ _ _ _ _ _ _ _ _ _) as [reply s2].
  unfold bind at 1. unfold save_message at 1. unfold modify at 1.
  unfold bind at 1. unfold lift at 1.
  destruct (identify_follow_ups reply) as [follow_ups|e]; [|reflexivity].
  unfold bind at 1. unfold reading at 1.
  destruct (create_structured_response _ _ _ _) as [structured|e]; [|reflexivity].
  unfold bind at 1. unfold lift at 1.
  destruct (add_contextual_quick_replies _ _ _ _ _) as [structured'|e]; reflexivity.
Qed.

Lemma stored_history_logged (session_id other : string) (m : conversation_message)
    (s : agent_state) :
  stored_history (a_store (logged session_id m s)) other
  = if decide (session_id = other) then stored_history (a_store s) other ++ [m]
    else stored_history (a_store s) other.
Proof.
  unfold stored_history, logged, add_conversation_message. simpl.
  destruct (decide (session_id = other)) as [->|Hne].
  - rewrite lookup_insert_eq. reflexivity.
  - rewrite lookup_insert_ne by exact Hne. reflexivity.
Qed.

(** X23.  A turn of an existing session, the tools leaving the
    conversation history alone: the first request to the model holds
    the system prompt, the formatted history and the user's message,
    followed by the instruction block when the message holds an
    analysis keyword; the history of the session gains the user's
    message as typed (never the instruction block), then the
    assistant's reply with the tools used, and, only when building the
    response raised, the system entry of the error, in which case the
    apology is returned. *)
Theorem turn_is_logged_as_typed (user_id user_message session_id : string)
    (s : agent_state) :
  session_id <> "" -> keeps_history tool_map ->
  let out := handle user_id user_message (Some session_id) s in
  let history := get_formatted_history (a_store s) session_id in
  exists reply more tail,
    a_requests out.2
    = a_requests s
      ++ turn_messages system_prompt (message_for_agent user_id user_message) history
         :: more
    /\ stored_history (a_store out.2) session_id
       = stored_history (a_store s) session_id
         ++ [ entry "user" user_message None;
              entry "assistant" (tr_message reply) (Some (tr_tools_used reply)) ]
         ++ tail
    /\ (cr_error_flag out.1 = false ->
        tail = [] /\ cr_response out.1 = tr_message reply
        /\ cr_tools_used out.1 = tr_tools_used reply)
    /\ (cr_error_flag out.1 = true ->
        exists e, tail = [entry "system" ("Error: " +:+ exn_str e) None]
                  /\ out.1 = apology session_id e).
Proof.
  intros Hsid Hk out history. subst out.
  rewrite (handle_message_ordinary _ _ _ _ Hsid). cbv zeta. fold history.
  set (s1 := logged session_id (entry "user" user_message None) s).
  destruct (process_message_first_request user_id
              (message_for_agent user_id user_message) history s1)
    as ((more & Hreq) & Hlog).
  specialize (Hlog Hk).
  destruct (pm user_id (message_for_agent user_id user_message) history s1)
    as [reply s2].
  cbn [snd] in Hreq, Hlog.
  set (s3 := logged session_id _ s2).
  assert (H3 : stored_history (a_store s3) session_id
               = stored_history (a_store s) session_id
                 ++ [ entry "user" user_message None;
                      entry "assistant" (tr_message reply)
                        (Some (tr_tools_used reply)) ]).
  { unfold s3. rewrite stored_history_logged, decide_True by reflexivity.
    unfold stored_history at 1. rewrite Hlog. fold (stored_history (a_store s1) session_id).
    unfold s1. rewrite stored_history_logged, decide_True by reflexivity.
    rewrite <- app_assoc. reflexivity. }
  assert (Hfail : forall e,
             let out := (apology session_id e,
                         logged session_id
                           (entry "system" ("Error: " +:+ exn_str e) None) s3) in
             exists reply more tail,
               a_requests out.2
               = a_requests s
                 ++ turn_messages system_prompt
                      (message_for_agent user_id user_message) history :: more
               /\ stored_history (a_store out.2) session_id
                  = stored_history (a_store s) session_id
                    ++ [ entry "user" user_message None;
                         entry "assistant" (tr_message reply)
                           (Some (tr_tools_used reply)) ]
                    ++ tail
               /\ (cr_error_flag out.1 = false ->
                   tail = [] /\ cr_response out.1 = tr_message reply
                   /\ cr_tools_used out.1 = tr_tools_used reply)
               /\ (cr_error_flag out.1 = true ->
                   exists e, tail = [entry "system" ("Error: " +:+ exn_str e) None]
                             /\ out.1 = apology session_id e)).
  { intros e out. subst out.
    exists reply, more, [entry "system" ("Error: " +:+ exn_str e) None].
    split; [exact Hreq|]. split; [|split].
    - cbn [snd]. rewrite stored_history_logged, decide_True by reflexivity.
      rewrite H3, <- !app_assoc. reflexivity.
    - discriminate.
    - intros _. exists e. split; reflexivity. }
  destruct (identify_follow_ups reply) as [follow_ups|e]; [|apply Hfail].
  destruct (create_structured_response _ _ _ _) as [structured|e]; [|apply Hfail].
  destruct (add_contextual_quick_replies _ _ _ _ _) as [structured'|e]; [|apply Hfail].
  exists reply, more, []. split; [exact Hreq|]. split; [|split].
  - cbn [snd]. rewrite H3, app_nil_r. reflexivity.
  - intros _. repeat split.
  - discriminate.
Qed.

End Turn.

(** The two profile functions leave the conversation history alone, so
    the tool map does when the other functions do. *)
Lemma create_tool_map_keeps_history (days_until : string -> option Z)
    (body : string -> tool) :
  (forall function_name kwargs st,
      conversation_history (body function_name kwargs st).2 = conversation_history st) ->
  keeps_history (create_tool_map days_until body).
Proof.
  intros Hbody function_name func kwargs st Hf.
  unfold create_tool_map in Hf. apply elem_of_list_to_map_2 in Hf.
  rewrite !elem_of_cons, elem_of_nil in Hf.
  repeat (destruct Hf as [Hf|Hf]; [injection Hf as _ ->; try apply Hbody|]);
    try contradiction.
  - unfold tool_get_user_profile.
    destruct (bind_kwargs _ kwargs); [|reflexivity].
    destruct (dict_get kwargs "user_id"); reflexivity.
  - unfold tool_update_user_profile.
    destruct (bind_kwargs _ kwargs); [|reflexivity].
    destruct (dict_get kwargs "updates"); try reflexivity.
    destruct (dict_get kwargs "user_id") as [| | | |user_id| |]; try reflexivity.
    unfold UserProfile.update_user_profile, update_user.
    destruct (users st !! user_id); reflexivity.
Qed.

(** The second message of a session whose first was logged. *)
Definition after_hello : agent_state :=
  logged "session-1" (entry "2025-01-01T00:00:00" "user" "hello" None) fresh_state.

Lemma turn_is_logged_as_typed_witness :
  exists reply tail,
    stored_history (a_store (handle0 "mock-user" "analyze my score" (Some "session-1")
                               after_hello).2) "session-1"
    = stored_history (a_store after_hello) "session-1"
      ++ [ entry "2025-01-01T00:00:00" "user" "analyze my score" None;
           entry "2025-01-01T00:00:00" "assistant" (tr_message reply)
             (Some (tr_tools_used reply)) ]
      ++ tail.
Proof.
  destruct (turn_is_logged_as_typed "You are a coach." loads_nothing dumps0 repr0
              ascii_title plain_model define_tools the_tool_map true "session-1"
              "2025-01-01T00:00:00" days0 progress0 welcome0 welcome_ui0 follow_ups0
              structured0 quick_replies0 "mock-user" "analyze my score" "session-1"
              after_hello)
    as (reply & more & tail & _ & H & _).
  - discriminate.
  - apply create_tool_map_keeps_history. reflexivity.
  - exists reply, tail. exact H.
Defined.

End TurnFacts.

(** ** agents/orchestrator.py: the welcome *)

Module WelcomeFacts.
Import LlmClient Orchestrator LlmClientFacts OrchestratorFacts MemoryStoreFacts.
Import Presentation PerformanceAnalysis PerformanceAnalysisFacts TurnFacts.

Lemma profile_name (days_until : string -> option Z) (st : store) (user_id : string)
    (user : pydict) :
  users st !! user_id = Some user -> user <> [] ->
  let profile := UserProfile.get_user_profile days_until st user_id in
  dict_get_default profile "name" (VStr "there") = dict_get user "name"
  /\ dict_get profile "user_id" = dict_get user "user_id"
  /\ dict_get profile "baseline_score" = dict_get user "baseline_score".
Proof.
  intros Hu Hne. unfold UserProfile.get_user_profile, get_user. rewrite Hu.
  destruct user as [|kv user]; [contradiction|]. repeat split.
Qed.

(** X24.  A user whose stored profile has no name (or one that is not a
    string) is not welcomed: [_create_welcome_message] raises on the
    profile that [get_user_profile] builds, in which the name is [None]
    rather than absent, so the first message of a new session is
    answered with the generic apology, the model not being called; the
    error is logged as a system message, and its text is returned only
    in debug mode. *)
Theorem nameless_user_is_not_welcomed
    (system_prompt : string) (json_loads : string -> option pyval)
    (json_dumps repr_other : pyval -> string) (str_title : string -> string)
    (llm : list message -> result llm_response) (tools : list tool_spec)
    (tool_map : gmap string tool) (debug : bool) (fresh_session_id now : string)
    (days_until : string -> option Z)
    (get_progress_summary : store -> string -> result pydict)
    (create_welcome_ui_elements : store -> pydict -> pydict -> result pyval)
    (identify_follow_ups : turn_result -> result (list string))
    (create_structured_response :
       store -> string -> list string -> string -> result pyval)
    (add_contextual_quick_replies :
       string -> pyval -> string -> list string -> list message -> result pyval)
    (user_id user_message : string) (user : pydict) (s : agent_state) :
  users (a_store s) !! user_id = Some user -> user <> [] ->
  (forall text, dict_get user "name" <> VStr text) ->
  get_formatted_history (a_store s) fresh_session_id = [] ->
  let out :=
    handle_message system_prompt json_loads json_dumps repr_other str_title llm tools
      tool_map debug fresh_session_id now days_until get_progress_summary
      (create_welcome_message repr_other) create_welcome_ui_elements
      identify_follow_ups create_structured_response add_contextual_quick_replies
      user_id user_message None s in
  exists e,
    out.1 = apology debug now fresh_session_id e
    /\ (debug = false -> cr_error out.1 = Some "An error occurred")
    /\ a_agent_calls out.2 = a_agent_calls s
    /\ a_requests out.2 = a_requests s
    /\ stored_history (a_store out.2) fresh_session_id
       = stored_history (a_store s) fresh_session_id
         ++ [entry now "system" ("Error: " +:+ exn_str e) None].
Proof.
  intros Hu Hne Hname Hh out. subst out.
  rewrite (handle_message_new_session _ _ _ _ _ _ _ _ _ _ _ _ _ _ _ _ _ _ _ _ _ Hh).
  rewrite (session_start_known_user _ _ _ _ _ _ _ _ _ _ _ _ _ _ _ _ _ _ _ Hu Hne).
  cbv zeta.
  assert (Hraise : forall progress,
             exists e,
               create_welcome_message repr_other (a_store s)
                 (UserProfile.get_user_profile days_until (a_store s) user_id) progress
               = Raise e).
  { intros progress. unfold create_welcome_message.
    destruct (profile_name days_until (a_store s) user_id user Hu Hne) as (-> & _).
    destruct (dict_get user "name") as [| | | |text| |] eqn:E;
      try (eexists; reflexivity).
    exfalso. exact (Hname text eq_refl). }
  assert (Hout : forall e s',
             a_agent_calls s' = a_agent_calls s -> a_requests s' = a_requests s ->
             conversation_history (a_store s') = conversation_history (a_store s) ->
             let out :=
               (apology debug now fresh_session_id e,
                with_store s'
                  (add_conversation_message (a_store s') fresh_session_id
                     (entry now "system" ("Error: " +:+ exn_str e) None))) in
             exists e,
               out.1 = apology debug now fresh_session_id e
               /\ (debug = false -> cr_error out.1 = Some "An error occurred")
               /\ a_agent_calls out.2 = a_agent_calls s
               /\ a_requests out.2 = a_requests s
               /\ stored_history (a_store out.2) fresh_session_id
                  = stored_history (a_store s) fresh_session_id
                    ++ [entry now "system" ("Error: " +:+ exn_str e) None]).
  { intros e s' H1 H2 H3 out. subst out. exists e. cbn [fst snd].
    split; [reflexivity|]. split; [intros ->; reflexivity|].
    split; [exact H1|]. split; [exact H2|].
    unfold stored_history, add_conversation_message. simpl.
    rewrite lookup_insert_eq, H3. reflexivity. }
  destruct (get_progress_summary (a_store s) user_id) as [progress|e].
  - destruct (Hraise progress) as [e ->]. apply Hout; reflexivity.
  - apply Hout; reflexivity.
Qed.

(** A user stored without a name. *)
Definition anonymous : pydict :=
  [ ("user_id", VStr "anon"); ("test_type", VStr "SAT") ].

Definition with_anonymous : agent_state :=
  with_store fresh_state
    {| users := <["anon" := anonymous]> (users UserProfileFacts.two_users);
       questions := []; test_results := ∅; quiz_responses := ∅;
       conversation_history := ∅; study_sessions := ∅; quizzes := ∅ |}.

Lemma nameless_user_is_not_welcomed_witness :
  exists e,
    (handle_message "You are a coach." loads_nothing dumps0 repr0 ascii_title
       plain_model define_tools the_tool_map true "session-1" "2025-01-01T00:00:00"
       days0 progress0 (create_welcome_message repr0) welcome_ui0 follow_ups0
       structured0 quick_replies0 "anon" "hi" None with_anonymous).1
    = apology true "2025-01-01T00:00:00" "session-1" e
    /\ a_agent_calls
         (handle_message "You are a coach." loads_nothing dumps0 repr0 ascii_title
            plain_model define_tools the_tool_map true "session-1"
            "2025-01-01T00:00:00" days0 progress0 (create_welcome_message repr0)
            welcome_ui0 follow_ups0 structured0 quick_replies0 "anon" "hi" None
            with_anonymous).2 = 0.
Proof.
  destruct (nameless_user_is_not_welcomed "You are a coach." loads_nothing dumps0
              repr0 ascii_title plain_model define_tools the_tool_map true "session-1"
              "2025-01-01T00:00:00" days0 progress0 welcome_ui0 follow_ups0
              structured0 quick_replies0 "anon" "hi" anonymous with_anonymous)
    as (e & H1 & _ & H3 & _).
  - reflexivity.
  - discriminate.
  - intros text. discriminate.
  - reflexivity.
  - exists e. split; [exact H1|exact H3].
Defined.

Section Greeting.

Variable repr_other : pyval -> string.
Variable days_until : string -> option Z.

(** X25.  For a user with a name and a stored test whose total score is
    truthy, the greeting is the one after an exam: it addresses the
    user by the first word of the name and states the total score of
    the most recent test, whatever the progress summary and the
    baseline say. *)
Theorem greeting_states_the_latest_score (st : store) (user_id full_name word : string)
    (user test progress : pydict) :
  users st !! user_id = Some user ->
  dict_get user "name" = VStr full_name ->
  first_word full_name = Some word ->
  dict_get user "user_id" = VStr user_id -> user_id <> "" ->
  last (get_test_results st user_id) = Some test ->
  sized_sections test ->
  truthy (dict_get test "total_score") = true ->
  create_welcome_message repr_other st
    (UserProfile.get_user_profile days_until st user_id) progress
  = Ok ("Hey " +:+ word +:+ "!"
        +:+ nl +:+ "Well done on that last exam!"
        +:+ nl +:+ "You scored a "
        +:+ QuizManagement.py_str repr_other (dict_get test "total_score")
        +:+ " which is a marked improvement but I think there's still room to grow."
        +:+ nl +:+ "You got this! 😉").
Proof.
  intros Hu Hn Hw Hid Hne Hlast Hs Ht.
  assert (Hne' : user <> []) by (intros ->; discriminate).
  unfold create_welcome_message.
  destruct (profile_name days_until st user_id user Hu Hne') as (-> & -> & _).
  rewrite Hn, Hw, Hid. cbn [rbind].
  assert (Htruthy : truthy (VStr user_id) = true).
  { simpl. destruct (String.eqb_spec user_id ""); [contradiction | reflexivity]. }
  rewrite Htruthy. cbn [latest_test_of].
  assert (Hlatest : get_latest_test_results st user_id None = Ok (test_report test)).
  { unfold get_latest_test_results.
    destruct (get_test_results st user_id) as [|t0 rest] eqn:E; [discriminate|].
    assert (El : List.last (t0 :: rest) [] = test).
    { clear -Hlast. revert t0 Hlast.
      induction rest as [|t1 rest IH]; intros t0 Hlast.
      - simpl in *. congruence.
      - apply (IH t1). exact Hlast. }
    rewrite El, report_sections. unfold sized_sections in Hs.
    destruct (py_len _); [reflexivity | discriminate]. }
  rewrite Hlatest. cbn [rbind].
  change (dict_get (test_report test) "error") with VNone.
  change (dict_get (test_report test) "total_score") with (dict_get test "total_score").
  change (truthy (VDict (test_report test))) with true.
  change (truthy VNone) with false. cbn [negb andb].
  repeat (rewrite Ht; cbn [negb andb]). reflexivity.
Qed.

End Greeting.

(** Suzy after a practice test. *)
Lemma greeting_states_the_latest_score_witness :
  create_welcome_message repr0
    (add_test_result UserProfileFacts.two_users "mock-user" practice_test)
    (UserProfile.get_user_profile days0
       (add_test_result UserProfileFacts.two_users "mock-user" practice_test)
       "mock-user")
    [("total_questions", VInt 0)]
  = Ok ("Hey Suzy!"
        +:+ nl +:+ "Well done on that last exam!"
        +:+ nl +:+ "You scored a 800"
        +:+ " which is a marked improvement but I think there's still room to grow."
        +:+ nl +:+ "You got this! 😉").
Proof.
  apply (greeting_states_the_latest_score repr0 days0
           (add_test_result UserProfileFacts.two_users "mock-user" practice_test)
           "mock-user" "Suzy" "Suzy" UserProfileFacts.suzy practice_test
           [("total_questions", VInt 0)]).
  - reflexivity.
  - reflexivity.
  - reflexivity.
  - reflexivity.
  - discriminate.
  - reflexivity.
  - reflexivity.
  - reflexivity.
Defined.

End WelcomeFacts.

(** ** tools/user_profile.py: the learning history *)

Module LearningHistoryFacts.
Import ProgressTracking LearningHistory QuizManagement Float64Facts
       ProgressTrackingFacts.
Local Open Scope Z_scope.

(** An integer below [2 ^ 1000] in absolute value converts to a finite
    float. *)
Lemma Z2SF_finite (z : Z) (s : bool) :
  Z.abs z < 2 ^ 1000 -> Z2SF z <> S754_infinity s.
Proof.
  intros Hz.
  assert (G : forall (p : positive) (sg : bool),
             Zpos p < 2 ^ 1000 ->
             binary_round prec emax sg p 0 <> S754_infinity s).
  { intros p sg Hp. unfold binary_round.
    destruct (shl_align p 0 _) as [mz ez] eqn:Ea.
    apply shl_align_spec in Ea as (Hez & Hmz & _).
    apply round_aux_finite; [|lia].
    split; [lia|]. rewrite Hmz.
    replace (1000 - ez) with (1000 + (0 - ez)) by lia.
    rewrite Z.pow_add_r by lia.
    apply Z.mul_lt_mono_pos_r; [apply Z.pow_pos_nonneg; lia|exact Hp]. }
  unfold Z2SF, binary_normalize. destruct z as [|p|p].
  - discriminate.
  - apply G. lia.
  - apply G. lia.
Qed.

Lemma float_of_int_ok (z : Z) :
  Z.abs z < 2 ^ 1000 -> float_of_int z = Ok (Z2SF z).
Proof.
  intros Hz. unfold float_of_int.
  pose proof (fun s => Z2SF_finite z s Hz) as Hf.
  destruct (Z2SF z) as [| s0 | |]; try reflexivity.
  exfalso. exact (Hf s0 eq_refl).
Qed.

(** The counts of a topic: at least one response, and no more correct
    ones than responses. *)
Definition sound_counts (counts : Z * Z) : Prop :=
  1 <= counts.1 /\ 0 <= counts.2 <= counts.1.

Definition total_of (stats : list (option string * (Z * Z))) : Z :=
  foldr (fun ts acc => ts.2.1 + acc) 0 stats.

Lemma bump_topic_spec (stats : list (option string * (Z * Z))) (topic : option string)
    (is_correct : bool) :
  NoDup stats.*1 -> Forall (fun ts => sound_counts ts.2) stats ->
  NoDup (bump_topic stats topic is_correct).*1
  /\ Forall (fun ts => sound_counts ts.2) (bump_topic stats topic is_correct)
  /\ total_of (bump_topic stats topic is_correct) = total_of stats + 1
  /\ (forall t, t ∈ (bump_topic stats topic is_correct).*1 <-> t = topic \/ t ∈ stats.*1).
Proof.
  induction stats as [|[t [total correct]] stats IH]; intros Hn Hs.
  - simpl. split; [repeat constructor; apply not_elem_of_nil|].
    split; [|split; [reflexivity|]].
    + repeat constructor; unfold sound_counts; simpl; destruct is_correct; lia.
    + intros t. rewrite list_elem_of_singleton, elem_of_nil. tauto.
  - cbn [bump_topic]. apply NoDup_cons in Hn as [Hn1 Hn2].
    apply Forall_cons in Hs as [Hs1 Hs2].
    destruct (decide (t = topic)) as [->|Hne].
    + rewrite bool_decide_eq_true_2 by reflexivity.
      split; [simpl; apply NoDup_cons; auto|].
      split; [|split].
      * constructor; [|exact Hs2]. unfold sound_counts in *. simpl in *.
        destruct is_correct; lia.
      * unfold total_of. simpl. lia.
      * intros t. simpl. rewrite !elem_of_cons. tauto.
    + rewrite bool_decide_eq_false_2 by exact Hne.
      destruct (IH Hn2 Hs2) as (G1 & G2 & G3 & G4).
      split; [|split; [|split]].
      * simpl. apply NoDup_cons. split; [|exact G1].
        rewrite G4. intros [H|H]; [congruence|contradiction].
      * constructor; assumption.
      * unfold total_of in *. simpl. rewrite G3. lia.
      * intros t'. simpl. rewrite !elem_of_cons, G4. tauto.
Qed.

Lemma topic_stats_spec (responses : list quiz_response) :
  NoDup (topic_stats_of responses).*1
  /\ Forall (fun ts => sound_counts ts.2) (topic_stats_of responses)
  /\ total_of (topic_stats_of responses) = Z.of_nat (length responses)
  /\ (forall t, t ∈ (topic_stats_of responses).*1
                <-> exists r, r ∈ responses /\ qr_topic r = t).
Proof.
  unfold topic_stats_of.
  assert (G : forall stats,
             NoDup stats.*1 -> Forall (fun ts => sound_counts ts.2) stats ->
             let out := fold_left
                          (fun stats r =>
                             bump_topic stats (qr_topic r) (qr_is_correct r))
                          responses stats in
             NoDup out.*1
             /\ Forall (fun ts => sound_counts ts.2) out
             /\ total_of out = total_of stats + Z.of_nat (length responses)
             /\ (forall t, t ∈ out.*1
                           <-> t ∈ stats.*1
                               \/ exists r, r ∈ responses /\ qr_topic r = t)).
  { induction responses as [|r responses IH]; intros stats Hn Hs.
    - simpl. split; [exact Hn|]. split; [exact Hs|]. split; [lia|].
      intros t. split; [auto|]. intros [H|(r & Hr & _)]; [exact H|].
      apply elem_of_nil in Hr. contradiction.
    - cbn [fold_left].
      destruct (bump_topic_spec stats (qr_topic r) (qr_is_correct r) Hn Hs)
        as (B1 & B2 & B3 & B4).
      destruct (IH _ B1 B2) as (G1 & G2 & G3 & G4).
      split; [exact G1|]. split; [exact G2|]. split.
      + rewrite G3, B3. cbn [length]. lia.
      + intros t. rewrite G4, B4. split.
        * intros [[->|H]|(r' & Hr' & H)]; [right|left; exact H|right].
          -- exists r. split; [left|reflexivity].
          -- exists r'. split; [right; exact Hr'|exact H].
        * intros [H|(r' & Hr' & H)]; [auto|].
          apply elem_of_cons in Hr' as [->|Hr']; [left; left; auto|].
          right. eauto. }
  destruct (G [] (NoDup_nil_2) (Forall_nil_2 _)) as (G1 & G2 & G3 & G4).
  split; [exact G1|]. split; [exact G2|]. split; [exact G3|].
  intros t. rewrite G4. simpl. rewrite elem_of_nil. tauto.
Qed.

(** The percentage of sound counts does not raise. *)
Lemma percentage_ok (correct total : Z) :
  1 <= total -> 0 <= correct <= total ->
  percentage correct total
  = Ok (VFloat (fmul (float_of_ratio correct (Z.to_pos total)) (Z2SF 100))).
Proof.
  intros Ht Hc. unfold percentage.
  destruct (Z.ltb_spec 0 total); [|lia].
  destruct total as [|p|p]; try lia.
  rewrite int_truediv_pos; [reflexivity|].
  assert (1 <= 2 ^ 1000) by (apply Z.pow_le_mono_r with (b := 0); lia).
  nia.
Qed.

Definition attempted_of (entries : list (option string * topic_entry)) : Z :=
  foldr (fun e acc => te_attempted e.2 + acc) 0 entries.

Lemma topic_breakdown_ok (stats : list (option string * (Z * Z))) :
  Forall (fun ts => sound_counts ts.2) stats ->
  exists entries,
    topic_breakdown_of stats = Ok entries
    /\ entries.*1 = stats.*1
    /\ attempted_of entries = total_of stats
    /\ Forall (fun e => exists f, te_accuracy e.2 = VFloat f) entries.
Proof.
  induction stats as [|[t [total correct]] stats IH]; intros Hs.
  - exists []. repeat split. constructor.
  - apply Forall_cons in Hs as [[H1 H2] Hs]. simpl in H1, H2.
    destruct (IH Hs) as (entries & E1 & E2 & E3 & E4).
    cbn [topic_breakdown_of]. rewrite (percentage_ok correct total H1 H2), E1.
    cbn [rbind]. eexists. split; [reflexivity|].
    split; [simpl; f_equal; exact E2|]. split.
    + unfold attempted_of, total_of in *. simpl. rewrite E3. reflexivity.
    + constructor; [simpl; eauto|exact E4].
Qed.

Lemma add_date_length (d : Z) (dates : list Z) :
  (length (add_date d dates) <= S (length dates))%nat.
Proof.
  induction dates as [|x dates IH]; simpl; [lia|].
  destruct (x <? d); [simpl; lia|]. destruct (x =? d); simpl; lia.
Qed.

Lemma activity_dates_length (date_of : string -> option Z)
    (responses : list quiz_response) :
  (length (activity_dates date_of responses) <= length responses)%nat.
Proof.
  unfold activity_dates.
  assert (G : forall dates,
             (length (fold_left
                        (fun dates r =>
                           match date_of (qr_timestamp r) with
                           | Some d => add_date d dates
                           | None => dates
                           end) responses dates)
              <= length dates + length responses)%nat).
  { induction responses as [|r responses IH]; intros dates; simpl; [lia|].
    etransitivity; [apply IH|].
    destruct (date_of (qr_timestamp r)) as [d|]; [|lia].
    pose proof (add_date_length d dates). lia. }
  apply (G []).
Qed.

Section Clock.
Set Default Proof Using "Type".

Variable timestamp_of : string -> option spec_float.
Variable date_of : string -> option Z.
Variable now_timestamp : spec_float.
Variable today : Z.

Local Abbreviation history :=
  (get_learning_history timestamp_of date_of now_timestamp today).

(** The responses the report is about: those stamped at or after the
    cutoff, and those whose timestamp does not parse. *)
Definition recent (days : Z) (responses : list quiz_response) : list quiz_response :=
  List.filter (is_recent timestamp_of (fsub now_timestamp (Z2SF (days * 24 * 60 * 60))))
              responses.

(** X26.  For a user of the store and a period a float can hold,
    [get_learning_history] returns a report and does not raise.  The
    report is about the stored responses that are recent or whose
    timestamp does not parse: it counts them, names each of their
    topics once in the breakdown, with attempts that add up to the
    count and an accuracy that is a float, and its streak is between
    zero and the count.  With none of them the accuracy is the integer
    0 and the breakdown is empty. *)
Theorem learning_history_adds_up (st : store) (user_id : string) (user : pydict)
    (days : Z) :
  get_user st user_id = Some user -> user <> [] ->
  Z.abs days < 2 ^ 980 ->
  let counted := recent days (get_quiz_responses st user_id) in
  exists h,
    history st user_id days = Ok (History h)
    /\ lh_period_days h = days
    /\ lh_total_questions_attempted h = length counted
    /\ (forall r, r ∈ get_quiz_responses st user_id ->
                  timestamp_of (qr_timestamp r) = None -> r ∈ counted)
    /\ lh_topics_practiced h = length (lh_topic_breakdown h)
    /\ NoDup (lh_topic_breakdown h).*1
    /\ (forall t, t ∈ (lh_topic_breakdown h).*1
                  <-> exists r, r ∈ counted /\ qr_topic r = t)
    /\ attempted_of (lh_topic_breakdown h) = Z.of_nat (length counted)
    /\ Forall (fun e => exists f, te_accuracy e.2 = VFloat f) (lh_topic_breakdown h)
    /\ 0 <= lh_current_streak_days h <= Z.of_nat (length counted)
    /\ (counted = [] -> lh_accuracy_rate h = VInt 0 /\ lh_topic_breakdown h = []).
Proof.
  intros Hu Hne Hdays counted. unfold get_learning_history. rewrite Hu.
  destruct user as [|kv user]; [contradiction|].
  rewrite float_of_int_ok.
  2:{ assert (E : 2 ^ 1000 = 2 ^ 980 * 2 ^ 20) by (rewrite <- Z.pow_add_r by lia; reflexivity).
      rewrite E. assert (0 < 2 ^ 980) by (apply Z.pow_pos_nonneg; lia).
      change (2 ^ 20) with 1048576. lia. }
  cbn [rbind]. fold (recent days (get_quiz_responses st user_id)). fold counted.
  destruct (topic_stats_spec counted) as (S1 & S2 & S3 & S4).
  destruct (topic_breakdown_ok _ S2) as (entries & E1 & E2 & E3 & E4).
  assert (Hp : exists accuracy,
             percentage (Z.of_nat (length (List.filter qr_is_correct counted)))
                        (Z.of_nat (length counted)) = Ok accuracy
             /\ (counted = [] -> accuracy = VInt 0)).
  { destruct counted as [|r rest] eqn:Ec.
    - exists (VInt 0). split; [reflexivity|auto].
    - rewrite <- Ec. rewrite percentage_ok.
      + eexists. split; [reflexivity|]. rewrite Ec. discriminate.
      + rewrite Ec. cbn [length]. lia.
      + split; [lia|]. apply inj_le. apply List.filter_length_le. }
  destruct Hp as (accuracy & -> & Hacc). cbn [rbind]. rewrite E1. cbn [rbind].
  eexists. split; [reflexivity|].
  cbn [lh_period_days lh_total_questions_attempted lh_topics_practiced
       lh_topic_breakdown lh_current_streak_days lh_accuracy_rate].
  split; [reflexivity|]. split; [reflexivity|]. split.
  { intros r Hr Ht. unfold counted, recent.
    apply list_elem_of_In, List.filter_In. split; [apply list_elem_of_In; exact Hr|].
    unfold is_recent. rewrite Ht. reflexivity. }
  split.
  { rewrite <- (length_fmap fst entries), E2, length_fmap. reflexivity. }
  split; [rewrite E2; exact S1|].
  split; [intros t; rewrite E2; apply S4|].
  split; [rewrite E3; exact S3|].
  split; [exact E4|].
  split.
  { pose proof (activity_dates_length date_of counted) as Hl.
    destruct (activity_dates date_of counted) as [|d l] eqn:Ed; [lia|].
    pose proof (count_streak_bounds (d :: l) today). lia. }
  intros Hc. split.
  - rewrite (Hacc Hc). reflexivity.
  - rewrite Hc in E1. simpl in E1. congruence.
Qed.

End Clock.

(** A user with responses dated on three days and one whose timestamp does not
    parse; the clock reads day 100. *)
Definition stamp_of (timestamp : string) : option spec_float :=
  match day_of timestamp with
  | Some d => Some (Z2SF (d * 86400))
  | None => None
  end.

Definition suzy_history : store :=
  fold_left (fun st r => add_quiz_response st "mock-user" r)
    (three_days ++ [response_on "yesterday"]) UserProfileFacts.two_users.

Lemma learning_history_adds_up_witness :
  exists h,
    get_learning_history stamp_of day_of (Z2SF (100 * 86400)) 100
      suzy_history "mock-user" 1 = Ok (History h)
    /\ lh_total_questions_attempted h = 4%nat
    /\ attempted_of (lh_topic_breakdown h) = 4.
Proof.
  destruct (learning_history_adds_up stamp_of day_of (Z2SF (100 * 86400)) 100
              suzy_history "mock-user" UserProfileFacts.suzy 1)
    as (h & H1 & _ & H3 & _ & _ & _ & _ & H8 & _).
  - reflexivity.
  - discriminate.
  - simpl. lia.
  - exists h. split; [exact H1|].
    split; (etransitivity; [eassumption|vm_compute; reflexivity]).
Defined.

End LearningHistoryFacts.

(** ** agents/orchestrator.py: the quick replies *)

Module QuickRepliesFacts.
Import LlmClient Presentation QuickReplies PresentationFacts.

Definition is_button (v : pyval) : Prop :=
  exists text action, v = button text action.

(** Three or four buttons. *)
Definition button_row (replies : list pyval) : Prop :=
  (length replies = 3 \/ length replies = 4) /\ Forall is_button replies.

Ltac button_row :=
  split; [simpl; auto | repeat constructor; eexists; eexists; reflexivity].

Lemma quiz_complete_replies_row (accuracy : pyval) (total : Z) (replies : list pyval) :
  quiz_complete_replies accuracy total = Ok replies -> button_row replies.
Proof.
  unfold quiz_complete_replies.
  repeat destruct (QuizManagement.at_least _ _);
    destruct (shown_correct accuracy total); try discriminate;
    intros [= <-]; button_row.
Qed.

Lemma contents_of_texts (messages : list message) :
  Forall (fun m => content m <> None) messages ->
  exists texts, contents_of messages = Ok texts.
Proof.
  induction messages as [|m messages IH]; intros H; [exists []; reflexivity|].
  apply Forall_cons in H as [H1 H2]. destruct (IH H2) as (texts & E).
  simpl. destruct (content m) as [text|]; [|contradiction].
  rewrite E. eexists. reflexivity.
Qed.

Lemma conversation_context_texts (conversation_history : list message) :
  Forall (fun m => content m <> None) conversation_history ->
  exists context, conversation_context_of conversation_history = Ok context.
Proof.
  intros H. unfold conversation_context_of.
  destruct conversation_history as [|m rest] eqn:E; [eexists; reflexivity|].
  rewrite <- E in *. clear E.
  destruct (contents_of_texts (last_n 3 conversation_history)) as (texts & ->).
  - unfold last_n. apply Forall_drop. exact H.
  - eexists. reflexivity.
Qed.

Section QuickReplies.
Set Default Proof Using "Type".

Variable search_accuracy : string -> option (option string * option string).
Variable py_int : string -> result Z.

Local Abbreviation quick :=
  (add_contextual_quick_replies search_accuracy py_int).

Lemma quiz_complete_attempt_row (groups : option string * option string)
    (replies : list pyval) :
  quiz_complete_attempt py_int groups = Ok replies -> button_row replies.
Proof.
  unfold quiz_complete_attempt.
  destruct (match groups.1 with Some (String _ _ as digits) => py_int digits
                              | _ => Ok 0%Z end) as [correct|]; [|discriminate].
  cbn [rbind].
  destruct (match groups.2 with Some (String _ _ as digits) => py_int digits
                              | _ => Ok 20%Z end) as [total|]; [|discriminate].
  cbn [rbind].
  destruct (if (0 <? total)%Z then _ else _) as [accuracy|]; [|discriminate].
  cbn [rbind]. apply quiz_complete_replies_row.
Qed.

(** On a [ui_elements] without quick replies, or with a row of them,
    and a history of texts. *)
Lemma quick_replies_row (response_text : string) (ui : ui_elements)
    (user_message : string) (tools_used : list string)
    (conversation_history : list message) :
  Forall (fun m => content m <> None) conversation_history ->
  ui_quick_replies ui = []
  \/ (button_row (ui_quick_replies ui)
      /\ forallb printable (ui_quick_replies ui) = true) ->
  exists replies,
    quick response_text ui user_message tools_used conversation_history
    = Ok (set_quick_replies replies ui)
    /\ button_row replies.
Proof.
  intros Hh Hui. unfold add_contextual_quick_replies.
  destruct (conversation_context_texts conversation_history Hh) as (context & ->).
  cbn [rbind].
  assert (Htail : exists replies,
             (let ui0 :=
                match ui_quick_replies ui with
                | [] => set_quick_replies default_replies ui
                | _ => ui
                end in
              if forallb printable (ui_quick_replies ui0) then Ok ui0
              else Raise (AttributeError "object has no attribute 'get'"))
             = Ok (set_quick_replies replies ui) /\ button_row replies).
  { destruct Hui as [E|[Hrow Hp]].
    - rewrite E. exists default_replies. split; [reflexivity|button_row].
    - destruct (ui_quick_replies ui) as [|r rest] eqn:E.
      + destruct Hrow as [[H|H] _]; discriminate.
      + rewrite <- E in *. cbv zeta. rewrite Hp. exists (ui_quick_replies ui).
        split; [|exact Hrow]. destruct ui; reflexivity. }
  repeat lazymatch goal with
    | |- exists _, (if ?c then _ else _) = _ /\ _ =>
        first
          [ exact Htail
          | lazymatch type of c with
            | bool => destruct c; [try (eexists; split; [reflexivity|button_row])|]
            end ]
    end.
  - destruct (search_accuracy response_text) as [groups|].
    + destruct (quiz_complete_attempt py_int groups) as [replies|] eqn:E.
      * exists replies. split; [reflexivity|].
        eapply quiz_complete_attempt_row. exact E.
      * eexists. split; [reflexivity|button_row].
    + eexists. split; [reflexivity|button_row].
  - eexists. split; [reflexivity|button_row].
  - destruct (List.filter _ _); eexists; (split; [reflexivity|button_row]).
Qed.

Variable repr_other : pyval -> string.
Variable get_progress_summary : store -> string -> result pydict.
Variable generate_bar_chart_data : store -> string -> result pydict.
Variable analyze_performance_by_topic :
  store -> string -> string -> string -> result pydict.

Local Abbreviation build :=
  (create_structured_response repr_other get_progress_summary
     generate_bar_chart_data analyze_performance_by_topic).

(** The quick replies of the structured response: none, or the three
    buttons of the quiz card. *)
Lemma structured_quick_replies (st : store) (text : string) (tools_used : list string)
    (user_id : string) (ui : ui_elements) :
  build st text tools_used user_id = Ok ui ->
  ui_quick_replies ui = []
  \/ (button_row (ui_quick_replies ui)
      /\ forallb printable (ui_quick_replies ui) = true).
Proof.
  unfold create_structured_response.
  destruct tools_used as [|t0 rest] eqn:Et; [intros [= <-]; left; reflexivity|].
  rewrite <- Et. clear Et.
  destruct (progress_step _ _ _ _ _ _) as [ui1|] eqn:E1; [|discriminate].
  cbn [rbind].
  destruct (bar_chart_step _ _ _ _ _) as [ui3|] eqn:E3; [|discriminate].
  cbn [rbind]. intros E4.
  apply progress_step_spec in E1. apply bar_chart_step_spec in E3.
  apply performance_step_spec in E4.
  assert (Q1 : ui_quick_replies ui1 = []).
  { destruct E1 as [->|(_ & card & chart & ->)]; reflexivity. }
  assert (Q3 : ui_quick_replies ui3 = ui_quick_replies (quiz_step tools_used ui1)).
  { destruct E3 as [->|(_ & chart & ->)]; reflexivity. }
  assert (Q4 : ui_quick_replies ui = ui_quick_replies ui3).
  { destruct E4 as [->|(_ & card & ->)]; reflexivity. }
  rewrite Q4, Q3. unfold quiz_step.
  destruct (bool_decide _); [right|left; exact Q1].
  cbn [ui_quick_replies add_card extend_quick_replies]. rewrite Q1.
  split; [button_row|reflexivity].
Qed.

(** X27.  The two builders of a turn in a row, on a history of texts:
    when [_create_structured_response] returns,
    [_add_contextual_quick_replies] returns as well, leaves the cards
    and the charts as they are, and leaves three or four quick
    replies, each a dict of a text and an action. *)
Theorem turn_ends_with_a_row_of_buttons (st : store) (response_text : string)
    (tools_used : list string) (user_id user_message : string)
    (conversation_history : list message) (ui : ui_elements) :
  Forall (fun m => content m <> None) conversation_history ->
  build st response_text tools_used user_id = Ok ui ->
  exists ui',
    quick response_text ui user_message tools_used conversation_history = Ok ui'
    /\ ui_cards ui' = ui_cards ui /\ ui_charts ui' = ui_charts ui
    /\ (length (ui_quick_replies ui') = 3 \/ length (ui_quick_replies ui') = 4)
    /\ Forall is_button (ui_quick_replies ui').
Proof.
  intros Hh Hb. apply structured_quick_replies in Hb.
  destruct (quick_replies_row response_text ui user_message tools_used
              conversation_history Hh Hb) as (replies & E & Hlen & Hbt).
  exists (set_quick_replies replies ui).
  split; [exact E|]. repeat split; assumption.
Qed.

End QuickReplies.

(** A turn in which the model had a quiz generated, after one message
    of the user. *)
Lemma turn_ends_with_a_row_of_buttons_witness :
  exists ui,
    create_structured_response LlmClientFacts.repr0 OrchestratorFacts.progress0 bars0
      perf0 UserProfileFacts.two_users "Your quiz is ready." ["generate_adaptive_quiz"]
      "mock-user" = Ok ui
    /\ exists ui',
         add_contextual_quick_replies (fun _ => None) (fun _ => Ok 0%Z)
           "Your quiz is ready." ui "quiz me" ["generate_adaptive_quiz"]
           [text_message "user" "hello"] = Ok ui'
         /\ ui_cards ui' = ui_cards ui /\ ui_charts ui' = ui_charts ui
         /\ (length (ui_quick_replies ui') = 3 \/ length (ui_quick_replies ui') = 4)
         /\ Forall is_button (ui_quick_replies ui').
Proof.
  eexists. split; [reflexivity|].
  apply (turn_ends_with_a_row_of_buttons (fun _ => None) (fun _ => Ok 0%Z)
           LlmClientFacts.repr0 OrchestratorFacts.progress0 bars0 perf0
           UserProfileFacts.two_users "Your quiz is ready." ["generate_adaptive_quiz"]
           "mock-user" "quiz me" [text_message "user" "hello"]).
  - repeat constructor. discriminate.
  - reflexivity.
Defined.

End QuickRepliesFacts.

(** ** main.py *)

Module ApiFacts.
Import UserProfile QuizManagement Api.

(** X28.  What the endpoints answer about the user.  For a user id the
    store does not know, the profile endpoint answers 404 and the quiz
    endpoint 400, each with its own text.  A profile that is returned
    is that of a stored user, with the stored name, and has no
    ["error"] key.  The quiz endpoint answers an error with 400 or 500
    only, and then the store is as before the request. *)
Theorem endpoints_refuse_unknown_users (days_until : string -> option Z)
    (repr_other : pyval -> string) (ent : quiz_entropy) (st : store)
    (user_id : string) (config : QuizConfig) :
  (get_user st user_id = None ->
   get_profile days_until st user_id = HTTPException 404 (VStr "User not found")
   /\ create_quiz repr_other ent st user_id config
      = (HTTPException 400 (VStr ("User not found: " ++ user_id)), st))
  /\ (forall profile,
        get_profile days_until st user_id = Returned profile ->
        exists user,
          get_user st user_id = Some user /\ user <> []
          /\ dict_get profile "name" = dict_get user "name"
          /\ dict_get profile "user_id" = dict_get user "user_id"
          /\ dict_lookup profile "error" = None)
  /\ (forall status_code detail st',
        create_quiz repr_other ent st user_id config
        = (HTTPException status_code detail, st') ->
        st' = st /\ (status_code = 400%Z \/ status_code = 500%Z)).
Proof.
  split; [|split].
  - intros Hu. unfold get_profile, create_quiz, get_user_profile, generate_adaptive_quiz.
    rewrite Hu. split; reflexivity.
  - intros profile. unfold get_profile, get_user_profile.
    destruct (get_user st user_id) as [[|kv user]|]; try discriminate.
    cbn [dict_lookup String.eqb Ascii.eqb Bool.eqb]. intros [= <-].
    eexists. split; [reflexivity|]. split; [discriminate|]. repeat split.
  - intros status_code detail st'. unfold create_quiz, generate_adaptive_quiz.
    destruct (get_user st user_id) as [[|kv user]|];
      try (intros [= <- <- <-]; auto).
    cbv zeta.
    destruct (unseen_questions _ _ _); [intros [= <- <- <-]; auto|].
    destruct (select_questions ent _ _); [discriminate|].
    intros [= <- <- <-]. auto.
Qed.

End ApiFacts.
